(** * Modexia Python SDK: the request lifecycle of [ModexiaClient]

    A shallow embedding of [src/modexia/client.py]: the transport wrapper
    [_request], the identity and balance helpers, [transfer] with its
    status poller [_poll_status], and the paywall negotiation of
    [smart_fetch] / [_negotiate_paywall].

    Python values are embedded as the inductive [pyval]; the network, the
    clock and the UUID generator are an explicit world that every method
    threads through a small state-and-exception monad.  Text is modelled
    with Rocq's [string] of 8-bit characters, read as Latin-1 (the way a
    header value is decoded); letter case is that of the ASCII letters. *)

From Stdlib Require Import String Ascii List Bool ZArith NArith QArith Lia Lqa.
From Stdlib Require Import DecimalString SpecFloat.
Import ListNotations.

Open Scope string_scope.
Open Scope Z_scope.

Set Warnings "-register-all".

(* ===================================================================== *)
(** * Python text primitives used by the client *)
(* ===================================================================== *)

Module PyStr.

Definition code (c : ascii) : N := N_of_ascii c.

Definition between (lo hi : N) (c : ascii) : bool :=
  (lo <=? code c)%N && (code c <=? hi)%N.

Definition is_digit (c : ascii) : bool := between 48 57 c.
Definition is_lower (c : ascii) : bool := between 97 122 c.
Definition is_upper (c : ascii) : bool := between 65 90 c.

(** [str.upper()] / [str.lower()] on ASCII text. *)
Definition upper_char (c : ascii) : ascii :=
  if is_lower c then ascii_of_N (code c - 32) else c.

Definition lower_char (c : ascii) : ascii :=
  if is_upper c then ascii_of_N (code c + 32) else c.

Fixpoint upper (s : string) : string :=
  match s with
  | EmptyString => EmptyString
  | String c s' => String (upper_char c) (upper s')
  end.

Fixpoint lower (s : string) : string :=
  match s with
  | EmptyString => EmptyString
  | String c s' => String (lower_char c) (lower s')
  end.

(** [s[:n]] *)
Definition slice_to (n : nat) (s : string) : string := substring 0 n s.

(** [s.startswith(p)], also used to match a literal at the current
    position of a regular-expression scan. *)
Fixpoint startswith (p s : string) : bool :=
  match p, s with
  | EmptyString, _ => true
  | String a p', String b s' => Ascii.eqb a b && startswith p' s'
  | String _ _, EmptyString => false
  end.

Fixpoint drop (n : nat) (s : string) : string :=
  match n, s with
  | O, _ => s
  | S n', String _ s' => drop n' s'
  | S _, EmptyString => EmptyString
  end.

(** The double-quote character (code point 34). *)
Definition dquote : ascii := Eval cbv in ascii_of_N 34.

(** The longest prefix without a double quote, and what follows it: the
    greedy negated class (one or more characters other than the quote)
    of the paywall patterns. *)
Fixpoint span_unquoted (s : string) : string * string :=
  match s with
  | EmptyString => (EmptyString, EmptyString)
  | String c s' =>
      if Ascii.eqb c dquote then (EmptyString, s)
      else let (run, rest) := span_unquoted s' in (String c run, rest)
  end.

(** One attempt, anchored at the head of [s], of the pattern made of
    [key], an equals sign, a quote, the capturing group of one or more
    non-quote characters, and a closing quote; the result is group 1. *)
Definition match_attr_here (key s : string) : option string :=
  let opener := key ++ String "=" (String dquote EmptyString) in
  if startswith opener s then
    match span_unquoted (drop (String.length opener) s) with
    | (EmptyString, _) => None
    | (run, String _ _) => Some run
    | (_, EmptyString) => None
    end
  else None.

(** [re.search] for that pattern: group 1 at the leftmost position where
    the pattern matches; [None] when there is no match. *)
Fixpoint search_attr (key s : string) : option string :=
  match match_attr_here key s with
  | Some g => Some g
  | None =>
      match s with
      | EmptyString => None
      | String _ s' => search_attr key s'
      end
  end.

(** [str(n)] for a Python [int]. *)
Definition of_int (z : Z) : string := NilEmpty.string_of_int (Z.to_int z).

End PyStr.

(* ===================================================================== *)
(** * Python floats: [float(text)] and [str(x)] *)
(* ===================================================================== *)

(** A Python [float] is an IEEE 754 binary64 value, here a [spec_float]
    with 53 bits of precision and infinities at exponent 1024.  [float]
    rounds the decimal numeral to the nearest such value (ties to even);
    [str] prints the shortest decimal numeral that reads back as the same
    value. *)
Module PyFloat.

Definition prec : Z := 53.
Definition emax : Z := 1024.

Definition t : Type := spec_float.

Definition eqb (x y : t) : bool :=
  match x, y with
  | S754_zero a, S754_zero b => Bool.eqb a b
  | S754_infinity a, S754_infinity b => Bool.eqb a b
  | S754_nan, S754_nan => true
  | S754_finite a m e, S754_finite b n f =>
      Bool.eqb a b && Pos.eqb m n && Z.eqb e f
  | _, _ => false
  end.

(** Truth value of a float: every value but zero is true. *)
Definition truthy (x : t) : bool :=
  match x with S754_zero _ => false | _ => true end.

(** ** Reading a numeral *)

(** The value [m * 10^e] rounded to binary64, for [m >= 0].  Numerals
    that are certainly beyond the largest float, or certainly below half
    the smallest one, are answered from the size of [m] and [e] alone;
    the others are rounded from the exact integer, or from the exact
    quotient with its remainder as the rounding location. *)
Definition round_decimal (neg : bool) (m e : Z) : t :=
  match m with
  | Zpos p =>
      let lg := Z.log2 m in
      if 0 <=? e then
        if 1025 <=? lg + 3 * e then S754_infinity neg
        else binary_round prec emax neg (Z.to_pos (m * 10 ^ e)) 0
      else if lg + 1 + 3 * e <? -1075 then S754_zero neg
      else
        let d := 10 ^ (- e) in
        let s := Z.max 0 (Z.log2 d - lg + 56) in
        let (q, r) := Z.div_eucl (Z.shiftl m s) d in
        binary_round_aux prec emax neg q (- s) (new_location d r)
  | _ => S754_zero neg
  end.

(** The blanks [float] strips from both ends of ASCII text. *)
Definition is_space (c : ascii) : bool :=
  PyStr.between 9 13 c || PyStr.between 32 32 c.

(** Text with a character beyond ASCII is brought down to ASCII before it
    is read: characters below 127 stay, a Unicode blank becomes a space,
    and the text is cut at the first other character, which is left as a
    question mark.  In 8-bit text (a header is decoded as Latin-1) the
    Unicode blanks beyond ASCII are U+0085 and U+00A0, and no character
    beyond ASCII is a decimal digit. *)
Definition is_ascii (s : list ascii) : bool :=
  forallb (fun c => (PyStr.code c <? 128)%N) s.

Definition is_unicode_space (c : ascii) : bool :=
  (PyStr.code c =? 133)%N || (PyStr.code c =? 160)%N.

Fixpoint to_ascii (s : list ascii) : list ascii :=
  match s with
  | [] => []
  | c :: s' =>
      if (PyStr.code c <? 127)%N then c :: to_ascii s'
      else if is_unicode_space c then " "%char :: to_ascii s'
      else ["?"%char]
  end.

Fixpoint lstrip (s : list ascii) : list ascii :=
  match s with
  | c :: s' => if is_space c then lstrip s' else s
  | [] => []
  end.

Definition strip (s : list ascii) : list ascii :=
  rev (lstrip (rev (lstrip s))).

(** Underscores may only stand between two digits; they are removed. *)
Fixpoint drop_underscores (prev : ascii) (s : list ascii)
  : option (list ascii) :=
  match s with
  | [] => if Ascii.eqb prev "_" then None else Some []
  | c :: s' =>
      if Ascii.eqb c "_" then
        if PyStr.is_digit prev then drop_underscores c s' else None
      else if Ascii.eqb prev "_" && negb (PyStr.is_digit c) then None
      else option_map (cons c) (drop_underscores c s')
  end.

Fixpoint span_digits (s : list ascii) : list ascii * list ascii :=
  match s with
  | c :: s' =>
      if PyStr.is_digit c
      then let (ds, rest) := span_digits s' in (c :: ds, rest)
      else ([], s)
  | [] => ([], [])
  end.

Definition digits_value (ds : list ascii) : Z :=
  fold_left (fun acc c => 10 * acc + (Z.of_N (PyStr.code c) - 48)) ds 0.

Definition take_sign (s : list ascii) : bool * list ascii :=
  match s with
  | c :: s' =>
      if Ascii.eqb c "-" then (true, s')
      else if Ascii.eqb c "+" then (false, s')
      else (false, s)
  | [] => (false, [])
  end.

Definition lower_list (s : list ascii) : list ascii := map PyStr.lower_char s.

Definition list_eqb (a b : list ascii) : bool :=
  String.eqb (string_of_list_ascii a) (string_of_list_ascii b).

(** [inf], [infinity] and [nan] in any letter case. *)
Definition parse_inf_or_nan (neg : bool) (s : list ascii) : option t :=
  let w := lower_list s in
  if list_eqb w (list_ascii_of_string "inf")
     || list_eqb w (list_ascii_of_string "infinity")
  then Some (S754_infinity neg)
  else if list_eqb w (list_ascii_of_string "nan") then Some S754_nan
  else None.

(** The exponent part: [e] or [E], an optional sign, at least one digit.
    Anything else leaves the input unread. *)
Definition parse_exponent (s : list ascii) : Z * list ascii :=
  match s with
  | c :: s' =>
      if Ascii.eqb c "e" || Ascii.eqb c "E" then
        let (eneg, s1) := take_sign s' in
        let (ds, rest) := span_digits s1 in
        match ds with
        | [] => (0, s)
        | _ => ((if eneg then - digits_value ds else digits_value ds), rest)
        end
      else (0, s)
  | [] => (0, [])
  end.

Definition parse_decimal (neg : bool) (s : list ascii) : option t :=
  let (ip, s1) := span_digits s in
  let (fp, s2) :=
    match s1 with
    | c :: s1' => if Ascii.eqb c "." then span_digits s1' else ([], s1)
    | [] => ([], [])
    end in
  match (ip ++ fp)%list with
  | [] => None
  | ds =>
      match parse_exponent s2 with
      | (e, []) =>
          Some (round_decimal neg (digits_value ds) (e - Z.of_nat (length fp)))
      | (_, _ :: _) => None
      end
  end.

(** [float(text)]; [None] stands for the [ValueError] of an unreadable
    numeral. *)
Definition of_string (text : string) : option t :=
  let raw := list_ascii_of_string text in
  match drop_underscores " " (strip (if is_ascii raw then raw else to_ascii raw)) with
  | None => None
  | Some s =>
      let (neg, body) := take_sign s in
      match parse_inf_or_nan neg body with
      | Some x => Some x
      | None => parse_decimal neg body
      end
  end.

(** ** Printing a float *)

Section Shortest.
(** The positive value [num / den] being printed. *)
Variables num den : Z.

(** [num / den < 10^p] *)
Definition below_pow10 (p : Z) : bool :=
  if 0 <=? p then num <? den * 10 ^ p else num * 10 ^ (- p) <? den.

(** The decimal point position: [10^(p-1) <= num/den < 10^p]. *)
Fixpoint find_decpt (fuel : nat) (p : Z) : Z :=
  match fuel with
  | O => p
  | S fuel' =>
      if below_pow10 (p - 1) then find_decpt fuel' (p - 1)
      else if below_pow10 p then p
      else find_decpt fuel' (p + 1)
  end.

(** The [n]-digit numeral nearest to the value among those that read
    back as [x], if there is one: the candidates are the two [n]-digit
    neighbours of the value. *)
Definition nearest_with (x : t) (p : Z) (n : Z) : option Z :=
  let k := n - p in
  let (a, b) := if 0 <=? k then (num * 10 ^ k, den)
                else (num, den * 10 ^ (- k)) in
  let (lo, r) := Z.div_eucl a b in
  let reads c := (0 <? c) && eqb (round_decimal false c (p - n)) x in
  let ok_lo := reads lo in
  let ok_hi := negb (r =? 0) && reads (lo + 1) in
  if ok_lo && ok_hi then
    match 2 * r ?= b with
    | Lt => Some lo
    | Gt => Some (lo + 1)
    | Eq => Some (if Z.even lo then lo else lo + 1)
    end
  else if ok_lo then Some lo
  else if ok_hi then Some (lo + 1)
  else None.

Fixpoint shortest_from (fuel : nat) (x : t) (p : Z) (n : Z) : Z * Z :=
  match fuel with
  | O => (fst (Z.div_eucl (num * 10 ^ Z.max 0 (n - p)) den), n)
  | S fuel' =>
      match nearest_with x p n with
      | Some c => (c, n)
      | None => shortest_from fuel' x p (n + 1)
      end
  end.
End Shortest.

Fixpoint rstrip_zeros_rev (r : list ascii) : list ascii :=
  match r with
  | c :: r' => if Ascii.eqb c "0" then rstrip_zeros_rev r' else r
  | [] => []
  end.

(** Significant digits without trailing zeros, at least one digit. *)
Definition trim_digits (ds : list ascii) : list ascii :=
  match rev (rstrip_zeros_rev (rev ds)) with
  | [] => ["0"%char]
  | l => l
  end.

(** The shortest digit string of a positive finite value [m * 2^e] and
    its decimal point position: value = 0.d1d2... * 10^decpt. *)
Definition shortest_digits (m : positive) (e : Z) : list ascii * Z :=
  let num := Zpos m * 2 ^ Z.max e 0 in
  let den := 2 ^ Z.max (- e) 0 in
  let p0 := (Z.log2 (Zpos m) + e) * 30103 / 100000 + 1 in
  let p := find_decpt num den 700 p0 in
  let (c, n) := shortest_from num den 17 (S754_finite false m e) p 1 in
  let ds := list_ascii_of_string (PyStr.of_int c) in
  (trim_digits ds, p + (Z.of_nat (length ds) - n)).

Definition zeros (n : Z) : list ascii := repeat "0"%char (Z.to_nat n).

(** The exponent of the scientific form: a sign and at least two digits. *)
Definition exponent_text (x : Z) : list ascii :=
  let ds := list_ascii_of_string (PyStr.of_int (Z.abs x)) in
  let sign := if x <? 0 then "-"%char else "+"%char in
  let pad := if Z.abs x <? 10 then ["0"%char] else [] in
  (sign :: pad ++ ds)%list.

(** Layout of [repr]: scientific when the point position is at most -4
    or above 16, positional otherwise, with [.0] added to a positional
    integer. *)
Definition layout (ds : list ascii) (decpt : Z) : list ascii :=
  let n := Z.of_nat (length ds) in
  (if (decpt <=? -4) || (16 <? decpt) then
     match ds with
     | [] => []
     | d :: [] => d :: "e"%char :: exponent_text (decpt - 1)
     | d :: rest => d :: "."%char :: rest ++ "e"%char :: exponent_text (decpt - 1)
     end
   else if decpt <=? 0 then
     "0"%char :: "."%char :: zeros (- decpt) ++ ds
   else if n <=? decpt then
     ds ++ zeros (decpt - n) ++ ["."%char; "0"%char]
   else
     firstn (Z.to_nat decpt) ds ++ "."%char :: skipn (Z.to_nat decpt) ds)%list.

(** [str(x)], which is [repr(x)], for a float. *)
Definition to_string (x : t) : string :=
  match x with
  | S754_nan => "nan"
  | S754_infinity neg => if neg then "-inf" else "inf"
  | S754_zero neg => if neg then "-0.0" else "0.0"
  | S754_finite neg m e =>
      let (ds, decpt) := shortest_digits m e in
      (if neg then "-" else "") ++ string_of_list_ascii (layout ds decpt)
  end.

End PyFloat.

(* ===================================================================== *)
(** * Python values *)
(* ===================================================================== *)

(** The values the client handles: what [json()] decodes to, plus the
    dictionaries the client builds itself.  A [dict] keeps its insertion
    order, so it is an association list; its keys are strings. *)
Inductive pyval : Type :=
| PNone
| PBool (b : bool)
| PInt (n : Z)
| PFloat (x : PyFloat.t)
| PStr (s : string)
| PList (items : list pyval)
| PDict (entries : list (string * pyval)).

Definition pydict : Type := list (string * pyval).

Module Py.

(** Truth value of an object, as tested by [if] and [and]. *)
Definition truthy (v : pyval) : bool :=
  match v with
  | PNone => false
  | PBool b => b
  | PInt n => negb (n =? 0)
  | PFloat x => PyFloat.truthy x
  | PStr s => negb (String.eqb s "")
  | PList l => match l with [] => false | _ => true end
  | PDict d => match d with [] => false | _ => true end
  end.

Definition hex_digit (n : N) : ascii :=
  if (n <? 10)%N then ascii_of_N (48 + n) else ascii_of_N (87 + n).

Definition backslash : ascii := Eval cbv in ascii_of_N 92.
Definition squote : ascii := Eval cbv in ascii_of_N 39.

Fixpoint contains (c : ascii) (s : string) : bool :=
  match s with
  | EmptyString => false
  | String a s' => Ascii.eqb a c || contains c s'
  end.

(** The body of [repr] of a string delimited by [quote]. *)
Fixpoint escape (quote : ascii) (s : string) : string :=
  match s with
  | EmptyString => EmptyString
  | String c s' =>
      let n := PyStr.code c in
      let rest := escape quote s' in
      if Ascii.eqb c quote || Ascii.eqb c backslash
      then String backslash (String c rest)
      else if (n =? 9)%N then String backslash (String "t" rest)
      else if (n =? 10)%N then String backslash (String "n" rest)
      else if (n =? 13)%N then String backslash (String "r" rest)
      else if (n <? 32)%N || (n =? 127)%N
      then String backslash
             (String "x" (String (hex_digit (n / 16))
                                 (String (hex_digit (n mod 16)) rest)))
      else String c rest
  end.

(** [repr(s)]: single quotes, unless the text has a single quote and no
    double quote. *)
Definition repr_str (s : string) : string :=
  let quote := if contains squote s && negb (contains PyStr.dquote s)
               then PyStr.dquote else squote in
  String quote (escape quote s ++ String quote EmptyString).

Fixpoint join (sep : string) (parts : list string) : string :=
  match parts with
  | [] => ""
  | [p] => p
  | p :: rest => p ++ sep ++ join sep rest
  end.

(** [repr(v)] *)
Fixpoint repr (v : pyval) : string :=
  match v with
  | PNone => "None"
  | PBool b => if b then "True" else "False"
  | PInt n => PyStr.of_int n
  | PFloat x => PyFloat.to_string x
  | PStr s => repr_str s
  | PList l => "[" ++ join ", " (map repr l) ++ "]"
  | PDict d =>
      "{" ++ join ", " (map (fun kv => repr_str (fst kv) ++ ": " ++ repr (snd kv)) d)
          ++ "}"
  end.

(** [str(v)], also what an f-string substitutes for [{v}]. *)
Definition str (v : pyval) : string :=
  match v with
  | PStr s => s
  | _ => repr v
  end.

(** ** Dictionaries *)

Fixpoint lookup (d : pydict) (k : string) : option pyval :=
  match d with
  | [] => None
  | (k', v) :: d' => if String.eqb k' k then Some v else lookup d' k
  end.

(** [d.get(k, default)] *)
Definition dict_get (d : pydict) (k : string) (default : pyval) : pyval :=
  match lookup d k with
  | Some v => v
  | None => default
  end.

(** [d[k] = v]: an existing key keeps its position, a new one goes last. *)
Fixpoint dict_set (d : pydict) (k : string) (v : pyval) : pydict :=
  match d with
  | [] => [(k, v)]
  | (k', v') :: d' =>
      if String.eqb k' k then (k, v) :: d' else (k', v') :: dict_set d' k v
  end.

End Py.

(* ===================================================================== *)
(** * The world outside the client *)
(* ===================================================================== *)

(** ** HTTP messages *)

(** Which entry point of [requests] carries a request: the client's own
    [session] (fixed headers, transport retries) or the module-level
    [requests.get] used for external origins. *)
Inductive Channel := Session | Plain.

Record Request := {
  via : Channel;
  method : string;
  url : string;
  req_headers : pydict;
  params : option pydict;
  json_body : option pyval;
  req_timeout : Z
}.

(** How [response.json()] fails on a body that is not JSON: from requests
    2.27 on the error is a [RequestException]; before, a [ValueError]. *)
Inductive DecodeError :=
| InvalidJSON_RequestException (msg : string)
| InvalidJSON_ValueError.

(** A [requests.Response].  [json] is what [response.json()] does; the
    body is empty ([response.content] is false) exactly when [text] is. *)
Record Response := {
  status_code : Z;
  headers : list (string * string);
  text : string;
  json : DecodeError + pyval
}.

(** How the wire ends one call of [requests]: with a response (the last one
    received, when the transport sent the request more than once), or with
    a connection-level fault (DNS, TCP, timeout), which [requests] raises
    as a [RequestException] with a message. *)
Inductive Reply :=
| Answered (r : Response)
| Fault (msg : string).

Record Exchange := { sent : Request; sent_at : Q; reply : Reply }.

(** ** World state *)

(** The wall clock in seconds, every call of [requests] so far (oldest
    first) and the number of UUIDs drawn. *)
Record World := {
  clock : Q;
  history : list Exchange;
  drawn : nat
}.

(** The environment: for a request sent in a given world, how long the
    call takes (re-sent requests and the pauses between them included) and
    how the wire ends it; the stream of random UUIDs; and the text of the
    [RetryError] that the session raises when its retries are used up on a
    response. *)
Record Env := {
  network : World -> Request -> Q * Reply;
  uuid4 : nat -> string;
  retry_error : Request -> Response -> string
}.

(** ** Exceptions and the monad of methods *)

Inductive exn :=
| ModexiaAuthError (arg : pyval)
| ModexiaPaymentError (arg : pyval)
| ModexiaNetworkError (arg : pyval)
| RequestException (msg : string)
| AttributeError
| ValueError.

(** How a call ends: it returns, it raises, or the model's loop budget ran
    out before the call ended. *)
Inductive outcome (A : Type) :=
| Return (a : A)
| Raise (e : exn)
| OutOfFuel.
Arguments Return {A} a.
Arguments Raise {A} e.
Arguments OutOfFuel {A}.

Definition M (A : Type) : Type := World -> outcome A * World.

Definition ret {A} (a : A) : M A := fun w => (Return a, w).

Definition raise {A} (e : exn) : M A := fun w => (Raise e, w).

Definition bind {A B} (m : M A) (k : A -> M B) : M B :=
  fun w =>
    match m w with
    | (Return a, w') => k a w'
    | (Raise e, w') => (Raise e, w')
    | (OutOfFuel, w') => (OutOfFuel, w')
    end.

(** [try: m except ...: handler]; the handler declines ([None]) the
    exceptions its clause does not name. *)
Definition try_except {A} (m : M A) (handler : exn -> option (M A)) : M A :=
  fun w =>
    match m w with
    | (Raise e, w') =>
        match handler e with
        | Some h => h w'
        | None => (Raise e, w')
        end
    | r => r
    end.

Declare Scope py_scope.
Delimit Scope py_scope with py.
Notation "x <- m ;; k" := (bind m (fun x => k))
  (at level 61, m at next level, right associativity) : py_scope.
Notation "m ;;; k" := (bind m (fun _ => k))
  (at level 61, right associativity) : py_scope.
Open Scope py_scope.

(** [v.get(k, default)]: only a dict has [get]. *)
Definition py_get (v : pyval) (k : string) (default : pyval) : M pyval :=
  match v with
  | PDict d => ret (Py.dict_get d k default)
  | _ => raise AttributeError
  end.

(** [v.upper()]: only a string has [upper]. *)
Definition py_upper (v : pyval) : M string :=
  match v with
  | PStr s => ret (PyStr.upper s)
  | _ => raise AttributeError
  end.

(** [response.json()] *)
Definition response_json (r : Response) : M pyval :=
  match json r with
  | inr v => ret v
  | inl (InvalidJSON_RequestException msg) => raise (RequestException msg)
  | inl InvalidJSON_ValueError => raise ValueError
  end.

(** [response.headers.get(name, default)]; header names compare without
    regard to letter case. *)
Fixpoint header_get (hs : list (string * string)) (name default : string)
  : string :=
  match hs with
  | [] => default
  | (k, v) :: hs' =>
      if String.eqb (PyStr.lower k) (PyStr.lower name) then v
      else header_get hs' name default
  end.

(** The world after a call that took [took] seconds and ended in [rep]. *)
Definition record (w : World) (rq : Request) (took : Q) (rep : Reply) : World :=
  {| clock := clock w + took;
     history := history w ++ [{| sent := rq; sent_at := clock w; reply := rep |}];
     drawn := drawn w |}.

(** The world [d] seconds later. *)
Definition later (w : World) (d : Q) : World :=
  {| clock := clock w + d; history := history w; drawn := drawn w |}.

Section Effects.
Variable env : Env.

(** One call of [requests]: the exchange is recorded, the clock advances
    by the time the call took. *)
Definition http (rq : Request) : M Response :=
  fun w =>
    let (took, rep) := network env w rq in
    match rep with
    | Answered r => (Return r, record w rq took rep)
    | Fault msg => (Raise (RequestException msg), record w rq took rep)
    end.

(** [time.time()] *)
Definition time_time : M Q := fun w => (Return (clock w), w).

(** [time.sleep(d)], taken to last exactly [d] seconds. *)
Definition time_sleep (d : Q) : M unit := fun w => (Return tt, later w d).

(** [str(uuid.uuid4())] *)
Definition uuid4_str : M string :=
  fun w => (Return (uuid4 env (drawn w)),
            {| clock := clock w; history := history w; drawn := S (drawn w) |}).

End Effects.

(* ===================================================================== *)
(** * ModexiaClient *)
(* ===================================================================== *)

(** The attributes fixed by the constructor. *)
Record ModexiaClient := {
  api_key : string;
  timeout : Z;
  base_url : string
}.

Definition VERSION : string := "0.2.0".
Definition DEFAULT_TIMEOUT : Z := 15.

Definition URLS (name : string) : string :=
  if String.eqb name "live" then "https://api.modexia.software"
  else if String.eqb name "test" then "https://sandbox.modexia.software"
  else "http://localhost:3000".

(** The base URL chosen by the constructor from its [base_url] argument,
    the environment variable [MODEXIA_BASE_URL] and the key prefix. *)
Definition resolve_base_url (key : string) (override environ : option string)
  : string :=
  let given o := match o with
                 | Some u => negb (String.eqb u "")
                 | None => false
                 end in
  if given override then match override with Some u => u | None => "" end
  else if given environ then match environ with Some u => u | None => "" end
  else if PyStr.startswith "mx_live_" key then URLS "live"
  else if PyStr.startswith "mx_test_" key then URLS "test"
  else URLS "local".

(** The headers the constructor puts on the session. *)
Definition session_headers (self : ModexiaClient) : pydict :=
  [ ("x-modexia-key", PStr (api_key self));
    ("Content-Type", PStr "application/json");
    ("User-Agent", PStr ("Modexia-Python/" ++ VERSION)) ].

(** [x in [401, 403]] and the string counterpart. *)
Definition in_ints (x : Z) (l : list Z) : bool := existsb (Z.eqb x) l.
Definition in_strs (x : string) (l : list string) : bool := existsb (String.eqb x) l.

(** [a < b] on clock readings. *)
Definition Qltb (a b : Q) : bool := negb (Qle_bool b a).

(** The request behind
    [self.session.request(method, url, timeout=self.timeout, **kwargs)];
    the only keyword the client ever passes is [json]. *)
Definition session_call (self : ModexiaClient) (meth target : string)
           (json_kw : option pyval) : Request :=
  {| via := Session; method := meth; url := target;
     req_headers := session_headers self; params := None;
     json_body := json_kw; req_timeout := timeout self |}.

(** The request behind
    [requests.get(url, params=params, headers=headers, timeout=...)]. *)
Definition plain_get (target : string) (prms : option pydict)
           (hdrs : pydict) (tmo : Z) : Request :=
  {| via := Plain; method := "GET"; url := target;
     req_headers := hdrs; params := prms;
     json_body := None; req_timeout := tmo |}.

(** The retry policy the constructor mounts on the session for both URL
    schemes: [Retry(total=3, backoff_factor=0.5,
    status_forcelist=[500, 502, 503, 504])].  The methods the policy may
    send again are the library's default, which leaves POST out. *)
Definition status_forcelist : list Z := [500; 502; 503; 504].

Definition allowed_methods : list string :=
  ["HEAD"; "GET"; "PUT"; "DELETE"; "OPTIONS"; "TRACE"].

(** Whether the policy sends a request again on a response with status
    [status]: the method, compared in upper case, may be sent again and
    the status is on the force list. *)
Definition is_retry (meth : string) (status : Z) : bool :=
  in_strs (PyStr.upper meth) allowed_methods && in_ints status status_forcelist.

Section Client.
Variable env : Env.

(** [self.session.request(...)], through the adapter of the constructor.
    While [is_retry] holds of a response the adapter sends the request
    again, up to three times, all within the one call.  So a call whose
    last response still has such a status has used up its retries: the
    adapter hands no response back and raises [RetryError], which is a
    [RequestException].  Any other last response is handed back (also
    one sent again on account of a [Retry-After] header: once the retries
    are used up that header no longer counts). *)
Definition session_request (self : ModexiaClient) (meth target : string)
           (json_kw : option pyval) : M Response :=
  let rq := session_call self meth target json_kw in
  response <- http env rq ;;
  if is_retry meth (status_code response)
  then raise (RequestException (retry_error env rq response))
  else ret response.

Definition requests_get (target : string) (prms : option pydict)
           (hdrs : pydict) (tmo : Z) : M Response :=
  http env (plain_get target prms hdrs tmo).

(** The text of the payment error for a body without a usable [error]
    field. *)
Definition excerpt_message (response : Response) (target : string) : string :=
  let excerpt := PyStr.slice_to 512 (text response) in
  "HTTP " ++ PyStr.of_int (status_code response) ++ " at " ++ target ++ ": " ++ excerpt.

(** What [_request] does with the response it received. *)
Definition classify (target : string) (response : Response) : M pyval :=
  if in_ints (status_code response) [401; 403] then
    raise (ModexiaAuthError (PStr ("Unauthorized: " ++ text response)))
  else if (400 <=? status_code response) && negb (status_code response =? 402) then
    err <- try_except
             (body <- response_json response ;;
              py_get body "error" (PStr (text response)))
             (fun _ => Some (ret (PStr (excerpt_message response target)))) ;;
    raise (ModexiaPaymentError err)
  else if negb (String.eqb (text response) "") then response_json response
  else ret (PDict []).

Definition _request (self : ModexiaClient) (meth endpoint : string)
           (json_kw : option pyval) : M pyval :=
  let target := base_url self ++ endpoint in
  try_except
    (response <- session_request self meth target json_kw ;;
     classify target response)
    (fun e =>
       match e with
       | RequestException msg =>
           Some (raise (ModexiaNetworkError (PStr ("Connection failed: " ++ msg))))
       | _ => None
       end).

Definition _validate_session (self : ModexiaClient) : M pyval :=
  res <- _request self "GET" "/api/v1/user/me" None ;;
  data <- py_get res "data" res ;;
  (* the argument of the log line *)
  _ <- py_get data "username" PNone ;;
  ret data.

Definition retrieve_balance (self : ModexiaClient) : M pyval :=
  data <- _validate_session self ;;
  py_get data "balance" (PStr "0").

Definition get_balance (self : ModexiaClient) : M pyval :=
  retrieve_balance self.

Definition status_endpoint (tx_id : pyval) : string :=
  "/api/v1/agent/transaction/" ++ Py.str tx_id.

(** One pass through the body of the [while] loop of [_poll_status], up
    to its [time.sleep]: [Some v] when the body executes [return v],
    [None] when it reaches the sleep. *)
Definition poll_once (self : ModexiaClient) (tx_id : pyval)
  : M (option pyval) :=
  data <- _request self "GET" (status_endpoint tx_id) None ;;
  raw <- py_get data "state" (PStr "") ;;
  state <- py_upper raw ;;
  if in_strs state ["COMPLETE"; "COMPLETED"] then
    tx_hash <- py_get data "txHash" PNone ;;
    ret (Some (PDict [("success", PBool true); ("txId", tx_id);
                      ("status", PStr "COMPLETE"); ("txHash", tx_hash)]))
  else if String.eqb state "FAILED" then
    reason <- py_get data "errorReason" PNone ;;
    raise (ModexiaPaymentError (PStr ("Transfer Failed: " ++ Py.str reason)))
  else ret None.

(** The value returned when the loop ends on its condition. *)
Definition still_pending (tx_id : pyval) : pyval :=
  PDict [("success", PBool true); ("status", PStr "PENDING"); ("txId", tx_id)].

(** The [while] loop of [_poll_status]; [fuel] bounds the number of
    times its condition is evaluated. *)
Fixpoint poll_loop (fuel : nat) (self : ModexiaClient) (tx_id : pyval)
         (start : Q) : M pyval :=
  match fuel with
  | O => fun w => (OutOfFuel, w)
  | S fuel' =>
      now <- time_time ;;
      if Qltb (now - start) 30 then
        returned <- poll_once self tx_id ;;
        match returned with
        | Some v => ret v
        | None =>
            time_sleep 2 ;;;
            poll_loop fuel' self tx_id start
        end
      else ret (still_pending tx_id)
  end.

Definition _poll_status (fuel : nat) (self : ModexiaClient) (tx_id : pyval)
  : M pyval :=
  start <- time_time ;;
  poll_loop fuel self tx_id start.

Definition pay_body (recipient : string) (amount : pyval) (ikey : string)
  : pyval :=
  PDict [("providerAddress", PStr recipient);
         ("amount", PStr (Py.str amount));
         ("idempotencyKey", PStr ikey)].

(** [idempotency_key or str(uuid.uuid4())] *)
Definition choose_key (idempotency_key : option string) : M string :=
  match idempotency_key with
  | Some k => if String.eqb k "" then uuid4_str env else ret k
  | None => uuid4_str env
  end.

Definition transfer (fuel : nat) (self : ModexiaClient) (recipient : string)
           (amount : pyval) (idempotency_key : option string) (wait : bool)
  : M pyval :=
  ikey <- choose_key idempotency_key ;;
  let payload := pay_body recipient amount ikey in
  data <- _request self "POST" "/api/v1/agent/pay" (Some payload) ;;
  if wait then
    ok <- py_get data "success" PNone ;;
    if Py.truthy ok then
      tx_id <- py_get data "txId" PNone ;;
      _poll_status fuel self tx_id
    else ret data
  else ret data.

(** Returns the receipt of [transfer], or [None] ([PNone]) when the
    challenge lacks an attribute. *)
Definition _negotiate_paywall (fuel : nat) (self : ModexiaClient)
           (response_obj : Response) : M pyval :=
  let auth_header := header_get (headers response_obj) "WWW-Authenticate" "" in
  let amt := PyStr.search_attr "amount" auth_header in
  let dst := PyStr.search_attr "destination" auth_header in
  match amt, dst with
  | Some a, Some d =>
      match PyFloat.of_string a with
      | Some x => transfer fuel self d (PFloat x) None true
      | None => raise ValueError
      end
  | _, _ => ret PNone
  end.

Definition smart_fetch (fuel : nat) (self : ModexiaClient) (target : string)
           (prms : option pydict) (hdrs : option pydict) : M Response :=
  let hdrs0 := match hdrs with Some h => h | None => [] end in
  response <- requests_get target prms hdrs0 (timeout self) ;;
  if status_code response =? 402 then
    receipt <- _negotiate_paywall fuel self response ;;
    if Py.truthy receipt then
      tx1 <- py_get receipt "txId" PNone ;;
      let hdrs1 := Py.dict_set hdrs0 "Authorization" (PStr ("L402 " ++ Py.str tx1)) in
      tx2 <- py_get receipt "txId" PNone ;;
      let hdrs2 := Py.dict_set hdrs1 "X-Payment-Proof" tx2 in
      requests_get target prms hdrs2 (timeout self)
    else ret response
  else ret response.

End Client.

(* ===================================================================== *)
(** * Running the transport *)
(* ===================================================================== *)

(** The statuses [_request] turns into an exception. *)
Definition error_status (s : Z) : bool :=
  in_ints s [401; 403] || ((400 <=? s) && negb (s =? 402)).

(** The value [_request] returns for a response it accepts: the empty dict
    for an empty body, the decoded body otherwise. *)
Definition body_of (r : Response) : option pyval :=
  if String.eqb (text r) "" then Some (PDict [])
  else match json r with
       | inr v => Some v
       | inl _ => None
       end.

(** The request of the identity query. *)
Definition me_call (self : ModexiaClient) : Request :=
  session_call self "GET" (base_url self ++ "/api/v1/user/me") None.

(** Whether an exchange went through the module-level [requests.get], as
    the fetches of [smart_fetch] do, and not through the client session. *)
Definition is_plain (e : Exchange) : bool :=
  match via (sent e) with
  | Plain => true
  | Session => false
  end.

(** The headers of the paid retry: the caller's, with the two proof
    headers set from the transaction id. *)
Definition paid_headers (hdrs : pydict) (tx : pyval) : pydict :=
  Py.dict_set (Py.dict_set hdrs "Authorization" (PStr ("L402 " ++ Py.str tx)))
    "X-Payment-Proof" tx.

(** The caller's headers as [smart_fetch] uses them. *)
Definition given_headers (hdrs : option pydict) : pydict :=
  match hdrs with
  | Some h => h
  | None => []
  end.

(** The first fetch of [smart_fetch] and its paid retry. *)
Definition first_get (self : ModexiaClient) (target : string)
           (prms hdrs : option pydict) : Request :=
  plain_get target prms (given_headers hdrs) (timeout self).

Definition paid_get (self : ModexiaClient) (target : string)
           (prms hdrs : option pydict) (tx : pyval) : Request :=
  plain_get target prms (paid_headers (given_headers hdrs) tx) (timeout self).

(** The [WWW-Authenticate] header of a response, empty when absent. *)
Definition challenge_of (r : Response) : string :=
  header_get (headers r) "WWW-Authenticate" "".

(** The request of one status poll. *)
Definition status_call (self : ModexiaClient) (tx_id : pyval) : Request :=
  session_call self "GET" (base_url self ++ status_endpoint tx_id) None.

(** The request that submits a payment. *)
Definition pay_call (self : ModexiaClient) (recipient : string)
           (amount : pyval) (ikey : string) : Request :=
  session_call self "POST" (base_url self ++ "/api/v1/agent/pay")
    (Some (pay_body recipient amount ikey)).

(** The outer [except] clause of [_request]: a [RequestException], raised
    by the call or by the decoding of an accepted body, comes out as a
    [ModexiaNetworkError]. *)
Definition as_network_error (o : outcome pyval) : outcome pyval :=
  match o with
  | Raise (RequestException msg) =>
      Raise (ModexiaNetworkError (PStr ("Connection failed: " ++ msg)))
  | _ => o
  end.

(** The error raised on a FAILED observation of the object [d]. *)
Definition transfer_failed (d : pydict) : exn :=
  ModexiaPaymentError
    (PStr ("Transfer Failed: " ++ Py.str (Py.dict_get d "errorReason" PNone))).

(** The argument of the payment error raised for a failing response. *)
Definition payment_error_arg (target : string) (r : Response) : pyval :=
  match json r with
  | inr (PDict d) => Py.dict_get d "error" (PStr (text r))
  | _ => PStr (excerpt_message r target)
  end.

(* ===================================================================== *)
(** * The constructor, and vocabulary for whole runs *)
(* ===================================================================== *)

(** [ModexiaClient(api_key, timeout, base_url, validate)], with the value
    of the environment variable [MODEXIA_BASE_URL] as [environ].  The
    result is the client with its [identity] attribute: the empty dict, or
    what the handshake returned. *)
Definition __init__ (env : Env) (environ : option string) (key : string)
           (tmo : Z) (override : option string) (validate : bool)
  : M (ModexiaClient * pyval) :=
  let self := {| api_key := key; timeout := tmo;
                 base_url := resolve_base_url key override environ |} in
  if validate then
    identity <- _validate_session env self ;;
    ret (self, identity)
  else ret (self, PDict []).

(** Whether a value is a [dict]. *)
Definition is_dict (v : pyval) : bool :=
  match v with
  | PDict _ => true
  | _ => false
  end.

(** The idempotency key [transfer] sends in world [w]. *)
Definition key_sent (env : Env) (idempotency_key : option string) (w : World)
  : string :=
  match idempotency_key with
  | Some k => if String.eqb k "" then uuid4 env (drawn w) else k
  | None => uuid4 env (drawn w)
  end.

(** Whether [transfer] draws a UUID for the key. *)
Definition key_generated (idempotency_key : option string) : bool :=
  match idempotency_key with
  | Some k => String.eqb k ""
  | None => true
  end.

(** The success result of the poller. *)
Definition completed (tx_id tx_hash : pyval) : pyval :=
  PDict [("success", PBool true); ("txId", tx_id);
         ("status", PStr "COMPLETE"); ("txHash", tx_hash)].

(** Exchanges sent no earlier than [t] and at least two seconds after one
    another. *)
Fixpoint spaced (t : Q) (l : list Exchange) : Prop :=
  match l with
  | [] => True
  | x :: l' => (t <= sent_at x)%Q /\ spaced (sent_at x + 2) l'
  end.

(** Text without a double quote. *)
Definition quote_free (s : string) : bool := negb (Py.contains PyStr.dquote s).

(** The text a pattern of [_negotiate_paywall] matches: the key, an equals
    sign and the value between double quotes. *)
Definition attribute (key value : string) : string :=
  key ++ String "=" (String PyStr.dquote (value ++ String PyStr.dquote EmptyString)).

(* ===================================================================== *)
(** * Concrete scenarios *)
(* ===================================================================== *)

(** The client of the test suite, a fresh world, and servers used to run
    the methods on concrete exchanges. *)
Module Scenario.

Definition client : ModexiaClient :=
  {| api_key := "mx_test_123"; timeout := DEFAULT_TIMEOUT;
     base_url := resolve_base_url "mx_test_123" None None |}.

Definition fresh : World := {| clock := 0; history := []; drawn := 0 |}.

(** [s] between double quotes. *)
Definition quoted (s : string) : string :=
  String PyStr.dquote (s ++ String PyStr.dquote EmptyString).

(** The text of a one-level JSON object with string values. *)
Definition object_text (fields : list (string * string)) : string :=
  "{" ++ Py.join ", " (map (fun kv => quoted (fst kv) ++ ": " ++ quoted (snd kv)) fields)
      ++ "}".

Definition object_value (fields : list (string * string)) : pyval :=
  PDict (map (fun kv => (fst kv, PStr (snd kv))) fields).

(** A response whose body is the JSON object [fields]. *)
Definition json_response (status : Z) (fields : list (string * string))
  : Response :=
  {| status_code := status;
     headers := [("Content-Type", "application/json")];
     text := object_text fields;
     json := inr (object_value fields) |}.

(** A response whose body is not JSON. *)
Definition html_response (status : Z) (body : string) (err : DecodeError)
  : Response :=
  {| status_code := status;
     headers := [("Content-Type", "text/html")];
     text := body;
     json := inl err |}.

Definition decode_message : string :=
  "Expecting value: line 1 column 1 (char 0)".

Definition uuids (n : nat) : string :=
  "6f1c2a9e-5b7d-4c3a-9e21-0000000000" ++ PyStr.of_int (10 + Z.of_nat n mod 90).

(** The text of an exhausted retry. *)
Definition too_many (rq : Request) (r : Response) : string :=
  "Max retries exceeded with url: " ++ url rq ++ " (Caused by ResponseError('too many "
  ++ PyStr.of_int (status_code r) ++ " error responses'))".

(** A server that ends every call the same way after 1/10 s. *)
Definition always (rep : Reply) : Env :=
  {| network := fun _ _ => ((1 # 10)%Q, rep); uuid4 := uuids; retry_error := too_many |}.

(** A payment service on which the transaction never settles. *)
Definition never_settles : Env :=
  always (Answered (json_response 200 [("state", "pending")])).

(** A payment service that reports the state [COMPLETED]. *)
Definition reports_completed : Env :=
  always (Answered (json_response 200 [("state", "COMPLETED"); ("txHash", "0xabc123")])).

(** A payment service on which the transaction has failed. *)
Definition reports_failed : Env :=
  always (Answered (json_response 200
                      [("state", "Failed"); ("errorReason", "insufficient funds")])).

(** A payment service that reports a state the client does not know. *)
Definition reports_processing : Env :=
  always (Answered (json_response 200 [("state", "Processing")])).

(** The identity payload of the test suite, under a [data] envelope. *)
Definition me_enveloped : Response :=
  {| status_code := 200;
     headers := [("Content-Type", "application/json")];
     text := "{" ++ quoted "data" ++ ": "
                 ++ object_text [("balance", "150.50"); ("username", "testuser")]
                 ++ "}";
     json := inr (PDict [("data", object_value [("balance", "150.50");
                                                ("username", "testuser")])]) |}.


(** The float written [text]. *)
Definition float_of (text : string) : pyval :=
  match PyFloat.of_string text with
  | Some x => PFloat x
  | None => PNone
  end.

(** The paywalled origin and the payment service of the test suite: the
    first fetch is challenged, a later one is served; a submission
    succeeds with transaction [txn_402], which is then COMPLETE. *)
Definition challenge : string :=
  "L402 amount=" ++ quoted "1.50" ++ " destination=" ++ quoted "0xCreator".

Definition paywall_402 : Response :=
  {| status_code := 402;
     headers := [("WWW-Authenticate", challenge)];
     text := "";
     json := inl (InvalidJSON_RequestException decode_message) |}.

Definition secret_200 : Response := json_response 200 [("secret", "data")].

Definition pay_accepted : Response :=
  {| status_code := 200;
     headers := [("Content-Type", "application/json")];
     text := "{" ++ quoted "success" ++ ": true, " ++ quoted "txId" ++ ": "
                 ++ quoted "txn_402" ++ "}";
     json := inr (PDict [("success", PBool true); ("txId", PStr "txn_402")]) |}.

Definition tx_complete : Response :=
  json_response 200 [("state", "COMPLETE"); ("txHash", "0xhash")].

Definition paywalled : Env :=
  {| network := fun w rq =>
       ((1 # 10)%Q,
        match via rq with
        | Plain => if existsb is_plain (history w)
                   then Answered secret_200 else Answered paywall_402
        | Session => if String.eqb (method rq) "POST"
                     then Answered pay_accepted else Answered tx_complete
        end);
     uuid4 := uuids; retry_error := too_many |}.

(** A challenge that names an amount but no destination. *)
Definition half_challenge_402 : Response :=
  {| status_code := 402;
     headers := [("WWW-Authenticate", "L402 amount=" ++ quoted "1.50")];
     text := "";
     json := inl (InvalidJSON_RequestException decode_message) |}.

Definition premium : string := "https://example.com/premium-data".

(** The payment service of the transfer test: the submission succeeds
    with transaction [txn_123], the first poll reads PENDING and the
    later ones COMPLETE. *)
Definition submission_accepted : Response :=
  {| status_code := 200;
     headers := [("Content-Type", "application/json")];
     text := "{" ++ quoted "success" ++ ": true, " ++ quoted "txId" ++ ": "
                 ++ quoted "txn_123" ++ "}";
     json := inr (PDict [("success", PBool true); ("txId", PStr "txn_123")]) |}.

Definition settles_on_second_poll : Env :=
  {| network := fun w rq =>
       ((1 # 10)%Q,
        if String.eqb (method rq) "POST" then Answered submission_accepted
        else if (length (history w) <=? 1)%nat
             then Answered (json_response 200 [("state", "PENDING")])
             else Answered (json_response 200 [("state", "COMPLETE");
                                               ("txHash", "0xabc123")]));
     uuid4 := uuids; retry_error := too_many |}.

Definition xs (n : nat) : string := string_of_list_ascii (repeat "x"%char n).

(** A response whose body is a JSON object that has no [error] field and
    a 600-character detail. *)
Definition verbose (status : Z) : Response :=
  json_response status [("detail", xs 600)].

(** The paywalled origin, with a payment service that accepts the
    submission and then reports the transaction FAILED. *)
Definition payment_fails : Env :=
  {| network := fun w rq =>
       ((1 # 10)%Q,
        match via rq with
        | Plain => if existsb is_plain (history w)
                   then Answered secret_200 else Answered paywall_402
        | Session =>
            if String.eqb (method rq) "POST" then Answered pay_accepted
            else Answered (json_response 200
                             [("state", "FAILED");
                              ("errorReason", "insufficient funds")])
        end);
     uuid4 := uuids; retry_error := too_many |}.

(** The paywalled origin, with a payment service that declines the
    submission in a 200 response. *)
Definition payment_declined : Env :=
  {| network := fun w rq =>
       ((1 # 10)%Q,
        match via rq with
        | Plain => if existsb is_plain (history w)
                   then Answered secret_200 else Answered paywall_402
        | Session => Answered (json_response 200 [("error", "insufficient funds")])
        end);
     uuid4 := uuids; retry_error := too_many |}.

(** The paywalled origin and payment service of the test suite, with
    another [WWW-Authenticate] header on the 402 response. *)
Definition challenge_402 (header : string) : Response :=
  {| status_code := 402;
     headers := [("WWW-Authenticate", header)];
     text := "";
     json := inl (InvalidJSON_RequestException decode_message) |}.

Definition paywalled_with (header : string) : Env :=
  {| network := fun w rq =>
       ((1 # 10)%Q,
        match via rq with
        | Plain => if existsb is_plain (history w)
                   then Answered secret_200 else Answered (challenge_402 header)
        | Session => if String.eqb (method rq) "POST"
                     then Answered pay_accepted else Answered tx_complete
        end);
     uuid4 := uuids; retry_error := too_many |}.

(** A challenge that states a ceiling and a destination, but no amount;
    and one that states an amount and where the funds end up, but no
    destination. *)
Definition ceiling_challenge : string :=
  "L402 max_amount=" ++ quoted "99" ++ " destination=" ++ quoted "0xCreator".

Definition onward_challenge : string :=
  "L402 amount=" ++ quoted "1.50" ++ " final_destination=" ++ quoted "0xEvil".

(** An identity payload whose balance is a JSON number. *)
Definition numeric_balance (balance : pyval) (shown : string) : Response :=
  {| status_code := 200;
     headers := [("Content-Type", "application/json")];
     text := "{" ++ quoted "balance" ++ ": " ++ shown ++ "}";
     json := inr (PDict [("balance", balance)]) |}.

End Scenario.

(* ===================================================================== *)
(** * The test suite, run on the model *)
(* ===================================================================== *)

Example base_url_resolution :
  resolve_base_url "mx_test_123" (Some "http://custom.url") None = "http://custom.url"
  /\ resolve_base_url "mx_test_123" None (Some "http://env.url") = "http://env.url"
  /\ resolve_base_url "mx_live_123" None None = "https://api.modexia.software"
  /\ resolve_base_url "mx_test_123" None None = "https://sandbox.modexia.software"
  /\ resolve_base_url "other_key" None None = "http://localhost:3000".
Proof. repeat split. Qed.

Example retrieve_balance_auth_error :
  fst (retrieve_balance
         (Scenario.always
            (Answered (Scenario.html_response 401 "Invalid API key"
                         (InvalidJSON_RequestException Scenario.decode_message))))
         Scenario.client Scenario.fresh)
  = Raise (ModexiaAuthError (PStr "Unauthorized: Invalid API key")).
Proof. reflexivity. Qed.

Example transfer_wait_success :
  fst (transfer Scenario.settles_on_second_poll 16 Scenario.client "0xRecipient"
         (Scenario.float_of "10.0") None true Scenario.fresh)
  = Return (PDict [("success", PBool true); ("txId", PStr "txn_123");
                   ("status", PStr "COMPLETE"); ("txHash", PStr "0xabc123")]).
Proof. vm_compute. reflexivity. Qed.

Example transfer_wait_success_body :
  option_map (fun e => json_body (sent e))
    (nth_error
       (history (snd (transfer Scenario.settles_on_second_poll 16 Scenario.client
                        "0xRecipient" (Scenario.float_of "10.0") None true
                        Scenario.fresh))) 0)
  = Some (Some (PDict [("providerAddress", PStr "0xRecipient");
                       ("amount", PStr "10.0");
                       ("idempotencyKey", PStr (Scenario.uuids 0))])).
Proof. vm_compute. reflexivity. Qed.

Example float_text_round_trips :
  option_map PyFloat.to_string (PyFloat.of_string "1.50") = Some "1.5"
  /\ option_map PyFloat.to_string (PyFloat.of_string "0.1") = Some "0.1"
  /\ option_map PyFloat.to_string (PyFloat.of_string "100") = Some "100.0"
  /\ option_map PyFloat.to_string (PyFloat.of_string "1e16") = Some "1e+16"
  /\ option_map PyFloat.to_string (PyFloat.of_string "0.00001") = Some "1e-05"
  /\ option_map PyFloat.to_string (PyFloat.of_string "0.30000000000000004")
     = Some "0.30000000000000004"
  /\ option_map PyFloat.to_string (PyFloat.of_string " -1_0.5e1 ") = Some "-105.0"
  /\ option_map PyFloat.to_string (PyFloat.of_string "1e400") = Some "inf"
  /\ PyFloat.of_string "1.5 USD" = None.
Proof. vm_compute. repeat split. Qed.

(** Blanks beyond ASCII are stripped from a Latin-1 numeral (U+00A0,
    U+0085); the ASCII separators 28 to 31 are not. *)
Example float_strips_latin1_blanks :
  let nbsp := String (ascii_of_N 160) "" in
  let nel := String (ascii_of_N 133) "" in
  let fs := String (ascii_of_N 28) "" in
  option_map PyFloat.to_string (PyFloat.of_string (nbsp ++ "1.5")) = Some "1.5"
  /\ option_map PyFloat.to_string (PyFloat.of_string (nel ++ "1.5" ++ nbsp)) = Some "1.5"
  /\ PyFloat.of_string ("1" ++ nbsp ++ ".5") = None
  /\ PyFloat.of_string (fs ++ "1.5") = None
  /\ PyFloat.of_string (fs ++ "1.5" ++ nbsp) = None
  /\ PyFloat.of_string nbsp = None.
Proof. vm_compute. repeat split. Qed.

(** The 502 page of the test suite on the session as the constructor
    sets it up: answered to a GET it ends in the retry error of the
    session, answered to a POST in the payment error.  (The test suite
    puts a mock in the place of the adapter, and so meets the payment
    error on the GET too.) *)
Example bad_gateway :
  let page := Scenario.html_response 502 "<html><body>502 Bad Gateway</body></html>"
                (InvalidJSON_RequestException Scenario.decode_message) in
  fst (retrieve_balance (Scenario.always (Answered page)) Scenario.client Scenario.fresh)
  = Raise (ModexiaNetworkError
             (PStr ("Connection failed: "
                    ++ Scenario.too_many (me_call Scenario.client) page)))
  /\ fst (transfer (Scenario.always (Answered page)) 16 Scenario.client "0xRecipient"
            (Scenario.float_of "10.0") None true Scenario.fresh)
     = Raise (ModexiaPaymentError
                (PStr ("HTTP 502 at https://sandbox.modexia.software/api/v1/agent/pay: "
                       ++ "<html><body>502 Bad Gateway</body></html>"))).
Proof. vm_compute. repeat split. Qed.

Lemma Qltb_true (a b : Q) : Qltb a b = true <-> (a < b)%Q.
Proof.
  unfold Qltb. rewrite negb_true_iff.
  destruct (Qle_bool b a) eqn:E.
  - apply Qle_bool_iff in E. split; [discriminate | intro H; lra].
  - split; [intros _ | reflexivity].
    destruct (Qlt_le_dec a b) as [H | H]; [exact H |].
    apply Qle_bool_iff in H. congruence.
Qed.

Lemma Qltb_false (a b : Q) : Qltb a b = false <-> (b <= a)%Q.
Proof.
  unfold Qltb. rewrite negb_false_iff. apply Qle_bool_iff.
Qed.

Lemma classify_accepts (target : string) (r : Response) (v : pyval) (w : World) :
  error_status (status_code r) = false ->
  body_of r = Some v ->
  classify target r w = (Return v, w).
Proof.
  unfold error_status, body_of, classify. intros Hs Hb.
  apply orb_false_iff in Hs. destruct Hs as [Ha Hp].
  rewrite Ha, Hp.
  destruct (String.eqb (text r) "") eqn:Et; simpl.
  - inversion Hb. reflexivity.
  - unfold response_json. destruct (json r) as [e | v']; [discriminate |].
    inversion Hb. reflexivity.
Qed.

Lemma classify_auth (target : string) (r : Response) (w : World) :
  in_ints (status_code r) [401; 403] = true ->
  classify target r w
  = (Raise (ModexiaAuthError (PStr ("Unauthorized: " ++ text r))), w).
Proof.
  unfold classify. intros ->. reflexivity.
Qed.

Lemma classify_payment (target : string) (r : Response) (w : World) :
  in_ints (status_code r) [401; 403] = false ->
  (400 <=? status_code r) && negb (status_code r =? 402) = true ->
  classify target r w
  = (Raise (ModexiaPaymentError (payment_error_arg target r)), w).
Proof.
  unfold classify, payment_error_arg. intros -> ->.
  unfold bind, try_except, response_json, py_get, ret, raise.
  destruct (json r) as [[msg |] | v]; try reflexivity.
  destruct v; reflexivity.
Qed.

Lemma classify_world (target : string) (r : Response) (w : World) :
  snd (classify target r w) = w.
Proof.
  unfold classify.
  destruct (in_ints _ _); [reflexivity |].
  destruct (_ && _).
  - unfold bind, try_except, response_json, py_get, ret, raise.
    destruct (json r) as [[msg |] | v]; try reflexivity.
    destruct v; reflexivity.
  - destruct (negb _); [| reflexivity].
    unfold response_json. destruct (json r) as [[msg |] | v]; reflexivity.
Qed.

(** The statuses [_request] accepts, and every status answered to a POST,
    are outside the retry policy. *)
Lemma accepted_not_retried (meth : string) (s : Z) :
  error_status s = false -> is_retry meth s = false.
Proof.
  unfold error_status, is_retry, status_forcelist, in_ints. cbn [existsb].
  intros H. apply orb_false_iff in H. destruct H as [_ H].
  destruct (in_strs _ _); [cbn [andb] | reflexivity].
  destruct (Z.eqb_spec s 500) as [-> | _]; [discriminate |].
  destruct (Z.eqb_spec s 502) as [-> | _]; [discriminate |].
  destruct (Z.eqb_spec s 503) as [-> | _]; [discriminate |].
  destruct (Z.eqb_spec s 504) as [-> | _]; [discriminate |].
  reflexivity.
Qed.

Lemma auth_not_retried (meth : string) (s : Z) :
  in_ints s [401; 403] = true -> is_retry meth s = false.
Proof.
  unfold is_retry, status_forcelist, in_ints. cbn [existsb].
  rewrite !orb_true_iff, !Z.eqb_eq. intros H.
  apply andb_false_iff. right.
  rewrite !orb_false_iff, !Z.eqb_neq. lia.
Qed.

Lemma post_not_retried (s : Z) : is_retry "POST" s = false.
Proof. reflexivity. Qed.

Lemma get_retried (s : Z) : is_retry "GET" s = in_ints s status_forcelist.
Proof. reflexivity. Qed.

(** A call whose retries are used up: the [RetryError] of the session
    comes out of [_request] as a [ModexiaNetworkError]. *)
Lemma _request_retried env self meth endpoint kw w took r :
  network env w (session_call self meth (base_url self ++ endpoint) kw)
  = (took, Answered r) ->
  is_retry meth (status_code r) = true ->
  _request env self meth endpoint kw w
  = (Raise (ModexiaNetworkError
              (PStr ("Connection failed: "
                     ++ retry_error env
                          (session_call self meth (base_url self ++ endpoint) kw) r))),
     record w (session_call self meth (base_url self ++ endpoint) kw) took (Answered r)).
Proof.
  intros H Hr. unfold _request, try_except, session_request, bind, http. cbv zeta.
  rewrite H, Hr. reflexivity.
Qed.

Lemma _request_answered env self meth endpoint kw w took r :
  network env w (session_call self meth (base_url self ++ endpoint) kw)
  = (took, Answered r) ->
  is_retry meth (status_code r) = false ->
  _request env self meth endpoint kw w
  = (as_network_error (fst (classify (base_url self ++ endpoint) r w)),
     record w (session_call self meth (base_url self ++ endpoint) kw) took (Answered r)).
Proof.
  intros H Hr. unfold _request, try_except, session_request, bind, http. cbv zeta.
  rewrite H, Hr. unfold ret at 1.
  set (w1 := record _ _ _ _).
  pose proof (classify_world (base_url self ++ endpoint) r w1) as Hw.
  assert (Hi : fst (classify (base_url self ++ endpoint) r w1)
               = fst (classify (base_url self ++ endpoint) r w)).
  { unfold classify.
    destruct (in_ints _ _); [reflexivity |].
    destruct (_ && _).
    - unfold bind, try_except, response_json, py_get, ret, raise.
      destruct (json r) as [[msg |] | v]; try reflexivity.
      destruct v; reflexivity.
    - destruct (negb _); [| reflexivity].
      unfold response_json. destruct (json r) as [[msg |] | v]; reflexivity. }
  rewrite <- Hi.
  destruct (classify (base_url self ++ endpoint) r w1) as [o w2]. simpl in *.
  subst w2. destruct o as [v | e |]; try reflexivity.
  destruct e; reflexivity.
Qed.

Lemma _request_fault env self meth endpoint kw w took msg :
  network env w (session_call self meth (base_url self ++ endpoint) kw)
  = (took, Fault msg) ->
  _request env self meth endpoint kw w
  = (Raise (ModexiaNetworkError (PStr ("Connection failed: " ++ msg))),
     record w (session_call self meth (base_url self ++ endpoint) kw) took (Fault msg)).
Proof.
  intros H. unfold _request, try_except, session_request, bind, http. cbv zeta.
  rewrite H. reflexivity.
Qed.

(** Whatever ends it, a call of [_request] is one exchange. *)
Lemma _request_world env self meth endpoint kw w took rep :
  network env w (session_call self meth (base_url self ++ endpoint) kw) = (took, rep) ->
  snd (_request env self meth endpoint kw w)
  = record w (session_call self meth (base_url self ++ endpoint) kw) took rep.
Proof.
  intros H. destruct rep as [r | msg].
  - destruct (is_retry meth (status_code r)) eqn:Hr.
    + rewrite (_request_retried _ _ _ _ _ _ _ _ H Hr). reflexivity.
    + rewrite (_request_answered _ _ _ _ _ _ _ _ H Hr). reflexivity.
  - rewrite (_request_fault _ _ _ _ _ _ _ _ H). reflexivity.
Qed.

(* ===================================================================== *)
(** * Transport classification *)
(* ===================================================================== *)

Lemma in_auth_codes (s : Z) : in_ints s [401; 403] = true <-> s = 401 \/ s = 403.
Proof.
  unfold in_ints. simpl. rewrite !orb_true_iff, !Z.eqb_eq.
  intuition discriminate.
Qed.

Lemma not_in_auth_codes (s : Z) :
  in_ints s [401; 403] = false <-> s <> 401 /\ s <> 403.
Proof.
  unfold in_ints. simpl. rewrite !orb_false_iff, !Z.eqb_neq. tauto.
Qed.

Lemma failing_code (s : Z) :
  400 <= s -> s <> 402 -> (400 <=? s) && negb (s =? 402) = true.
Proof.
  intros H1 H2. apply andb_true_iff. split.
  - apply Z.leb_le. exact H1.
  - apply negb_true_iff. apply Z.eqb_neq. exact H2.
Qed.

Lemma error_status_402 : error_status 402 = false.
Proof. reflexivity. Qed.

(** C1 (amended).  For what the session hands back to [_request]: a
    connection-level fault raises [ModexiaNetworkError]; a response with
    status 401 or 403 raises [ModexiaAuthError]; a response with any other
    status from 400 up, 402 excepted, raises [ModexiaPaymentError],
    provided it is a response the retry policy of the session lets through
    (every response to a POST is; what becomes of a 500, 502, 503 or 504
    answered to a method the policy sends again is not part of this
    statement); and a 402 response never raises [ModexiaAuthError] or
    [ModexiaPaymentError]: when its body is empty or decodes as JSON,
    [_request] returns the decoded body (the empty dict for an empty body)
    and raises nothing. *)
Theorem request_classification env self meth endpoint kw w took rep :
  network env w (session_call self meth (base_url self ++ endpoint) kw)
  = (took, rep) ->
  let out := fst (_request env self meth endpoint kw w) in
  match rep with
  | Fault msg =>
      out = Raise (ModexiaNetworkError (PStr ("Connection failed: " ++ msg)))
  | Answered r =>
      let s := status_code r in
      (s = 401 \/ s = 403 ->
       out = Raise (ModexiaAuthError (PStr ("Unauthorized: " ++ text r))))
      /\ (400 <= s -> s <> 401 -> s <> 403 -> s <> 402 ->
          is_retry meth s = false ->
          exists err, out = Raise (ModexiaPaymentError err))
      /\ (s = 402 ->
          (forall v, body_of r = Some v -> out = Return v)
          /\ (forall arg, out <> Raise (ModexiaAuthError arg))
          /\ (forall arg, out <> Raise (ModexiaPaymentError arg)))
  end.
Proof.
  intros H. destruct rep as [r | msg]; cbv zeta.
  - split; [| split].
    + intros Hs. apply in_auth_codes in Hs.
      rewrite (_request_answered _ _ _ _ _ _ _ _ H (auth_not_retried _ _ Hs)).
      cbn [fst]. rewrite (classify_auth _ _ _ Hs). reflexivity.
    + intros H4 H1 H3 H2 Hr.
      rewrite (_request_answered _ _ _ _ _ _ _ _ H Hr). cbn [fst].
      rewrite classify_payment.
      * eexists. reflexivity.
      * apply not_in_auth_codes. split; assumption.
      * apply failing_code; assumption.
    + intros Hs.
      assert (Hr : is_retry meth (status_code r) = false).
      { apply accepted_not_retried. rewrite Hs. reflexivity. }
      rewrite (_request_answered _ _ _ _ _ _ _ _ H Hr). cbn [fst].
      split.
      * intros v Hv.
        rewrite (classify_accepts _ _ v); [reflexivity | | exact Hv].
        rewrite Hs. reflexivity.
      * unfold classify. rewrite Hs. cbn [in_ints existsb Z.eqb Pos.eqb orb
          Z.leb Z.compare Pos.compare Pos.compare_cont negb andb].
        unfold response_json, ret, raise.
        destruct (negb _); [| split; intros arg; discriminate].
        destruct (json r) as [[msg |] | v]; split; intros arg; discriminate.
  - rewrite (_request_fault _ _ _ _ _ _ _ _ H). reflexivity.
Qed.

(** The theorem at two concrete exchanges of the client of the test
    suite: a 402 response with a JSON body to the identity query, and a
    503 page answered to the submission of a payment. *)
Lemma request_classification_witness :
  let r := Scenario.json_response 402 [("offer", "premium")] in
  let page := Scenario.html_response 503 "<html>Service Unavailable</html>"
                (InvalidJSON_RequestException Scenario.decode_message) in
  (network (Scenario.always (Answered r)) Scenario.fresh
     (session_call Scenario.client "GET"
        (base_url Scenario.client ++ "/api/v1/user/me") None)
   = ((1 # 10)%Q, Answered r)
   /\ fst (_request (Scenario.always (Answered r)) Scenario.client "GET"
             "/api/v1/user/me" None Scenario.fresh)
      = Return (PDict [("offer", PStr "premium")]))
  /\ (is_retry "POST" (status_code page) = false
      /\ exists err,
           fst (_request (Scenario.always (Answered page)) Scenario.client "POST"
                  "/api/v1/agent/pay" None Scenario.fresh)
           = Raise (ModexiaPaymentError err)).
Proof.
  split; split; [reflexivity | | reflexivity |].
  - refine (proj1 (proj2 (proj2 (request_classification
              (Scenario.always (Answered (Scenario.json_response 402 [("offer", "premium")])))
              Scenario.client "GET" "/api/v1/user/me" None Scenario.fresh
              (1 # 10)%Q _ eq_refl)) eq_refl) _ eq_refl).
  - refine (proj1 (proj2 (request_classification
              (Scenario.always
                 (Answered (Scenario.html_response 503 "<html>Service Unavailable</html>"
                              (InvalidJSON_RequestException Scenario.decode_message))))
              Scenario.client "POST" "/api/v1/agent/pay" None Scenario.fresh
              (1 # 10)%Q _ eq_refl)) _ _ _ _ eq_refl); cbn; lia.
Defined.

(** C1 as stated fails on a 402 response whose body is not JSON (an HTML
    paywall page): decoding the body fails and [_request] raises, with
    either behaviour of [response.json()]. *)
Lemma request_402_not_passed_through :
  let page err := Scenario.html_response 402
                    "<html><body>402 Payment Required</body></html>" err in
  let run err := fst (_request (Scenario.always (Answered (page err)))
                        Scenario.client "GET" "/api/v1/user/me" None
                        Scenario.fresh) in
  status_code (page InvalidJSON_ValueError) = 402
  /\ run (InvalidJSON_RequestException Scenario.decode_message)
     = Raise (ModexiaNetworkError
                (PStr "Connection failed: Expecting value: line 1 column 1 (char 0)"))
  /\ run InvalidJSON_ValueError = Raise ValueError.
Proof.
  repeat split.
Qed.

(* ===================================================================== *)
(** * The message of a payment error *)
(* ===================================================================== *)

Lemma slice_to_length (n : nat) (s : string) :
  (String.length (PyStr.slice_to n s) <= n)%nat.
Proof.
  unfold PyStr.slice_to. revert s.
  induction n as [| n IH]; intros [| c s]; simpl; try lia.
  specialize (IH s). lia.
Qed.

Lemma payment_error_arg_field target r d v :
  json r = inr (PDict d) -> Py.lookup d "error" = Some v ->
  payment_error_arg target r = v.
Proof.
  intros Hj Hl. unfold payment_error_arg, Py.dict_get. rewrite Hj, Hl. reflexivity.
Qed.

Lemma payment_error_arg_default target r d :
  json r = inr (PDict d) -> Py.lookup d "error" = None ->
  payment_error_arg target r = PStr (text r).
Proof.
  intros Hj Hl. unfold payment_error_arg, Py.dict_get. rewrite Hj, Hl. reflexivity.
Qed.

Lemma payment_error_arg_excerpt target r :
  (forall d, json r <> inr (PDict d)) ->
  payment_error_arg target r = PStr (excerpt_message r target).
Proof.
  intros Hn. unfold payment_error_arg.
  destruct (json r) as [e | v]; [reflexivity |].
  destruct v; try reflexivity.
  exfalso. apply (Hn entries). reflexivity.
Qed.

(** C6 (amended).  For a failing response handed back to [_request]
    (status from 400 up, other than 401, 403 and 402, and let through by
    the retry policy of the session, as every response to a POST is)
    [_request] raises [ModexiaPaymentError] whose argument is: the value
    of the [error] field when the body decodes to a JSON object that has
    one; the whole raw body, of any length, when the body decodes to a
    JSON object without that field; and otherwise (the body does not
    decode, or decodes to something that is not an object) the text made
    of [HTTP], the status code, [at], the URL and the first 512 characters
    of the raw body.  Only this last form is bounded. *)
Theorem payment_error_message env self meth endpoint kw w took r :
  network env w (session_call self meth (base_url self ++ endpoint) kw)
  = (took, Answered r) ->
  400 <= status_code r ->
  status_code r <> 401 -> status_code r <> 403 -> status_code r <> 402 ->
  is_retry meth (status_code r) = false ->
  let target := base_url self ++ endpoint in
  let excerpt := PyStr.slice_to 512 (text r) in
  exists err,
    fst (_request env self meth endpoint kw w) = Raise (ModexiaPaymentError err)
    /\ (forall d v, json r = inr (PDict d) -> Py.lookup d "error" = Some v ->
        err = v)
    /\ (forall d, json r = inr (PDict d) -> Py.lookup d "error" = None ->
        err = PStr (text r))
    /\ ((forall d, json r <> inr (PDict d)) ->
        err = PStr ("HTTP " ++ PyStr.of_int (status_code r) ++ " at " ++ target
                      ++ ": " ++ excerpt)
        /\ (String.length excerpt <= 512)%nat).
Proof.
  intros H H4 H1 H3 H2 Hr target excerpt.
  exists (payment_error_arg target r).
  split; [| split; [| split]].
  - rewrite (_request_answered _ _ _ _ _ _ _ _ H Hr). cbn [fst].
    rewrite classify_payment.
    + reflexivity.
    + apply not_in_auth_codes. split; assumption.
    + apply failing_code; assumption.
  - intros d v. apply payment_error_arg_field.
  - intros d. apply payment_error_arg_default.
  - intros Hn. split.
    + apply payment_error_arg_excerpt. exact Hn.
    + apply slice_to_length.
Qed.

(** The theorem at a 404 page answered to the identity query. *)
Lemma payment_error_message_witness :
  let r := Scenario.html_response 404 "<html><body>404 Not Found</body></html>"
             (InvalidJSON_RequestException Scenario.decode_message) in
  is_retry "GET" (status_code r) = false
  /\ exists err,
       fst (_request (Scenario.always (Answered r)) Scenario.client "GET"
              "/api/v1/user/me" None Scenario.fresh)
       = Raise (ModexiaPaymentError err)
       /\ err = PStr ("HTTP 404 at https://sandbox.modexia.software/api/v1/user/me: "
                      ++ "<html><body>404 Not Found</body></html>").
Proof.
  intros r. split; [reflexivity |].
  destruct (payment_error_message (Scenario.always (Answered r)) Scenario.client
              "GET" "/api/v1/user/me" None Scenario.fresh (1 # 10)%Q r eq_refl)
    as [err [Hrun [_ [_ Hex]]]]; try (vm_compute; congruence).
  exists err. split; [exact Hrun |].
  apply Hex. intros d. discriminate.
Defined.

(** C6 as stated fails on a failing response whose body is a JSON object
    without an [error] field: the message is the whole raw body, here 614
    characters, neither cut to 512 nor prefixed with status and URL.  The
    response is a 400 answered to the identity query, and again a 500
    answered to the submission of a payment; the session hands both back
    to [_request]. *)
Lemma payment_error_unbounded :
  let r := Scenario.verbose 400 in
  let r' := Scenario.verbose 500 in
  status_code r = 400
  /\ is_retry "GET" (status_code r) = false
  /\ Py.lookup [("detail", PStr (Scenario.xs 600))] "error" = None
  /\ fst (_request (Scenario.always (Answered r)) Scenario.client "GET"
            "/api/v1/user/me" None Scenario.fresh)
     = Raise (ModexiaPaymentError (PStr (text r)))
  /\ String.length (text r) = 614%nat
  /\ PyStr.startswith "HTTP 400 at " (text r) = false
  /\ is_retry "POST" (status_code r') = false
  /\ fst (_request (Scenario.always (Answered r')) Scenario.client "POST"
            "/api/v1/agent/pay"
            (Some (pay_body "0xRecipient" (Scenario.float_of "10.0") (Scenario.uuids 0)))
            Scenario.fresh)
     = Raise (ModexiaPaymentError (PStr (text r')))
  /\ String.length (text r') = 614%nat.
Proof.
  vm_compute. repeat split.
Qed.

(* ===================================================================== *)
(** * The status poller *)
(* ===================================================================== *)

Section Poller.
Variable env : Env.
Variable self : ModexiaClient.
Variable tx_id : pyval.

(** A pass of the loop body makes exactly one call, however it ends. *)
Lemma poll_once_world w took rep :
  network env w (status_call self tx_id) = (took, rep) ->
  snd (poll_once env self tx_id w) = record w (status_call self tx_id) took rep.
Proof.
  intros H. unfold poll_once, bind.
  pose proof (_request_world env self "GET" (status_endpoint tx_id) None w took rep H)
    as Hw.
  destruct (_request env self "GET" (status_endpoint tx_id) None w) as [o w1].
  cbn [snd] in Hw. subst w1.
  destruct o as [v | e |]; try reflexivity.
  destruct v; try reflexivity.
  cbn [py_get ret].
  destruct (Py.dict_get entries "state" (PStr "")); try reflexivity.
  cbn [py_upper ret].
  destruct (in_strs _ _); [reflexivity |].
  destruct (String.eqb _ _); reflexivity.
Qed.

(** The pass that receives an accepted JSON object with a string state. *)
Lemma poll_once_delivered w took r d raw :
  network env w (status_call self tx_id) = (took, Answered r) ->
  error_status (status_code r) = false ->
  body_of r = Some (PDict d) ->
  Py.dict_get d "state" (PStr "") = PStr raw ->
  poll_once env self tx_id w
  = ((if in_strs (PyStr.upper raw) ["COMPLETE"; "COMPLETED"] then
        Return (Some (PDict [("success", PBool true); ("txId", tx_id);
                             ("status", PStr "COMPLETE");
                             ("txHash", Py.dict_get d "txHash" PNone)]))
      else if String.eqb (PyStr.upper raw) "FAILED" then
        Raise (ModexiaPaymentError
                 (PStr ("Transfer Failed: "
                        ++ Py.str (Py.dict_get d "errorReason" PNone))))
      else Return None),
     record w (status_call self tx_id) took (Answered r)).
Proof.
  intros H Hs Hb Hraw. unfold poll_once, bind.
  rewrite (_request_answered env self "GET" (status_endpoint tx_id) None w took r H
             (accepted_not_retried _ _ Hs)).
  rewrite (classify_accepts _ _ _ _ Hs Hb).
  cbn [fst as_network_error py_get ret]. rewrite Hraw. cbn [py_upper ret].
  destruct (in_strs _ _); [reflexivity |].
  destruct (String.eqb _ _); reflexivity.
Qed.

Lemma poll_loop_step fuel start w :
  poll_loop env (S fuel) self tx_id start w
  = if Qltb (clock w - start) 30 then
      match poll_once env self tx_id w with
      | (Return (Some v), w1) => (Return v, w1)
      | (Return None, w1) => poll_loop env fuel self tx_id start (later w1 2)
      | (Raise e, w1) => (Raise e, w1)
      | (OutOfFuel, w1) => (OutOfFuel, w1)
      end
    else (Return (still_pending tx_id), w).
Proof.
  cbn [poll_loop]. unfold bind at 1. unfold time_time at 1.
  destruct (Qltb _ _); [| reflexivity].
  unfold bind at 1.
  destruct (poll_once env self tx_id w) as [[[v |] | e |] w1]; reflexivity.
Qed.

(** Every exchange of a polling run is a status poll of [tx_id]. *)
Lemma poll_loop_history fuel start : forall w out w_end,
  poll_loop env fuel self tx_id start w = (out, w_end) ->
  exists polls,
    history w_end = (history w ++ polls)%list
    /\ Forall (fun x => sent x = (status_call self tx_id)) polls.
Proof.
  induction fuel as [| fuel IH]; intros w out w_end Hrun.
  - inversion Hrun. exists []. rewrite app_nil_r. split; [reflexivity | constructor].
  - rewrite poll_loop_step in Hrun.
    destruct (Qltb _ _).
    + destruct (network env w (status_call self tx_id)) as [took rep] eqn:Hnet.
      pose proof (poll_once_world w took rep Hnet) as Hw.
      destruct (poll_once env self tx_id w) as [o w1]. cbn [snd] in Hw. subst w1.
      set (x := {| sent := (status_call self tx_id); sent_at := clock w; reply := rep |}).
      assert (Hone : exists polls,
                 history (record w (status_call self tx_id) took rep) = (history w ++ polls)%list
                 /\ Forall (fun x => sent x = (status_call self tx_id)) polls).
      { exists [x]. split; [reflexivity | repeat constructor]. }
      destruct o as [[v |] | e |]; try (inversion Hrun; subst; exact Hone).
      apply IH in Hrun. destruct Hrun as [polls [Hh Hall]].
      exists (x :: polls). split.
      * rewrite Hh. cbn [later record history]. rewrite <- app_assoc. reflexivity.
      * constructor; [reflexivity | exact Hall].
    + inversion Hrun. exists []. rewrite app_nil_r. split; [reflexivity | constructor].
Qed.

End Poller.

Lemma lookup_dict_get d k v default :
  Py.lookup d k = Some v -> Py.dict_get d k default = v.
Proof. unfold Py.dict_get. intros ->. reflexivity. Qed.

Lemma in_terminal_success (st : string) :
  in_strs st ["COMPLETE"; "COMPLETED"] = true <-> st = "COMPLETE" \/ st = "COMPLETED".
Proof.
  unfold in_strs. simpl. rewrite !orb_true_iff, !String.eqb_eq.
  intuition discriminate.
Qed.

Section SoftTimeout.
Variable env : Env.
Variable self : ModexiaClient.
Variable tx_id : pyval.

(** Every poll, whenever it is sent, is answered in non-negative time
    with an accepted JSON object whose state reads PENDING in some
    letter case. *)
Hypothesis always_pending : forall w, exists took r d raw,
  network env w (status_call self tx_id) = (took, Answered r)
  /\ (0 <= took)%Q
  /\ error_status (status_code r) = false
  /\ body_of r = Some (PDict d)
  /\ Py.lookup d "state" = Some (PStr raw)
  /\ PyStr.upper raw = "PENDING".

Lemma poll_loop_pending start : forall fuel w,
  (1 <= fuel)%nat ->
  (32 <= 2 * inject_Z (Z.of_nat fuel) + (clock w - start))%Q ->
  exists w_end,
    poll_loop env fuel self tx_id start w = (Return (still_pending tx_id), w_end)
    /\ (30 <= clock w_end - start)%Q.
Proof.
  induction fuel as [| fuel IH]; intros w Hpos Hfuel; [lia |].
  rewrite poll_loop_step.
  destruct (Qltb (clock w - start) 30) eqn:Hin.
  - apply Qltb_true in Hin.
    destruct (always_pending w) as (took & r & d & raw & Hnet & Htook & Hs & Hb & Hst & Hup).
    rewrite (poll_once_delivered env self tx_id w took r d raw Hnet Hs Hb
               (lookup_dict_get _ _ _ _ Hst)).
    rewrite Hup. cbn [in_strs existsb String.eqb Ascii.eqb Bool.eqb orb andb].
    assert (E : (inject_Z (Z.of_nat (S fuel)) == inject_Z (Z.of_nat fuel) + 1)%Q).
    { rewrite Nat2Z.inj_succ. unfold Z.succ. rewrite inject_Z_plus. reflexivity. }
    rewrite E in Hfuel.
    destruct fuel as [| fuel'].
    + exfalso. change (inject_Z (Z.of_nat 0)) with 0%Q in Hfuel. lra.
    + apply IH; [lia |]. cbn [later record clock]. lra.
  - apply Qltb_false in Hin. exists w. split; [reflexivity | exact Hin].
Qed.

End SoftTimeout.

(** C3.  When every poll is answered with a PENDING state, [_poll_status]
    neither raises nor runs on: with a loop budget of 16 condition checks
    or more it returns the dict [success: True, status: PENDING, txId],
    at a time when at least 30 seconds have passed since it started, and
    all it did meanwhile was to poll the transaction. *)
Theorem poller_soft_timeout env self tx_id w fuel :
  (forall w', exists took r d raw,
      network env w' (status_call self tx_id) = (took, Answered r)
      /\ (0 <= took)%Q
      /\ error_status (status_code r) = false
      /\ body_of r = Some (PDict d)
      /\ Py.lookup d "state" = Some (PStr raw)
      /\ PyStr.upper raw = "PENDING") ->
  (16 <= fuel)%nat ->
  exists w_end polls,
    _poll_status env fuel self tx_id w
    = (Return (PDict [("success", PBool true); ("status", PStr "PENDING");
                      ("txId", tx_id)]), w_end)
    /\ (30 <= clock w_end - clock w)%Q
    /\ history w_end = (history w ++ polls)%list
    /\ Forall (fun x => sent x = status_call self tx_id) polls.
Proof.
  intros Hpending Hfuel.
  destruct (poll_loop_pending env self tx_id Hpending (clock w) fuel w)
    as [w_end [Hrun Hlate]].
  - lia.
  - assert (H16 : (inject_Z 16 <= inject_Z (Z.of_nat fuel))%Q).
    { rewrite <- Zle_Qle. lia. }
    change (inject_Z 16) with 16%Q in H16. lra.
  - destruct (poll_loop_history env self tx_id fuel (clock w) w _ _ Hrun)
      as [polls [Hh Hall]].
    exists w_end, polls. repeat split; assumption.
Qed.

(** The theorem on a service that always answers with the state
    [pending]: after 15 polls of 2.1 s each the budget is spent. *)
Lemma poller_soft_timeout_witness :
  (16 <= 16)%nat
  /\ exists w_end polls,
       _poll_status Scenario.never_settles 16 Scenario.client (PStr "txn_123")
         Scenario.fresh
       = (Return (PDict [("success", PBool true); ("status", PStr "PENDING");
                         ("txId", PStr "txn_123")]), w_end)
       /\ (30 <= clock w_end - clock Scenario.fresh)%Q
       /\ history w_end = (history Scenario.fresh ++ polls)%list
       /\ Forall (fun x => sent x = status_call Scenario.client (PStr "txn_123")) polls.
Proof.
  split; [lia |].
  apply (poller_soft_timeout Scenario.never_settles Scenario.client
           (PStr "txn_123") Scenario.fresh 16); [| lia].
  intros w'.
  exists (1 # 10)%Q, (Scenario.json_response 200 [("state", "pending")]),
         [("state", PStr "pending")], "pending".
  repeat split; try reflexivity. discriminate.
Defined.

Section FailedStops.
Variable env : Env.
Variable self : ModexiaClient.
Variable tx_id : pyval.

Lemma poll_once_failed w took r d raw o w1 :
  network env w (status_call self tx_id) = (took, Answered r) ->
  poll_once env self tx_id w = (o, w1) ->
  error_status (status_code r) = false ->
  body_of r = Some (PDict d) ->
  Py.dict_get d "state" (PStr "") = PStr raw ->
  PyStr.upper raw = "FAILED" ->
  o = Raise (transfer_failed d).
Proof.
  intros Hnet Hp Hs Hb Hst Hup.
  rewrite (poll_once_delivered env self tx_id w took r d raw Hnet Hs Hb Hst) in Hp.
  rewrite Hup in Hp. cbn in Hp. inversion Hp. reflexivity.
Qed.

Lemma poll_loop_failed_stops start : forall fuel w out w_end,
  poll_loop env fuel self tx_id start w = (out, w_end) ->
  exists polls,
    history w_end = (history w ++ polls)%list
    /\ forall before x after r d raw,
        polls = (before ++ x :: after)%list ->
        reply x = Answered r ->
        error_status (status_code r) = false ->
        body_of r = Some (PDict d) ->
        Py.dict_get d "state" (PStr "") = PStr raw ->
        PyStr.upper raw = "FAILED" ->
        after = [] /\ out = Raise (transfer_failed d).
Proof.
  assert (Hnone : forall (w w_end : World) (out : outcome pyval),
             w = w_end ->
             exists polls,
               history w_end = (history w ++ polls)%list
               /\ forall before x after r d raw,
                   polls = (before ++ x :: after)%list ->
                   reply x = Answered r ->
                   error_status (status_code r) = false ->
                   body_of r = Some (PDict d) ->
                   Py.dict_get d "state" (PStr "") = PStr raw ->
                   PyStr.upper raw = "FAILED" ->
                   after = [] /\ out = Raise (transfer_failed d)).
  { intros w w_end out <-. exists []. split; [now rewrite app_nil_r |].
    intros before x after r d raw Hsplit. destruct before; discriminate. }
  induction fuel as [| fuel IH]; intros w out w_end Hrun.
  - inversion Hrun. apply Hnone. reflexivity.
  - rewrite poll_loop_step in Hrun.
    destruct (Qltb _ _); [| inversion Hrun; apply Hnone; reflexivity].
    destruct (network env w (status_call self tx_id)) as [took rep] eqn:Hnet.
    pose proof (poll_once_world env self tx_id w took rep Hnet) as Hw.
    destruct (poll_once env self tx_id w) as [o w1] eqn:Hp.
    cbn [snd] in Hw. subst w1.
    set (x0 := {| sent := status_call self tx_id; sent_at := clock w; reply := rep |}).
    assert (K : forall r d raw,
               reply x0 = Answered r ->
               error_status (status_code r) = false ->
               body_of r = Some (PDict d) ->
               Py.dict_get d "state" (PStr "") = PStr raw ->
               PyStr.upper raw = "FAILED" ->
               o = Raise (transfer_failed d)).
    { intros r d raw Hr. cbn in Hr. subst rep.
      apply (poll_once_failed w took r d raw o _ Hnet Hp). }
    assert (Hlast : forall out' : outcome pyval,
               (forall d, o = Raise (transfer_failed d) ->
                          out' = Raise (transfer_failed d)) ->
               (out', record w (status_call self tx_id) took rep) = (out, w_end) ->
               exists polls,
                 history w_end = (history w ++ polls)%list
                 /\ forall before x after r d raw,
                     polls = (before ++ x :: after)%list ->
                     reply x = Answered r ->
                     error_status (status_code r) = false ->
                     body_of r = Some (PDict d) ->
                     Py.dict_get d "state" (PStr "") = PStr raw ->
                     PyStr.upper raw = "FAILED" ->
                     after = [] /\ out = Raise (transfer_failed d)).
    { intros out' Hsame Heq. inversion Heq. subst out' w_end.
      exists [x0]. split; [reflexivity |].
      intros before x after r d raw Hsplit Hr Hs Hb Hst Hup.
      destruct before as [| b before].
      - inversion Hsplit. subst x after.
        split; [reflexivity |].
        apply (Hsame d). apply (K r d raw Hr Hs Hb Hst Hup).
      - inversion Hsplit. destruct before; discriminate. }
    destruct o as [[v |] | e |].
    + apply (Hlast (Return v)); [intros d Hd; discriminate | exact Hrun].
    + apply IH in Hrun. destruct Hrun as [polls [Hh Hstop]].
      exists (x0 :: polls). split.
      * rewrite Hh. cbn [later record history]. rewrite <- app_assoc. reflexivity.
      * intros before x after r d raw Hsplit Hr Hs Hb Hst Hup.
        destruct before as [| b before].
        -- inversion Hsplit. subst x after.
           pose proof (K r d raw Hr Hs Hb Hst Hup). discriminate.
        -- inversion Hsplit. subst b polls.
           apply (Hstop before x after r d raw eq_refl Hr Hs Hb Hst Hup).
    + apply (Hlast (Raise e)); [intros d Hd; inversion Hd; reflexivity | exact Hrun].
    + apply (Hlast OutOfFuel); [intros d Hd; discriminate | exact Hrun].
Qed.

End FailedStops.

(** C4.  In every run of [_poll_status], an accepted poll response whose
    state reads FAILED in some letter case is the last exchange of the run
    (no request follows it), and the run ends by raising
    [ModexiaPaymentError] with the text [Transfer Failed: ] followed by
    the [errorReason] the server sent in that response. *)
Theorem poller_failed_stops env self tx_id fuel w out w_end :
  _poll_status env fuel self tx_id w = (out, w_end) ->
  exists polls,
    history w_end = (history w ++ polls)%list
    /\ forall before x after r d raw,
        polls = (before ++ x :: after)%list ->
        reply x = Answered r ->
        error_status (status_code r) = false ->
        body_of r = Some (PDict d) ->
        Py.dict_get d "state" (PStr "") = PStr raw ->
        PyStr.upper raw = "FAILED" ->
        after = []
        /\ out = Raise (ModexiaPaymentError
                          (PStr ("Transfer Failed: "
                                 ++ Py.str (Py.dict_get d "errorReason" PNone)))).
Proof.
  intros Hrun. unfold _poll_status, bind, time_time in Hrun.
  apply (poll_loop_failed_stops env self tx_id (clock w) fuel w out w_end Hrun).
Qed.

(** The theorem on a service that reports [Failed]: the first poll is the
    only one, and the error carries the reason sent. *)
Lemma poller_failed_stops_witness :
  let run := _poll_status Scenario.reports_failed 16 Scenario.client
               (PStr "txn_123") Scenario.fresh in
  fst run = Raise (ModexiaPaymentError (PStr "Transfer Failed: insufficient funds"))
  /\ length (history (snd run)) = 1%nat.
Proof.
  intros run.
  destruct (poller_failed_stops Scenario.reports_failed Scenario.client
              (PStr "txn_123") 16 Scenario.fresh (fst run) (snd run)
              (surjective_pairing run)) as [polls [Hh Hstop]].
  pose proof Hh as Hpolls. vm_compute in Hpolls.
  destruct (Hstop [] _ [] (Scenario.json_response 200
                             [("state", "Failed"); ("errorReason", "insufficient funds")])
              [("state", PStr "Failed"); ("errorReason", PStr "insufficient funds")]
              "Failed" (eq_sym Hpolls) eq_refl eq_refl eq_refl eq_refl eq_refl)
    as [_ Hout].
  split; [exact Hout |].
  rewrite Hh, <- Hpolls. reflexivity.
Defined.

(* ===================================================================== *)
(** * How the poller reads a state *)
(* ===================================================================== *)

Lemma upper_lower_char (c : ascii) :
  PyStr.upper_char (PyStr.lower_char c) = PyStr.upper_char c.
Proof.
  destruct c as [[] [] [] [] [] [] [] []]; reflexivity.
Qed.

Lemma upper_lower (s : string) : PyStr.upper (PyStr.lower s) = PyStr.upper s.
Proof.
  induction s as [| c s IH]; [reflexivity |].
  cbn [PyStr.upper PyStr.lower]. rewrite upper_lower_char, IH. reflexivity.
Qed.

Lemma not_terminal_success (st : string) :
  st <> "COMPLETE" -> st <> "COMPLETED" ->
  in_strs st ["COMPLETE"; "COMPLETED"] = false.
Proof.
  intros H1 H2. destruct (in_strs st _) eqn:E; [| reflexivity].
  apply in_terminal_success in E. tauto.
Qed.

(** C5 (amended).  The poller compares the upper-cased state, so
    spellings that differ only in letter case are read alike.  A state
    that reads COMPLETE or COMPLETED ends the run with the success result
    (COMPLETED is accepted as a spelling of COMPLETE, not treated as
    unknown); every state string other than COMPLETE, COMPLETED and
    FAILED, PENDING included, is not terminal: the poller sleeps 2 seconds
    and goes round the loop again, neither returning nor raising. *)
Theorem poller_state_handling env self tx_id start fuel w took r d raw :
  (clock w - start < 30)%Q ->
  network env w (status_call self tx_id) = (took, Answered r) ->
  error_status (status_code r) = false ->
  body_of r = Some (PDict d) ->
  Py.dict_get d "state" (PStr "") = PStr raw ->
  let st := PyStr.upper raw in
  let w1 := record w (status_call self tx_id) took (Answered r) in
  let run := poll_loop env (S fuel) self tx_id start w in
  (forall other, PyStr.lower other = PyStr.lower raw -> PyStr.upper other = st)
  /\ (st = "COMPLETE" \/ st = "COMPLETED" ->
      run = (Return (PDict [("success", PBool true); ("txId", tx_id);
                            ("status", PStr "COMPLETE");
                            ("txHash", Py.dict_get d "txHash" PNone)]), w1))
  /\ (st <> "COMPLETE" -> st <> "COMPLETED" -> st <> "FAILED" ->
      run = poll_loop env fuel self tx_id start (later w1 2)).
Proof.
  intros Hin Hnet Hs Hb Hst st w1 run.
  split; [| split].
  - intros other Hsame. subst st.
    rewrite <- (upper_lower other), Hsame. apply upper_lower.
  - intros Hdone. subst run. rewrite poll_loop_step.
    apply Qltb_true in Hin. rewrite Hin.
    rewrite (poll_once_delivered env self tx_id w took r d raw Hnet Hs Hb Hst).
    fold st. apply in_terminal_success in Hdone. rewrite Hdone. reflexivity.
  - intros H1 H2 H3. subst run. rewrite poll_loop_step.
    apply Qltb_true in Hin. rewrite Hin.
    rewrite (poll_once_delivered env self tx_id w took r d raw Hnet Hs Hb Hst).
    fold st. rewrite (not_terminal_success st H1 H2).
    apply String.eqb_neq in H3. rewrite H3. reflexivity.
Qed.

(** The theorem on a service that reports the state [Processing]: the
    poller sleeps and goes on. *)
Lemma poller_state_handling_witness :
  let env := Scenario.reports_processing in
  let rq := status_call Scenario.client (PStr "txn_123") in
  let r := Scenario.json_response 200 [("state", "Processing")] in
  (clock Scenario.fresh - 0 < 30)%Q
  /\ PyStr.upper "Processing" = "PROCESSING"
  /\ poll_loop env 1 Scenario.client (PStr "txn_123") 0 Scenario.fresh
     = poll_loop env 0 Scenario.client (PStr "txn_123") 0
         (later (record Scenario.fresh rq (1 # 10) (Answered r)) 2).
Proof.
  intros env rq r.
  split; [reflexivity |]. split; [reflexivity |].
  refine (proj2 (proj2 (poller_state_handling env Scenario.client (PStr "txn_123")
            0 0 Scenario.fresh (1 # 10)%Q r [("state", PStr "Processing")] "Processing"
            eq_refl eq_refl eq_refl eq_refl eq_refl)) _ _ _); discriminate.
Defined.

(** C5 as stated fails on the state [COMPLETED], which is outside
    PENDING, COMPLETE and FAILED: the first poll that reads it returns the
    success result and nothing further is polled. *)
Lemma completed_is_terminal :
  let run := _poll_status Scenario.reports_completed 16 Scenario.client
               (PStr "txn_123") Scenario.fresh in
  ~ In (PyStr.upper "COMPLETED") ["PENDING"; "COMPLETE"; "FAILED"]
  /\ fst run = Return (PDict [("success", PBool true); ("txId", PStr "txn_123");
                              ("status", PStr "COMPLETE");
                              ("txHash", PStr "0xabc123")])
  /\ length (history (snd run)) = 1%nat.
Proof.
  split; [| split; reflexivity].
  cbn. intros [H | [H | [H | []]]]; discriminate.
Qed.

(* ===================================================================== *)
(** * The balance query *)
(* ===================================================================== *)

Lemma _validate_session_unwraps env self w took r payload identity :
  network env w (me_call self) = (took, Answered r) ->
  error_status (status_code r) = false ->
  body_of r = Some (PDict payload) ->
  Py.dict_get payload "data" (PDict payload) = PDict identity ->
  _validate_session env self w
  = (Return (PDict identity), record w (me_call self) took (Answered r)).
Proof.
  intros Hnet Hs Hb Hid. unfold _validate_session, bind.
  rewrite (_request_answered env self "GET" "/api/v1/user/me" None w took r Hnet
             (accepted_not_retried _ _ Hs)).
  rewrite (classify_accepts _ _ _ _ Hs Hb).
  cbn [fst as_network_error py_get ret]. rewrite Hid. reflexivity.
Qed.

(** X23.  For an identity payload (a JSON object) received from
    [/api/v1/user/me], [retrieve_balance] takes the object under [data]
    when the payload has that key and the payload itself otherwise, and
    returns the value of the [balance] field of that identity record as it
    stands, whatever its type (nothing converts it: a string comes back as
    that string, a number as that number); when the record has no
    [balance] field the result is the string [0]. *)
Theorem balance_query env self w took r payload :
  network env w (me_call self) = (took, Answered r) ->
  error_status (status_code r) = false ->
  body_of r = Some (PDict payload) ->
  let out := fst (retrieve_balance env self w) in
  let balance_of identity :=
    match Py.lookup identity "balance" with
    | Some b => Return b
    | None => Return (PStr "0")
    end in
  (forall identity, Py.lookup payload "data" = Some (PDict identity) ->
                    out = balance_of identity)
  /\ (Py.lookup payload "data" = None -> out = balance_of payload).
Proof.
  intros Hnet Hs Hb out balance_of.
  assert (Hgo : forall identity,
             Py.dict_get payload "data" (PDict payload) = PDict identity ->
             out = balance_of identity).
  { intros identity Hid. subst out balance_of. unfold retrieve_balance, bind.
    rewrite (_validate_session_unwraps env self w took r payload identity Hnet Hs Hb Hid).
    cbn [fst py_get ret]. unfold Py.dict_get.
    destruct (Py.lookup identity "balance"); reflexivity. }
  split.
  - intros identity Hl. apply Hgo. unfold Py.dict_get. rewrite Hl. reflexivity.
  - intros Hl. apply Hgo. unfold Py.dict_get. rewrite Hl. reflexivity.
Qed.

(** The theorem on the enveloped payload of the test suite, and on an
    identity without a balance. *)
Lemma balance_query_witness :
  fst (retrieve_balance (Scenario.always (Answered Scenario.me_enveloped))
         Scenario.client Scenario.fresh)
  = Return (PStr "150.50")
  /\ fst (retrieve_balance
            (Scenario.always (Answered (Scenario.json_response 200 [("username", "testuser")])))
            Scenario.client Scenario.fresh)
     = Return (PStr "0").
Proof.
  split.
  - refine (proj1 (balance_query (Scenario.always (Answered Scenario.me_enveloped))
              Scenario.client Scenario.fresh (1 # 10)%Q Scenario.me_enveloped
              _ eq_refl eq_refl eq_refl) _ eq_refl).
  - refine (proj2 (balance_query
              (Scenario.always (Answered (Scenario.json_response 200 [("username", "testuser")])))
              Scenario.client Scenario.fresh (1 # 10)%Q _ _ eq_refl eq_refl eq_refl) eq_refl).
Defined.

(** C9.  The code at the failing input.  The claim has the balance
    returned as a string, as the docstring of [retrieve_balance] (as a
    decimal string) and its return annotation do.  On an identity whose
    balance is the JSON number 0, bare or under [data], the method returns
    the integer 0, which is no string; a balance of 150.5 comes back as a
    float. *)
Theorem balance_not_a_string :
  let ask r := fst (retrieve_balance (Scenario.always (Answered r))
                      Scenario.client Scenario.fresh) in
  let enveloped :=
    {| status_code := 200;
       headers := [("Content-Type", "application/json")];
       text := "{" ++ Scenario.quoted "data" ++ ": {"
                   ++ Scenario.quoted "balance" ++ ": 0}}";
       json := inr (PDict [("data", PDict [("balance", PInt 0)])]) |} in
  ask (Scenario.numeric_balance (PInt 0) "0") = Return (PInt 0)
  /\ ask enveloped = Return (PInt 0)
  /\ ask (Scenario.numeric_balance (Scenario.float_of "150.5") "150.5")
     = Return (Scenario.float_of "150.5")
  /\ Py.str (Scenario.float_of "150.5") = "150.5"
  /\ (forall s, PInt 0 <> PStr s)
  /\ (forall s, Scenario.float_of "150.5" <> PStr s).
Proof.
  vm_compute. repeat split; intros s; discriminate.
Qed.

(* ===================================================================== *)
(** * Submitting a payment *)
(* ===================================================================== *)

Lemma choose_key_history env key w ikey w0 :
  choose_key env key w = (Return ikey, w0) ->
  history w0 = history w /\ clock w0 = clock w.
Proof.
  unfold choose_key, uuid4_str, ret.
  destruct key as [k |]; [destruct (String.eqb k "") |];
    intros H; inversion H; split; reflexivity.
Qed.

Lemma transfer_submits env fuel self recipient amount key wait w ikey w0 took r data :
  choose_key env key w = (Return ikey, w0) ->
  network env w0 (pay_call self recipient amount ikey) = (took, Answered r) ->
  error_status (status_code r) = false ->
  body_of r = Some (PDict data) ->
  transfer env fuel self recipient amount key wait w
  = (if wait && Py.truthy (Py.dict_get data "success" PNone)
     then _poll_status env fuel self (Py.dict_get data "txId" PNone)
     else ret (PDict data))
      (record w0 (pay_call self recipient amount ikey) took (Answered r)).
Proof.
  intros Hkey Hnet Hs Hb. unfold transfer. unfold bind at 1. rewrite Hkey.
  unfold bind at 1.
  rewrite (_request_answered env self "POST" "/api/v1/agent/pay" _ w0 took r Hnet
               (post_not_retried _)).
  rewrite (classify_accepts _ _ _ _ Hs Hb). cbn [fst as_network_error].
  destruct wait; [| reflexivity].
  cbn [andb py_get]. unfold bind, ret.
  destruct (Py.truthy _); reflexivity.
Qed.



(* ===================================================================== *)
(** * What a payment sends *)
(* ===================================================================== *)

Lemma choose_key_total env key w :
  exists ikey w0,
    choose_key env key w = (Return ikey, w0)
    /\ history w0 = history w
    /\ clock w0 = clock w
    /\ (key = None -> ikey = uuid4 env (drawn w)).
Proof.
  unfold choose_key, uuid4_str, ret.
  destruct key as [k |]; [destruct (String.eqb k "") |];
    do 2 eexists; (split; [reflexivity |]); repeat split; try reflexivity;
    intros Hk; discriminate.
Qed.

(** Every run of [transfer] starts with the POST of the submission, and
    whatever follows goes through the session. *)
Lemma transfer_history env fuel self recipient amount key wait w out w_end :
  transfer env fuel self recipient amount key wait w = (out, w_end) ->
  exists ikey rep rest,
    fst (choose_key env key w) = Return ikey
    /\ history w_end
       = (history w ++ {| sent := pay_call self recipient amount ikey;
                          sent_at := clock w; reply := rep |} :: rest)%list
    /\ Forall (fun e => is_plain e = false) rest.
Proof.
  intros Hrun.
  destruct (choose_key_total env key w) as (ikey & w0 & Hkey & Hh & Hc & _).
  unfold transfer in Hrun. unfold bind at 1 in Hrun. rewrite Hkey in Hrun.
  unfold bind at 1 in Hrun.
  destruct (network env w0 (pay_call self recipient amount ikey)) as [took rep] eqn:Hnet.
  pose proof (_request_world env self "POST" "/api/v1/agent/pay" _ w0 took rep Hnet) as Hw.
  destruct (_request env self "POST" "/api/v1/agent/pay"
              (Some (pay_body recipient amount ikey)) w0) as [o w1].
  cbn [snd] in Hw. subst w1.
  exists ikey, rep.
  assert (Hdone : forall o', (o', record w0 (pay_call self recipient amount ikey) took rep)
                             = (out, w_end) ->
            exists rest,
              fst (choose_key env key w) = Return ikey
              /\ history w_end
                 = (history w ++ {| sent := pay_call self recipient amount ikey;
                                    sent_at := clock w; reply := rep |} :: rest)%list
              /\ Forall (fun e => is_plain e = false) rest).
  { intros o' Heq. inversion Heq. exists []. rewrite Hkey.
    cbn [record history fst]. rewrite Hh, Hc. repeat split. constructor. }
  destruct o as [data | e |]; try (apply (Hdone _ Hrun)).
  destruct wait; [| apply (Hdone _ Hrun)].
  destruct data; try (apply (Hdone _ Hrun)).
  cbn [py_get] in Hrun. unfold bind at 1, ret at 1 in Hrun.
  destruct (Py.truthy _); [| apply (Hdone _ Hrun)].
  unfold bind at 1, ret at 1 in Hrun.
  unfold _poll_status, bind, time_time in Hrun.
  apply poll_loop_history in Hrun. destruct Hrun as [polls [Hp Hall]].
  exists polls. rewrite Hkey. cbn [fst]. split; [reflexivity |]. split.
  - rewrite Hp. cbn [record history]. rewrite Hh, Hc, <- app_assoc. reflexivity.
  - apply Forall_impl with (2 := Hall). intros e He. unfold is_plain. rewrite He. reflexivity.
Qed.

(* ===================================================================== *)
(** * Paywall negotiation *)
(* ===================================================================== *)

Lemma lookup_dict_set_same d k v : Py.lookup (Py.dict_set d k v) k = Some v.
Proof.
  induction d as [| [k' v'] d IH]; cbn.
  - rewrite String.eqb_refl. reflexivity.
  - destruct (String.eqb k' k) eqn:E; cbn.
    + rewrite String.eqb_refl. reflexivity.
    + rewrite E. exact IH.
Qed.

Lemma lookup_dict_set_other d k v k0 :
  k <> k0 -> Py.lookup (Py.dict_set d k v) k0 = Py.lookup d k0.
Proof.
  intros Hne. induction d as [| [k' v'] d IH]; cbn.
  - apply String.eqb_neq in Hne. rewrite Hne. reflexivity.
  - destruct (String.eqb k' k) eqn:E; cbn.
    + apply String.eqb_eq in E. subst k'.
      apply String.eqb_neq in Hne. rewrite Hne. reflexivity.
    + destruct (String.eqb k' k0); [reflexivity | exact IH].
Qed.

Lemma paid_headers_carry hdrs tx :
  Py.lookup (paid_headers hdrs tx) "Authorization" = Some (PStr ("L402 " ++ Py.str tx))
  /\ Py.lookup (paid_headers hdrs tx) "X-Payment-Proof" = Some tx.
Proof.
  unfold paid_headers. split.
  - rewrite lookup_dict_set_other by discriminate. apply lookup_dict_set_same.
  - apply lookup_dict_set_same.
Qed.

Section Paywall.
Variable env : Env.
Variable fuel : nat.
Variable self : ModexiaClient.
Variable target : string.
Variable prms : option pydict.
Variable hdrs : option pydict.

(** [smart_fetch] once the first fetch is answered. *)
Lemma smart_fetch_answered w took r :
  network env w (first_get self target prms hdrs) = (took, Answered r) ->
  smart_fetch env fuel self target prms hdrs w
  = (if status_code r =? 402 then
       match _negotiate_paywall env fuel self r (record w (first_get self target prms hdrs) took (Answered r)) with
       | (Return (PDict rd), w2) =>
           if Py.truthy (PDict rd)
           then http env (paid_get self target prms hdrs (Py.dict_get rd "txId" PNone)) w2
           else (Return r, w2)
       | (Return receipt, w2) =>
           if Py.truthy receipt then (Raise AttributeError, w2) else (Return r, w2)
       | (Raise e, w2) => (Raise e, w2)
       | (OutOfFuel, w2) => (OutOfFuel, w2)
       end
     else (Return r, record w (first_get self target prms hdrs) took (Answered r))).
Proof.
  intros Hnet. unfold smart_fetch, requests_get. unfold bind at 1.
  unfold http at 1. fold (given_headers hdrs). fold (first_get self target prms hdrs). rewrite Hnet.
  destruct (status_code r =? 402); [| reflexivity].
  unfold bind at 1.
  destruct (_negotiate_paywall env fuel self r _) as [[receipt | e |] w2];
    try reflexivity.
  destruct receipt; try reflexivity;
    match goal with
    | |- context [Py.truthy ?v] => destruct (Py.truthy v)
    end; reflexivity.
Qed.

(** Negotiation only talks to the payment service. *)
Lemma negotiate_history r w out w2 :
  _negotiate_paywall env fuel self r w = (out, w2) ->
  exists pay,
    history w2 = (history w ++ pay)%list
    /\ Forall (fun e => is_plain e = false) pay.
Proof.
  unfold _negotiate_paywall. intros Hrun.
  assert (Hnone : forall o, (o, w) = (out, w2) ->
            exists pay, history w2 = (history w ++ pay)%list
                        /\ Forall (fun e => is_plain e = false) pay).
  { intros o Heq. inversion Heq. exists []. rewrite app_nil_r.
    split; [reflexivity | constructor]. }
  destruct (PyStr.search_attr "amount" _) as [a |]; [| apply (Hnone _ Hrun)].
  destruct (PyStr.search_attr "destination" _) as [d |]; [| apply (Hnone _ Hrun)].
  destruct (PyFloat.of_string a) as [x |]; [| apply (Hnone _ Hrun)].
  apply transfer_history in Hrun.
  destruct Hrun as (ikey & rep & rest & _ & Hh & Hall).
  eexists. split; [exact Hh |].
  constructor; [reflexivity | exact Hall].
Qed.

(** A call of [smart_fetch] fetches the resource at most twice: the
    first fetch and at most one retry. *)
Lemma smart_fetch_fetches w out w_end :
  smart_fetch env fuel self target prms hdrs w = (out, w_end) ->
  exists exchanges,
    history w_end = (history w ++ exchanges)%list
    /\ (length (filter is_plain exchanges) <= 2)%nat.
Proof.
  intros Hrun.
  destruct (network env w (first_get self target prms hdrs)) as [took rep] eqn:Hnet.
  set (x1 := {| sent := (first_get self target prms hdrs); sent_at := clock w; reply := rep |}).
  assert (Hone : forall o, (o, record w (first_get self target prms hdrs) took rep) = (out, w_end) ->
            exists exchanges,
              history w_end = (history w ++ exchanges)%list
              /\ (length (filter is_plain exchanges) <= 2)%nat).
  { intros o Heq. inversion Heq. exists [x1]. split; [reflexivity | cbn; lia]. }
  destruct rep as [r | msg].
  - rewrite (smart_fetch_answered w took r Hnet) in Hrun.
    destruct (status_code r =? 402); [| apply (Hone _ Hrun)].
    destruct (_negotiate_paywall env fuel self r _) as [o w2] eqn:Hneg.
    apply negotiate_history in Hneg. destruct Hneg as [pay [Hh Hall]].
    assert (Hpay : filter is_plain pay = []).
    { clear - Hall. induction Hall as [| e l He _ IH]; [reflexivity |].
      cbn. rewrite He. exact IH. }
    assert (Hstay : forall o', (o', w2) = (out, w_end) ->
              exists exchanges,
                history w_end = (history w ++ exchanges)%list
                /\ (length (filter is_plain exchanges) <= 2)%nat).
    { intros o' Heq. inversion Heq. subst. exists (x1 :: pay). split.
      - rewrite Hh. cbn [record history]. rewrite <- app_assoc. reflexivity.
      - cbn [filter]. destruct (is_plain x1); cbn [length]; rewrite Hpay; cbn; lia. }
    destruct o as [receipt | e |]; try (apply (Hstay _ Hrun)).
    destruct receipt; try (destruct (Py.truthy _); apply (Hstay _ Hrun)).
    destruct (Py.truthy (PDict entries)); [| apply (Hstay _ Hrun)].
    unfold http in Hrun.
    destruct (network env w2 _) as [took2 rep2].
    exists (x1 :: pay ++ [{| sent := paid_get self target prms hdrs (Py.dict_get entries "txId" PNone);
                             sent_at := clock w2; reply := rep2 |}])%list.
    split.
    + destruct rep2; inversion Hrun; cbn [record history]; rewrite Hh;
        cbn [record history]; rewrite <- !app_assoc; reflexivity.
    + cbn [filter]. rewrite filter_app, Hpay.
      destruct (is_plain x1); cbn; lia.
  - unfold smart_fetch, requests_get in Hrun. unfold bind at 1 in Hrun.
    unfold http at 1 in Hrun. fold (given_headers hdrs) in Hrun.
    fold (first_get self target prms hdrs) in Hrun. rewrite Hnet in Hrun.
    apply (Hone _ Hrun).
Qed.

End Paywall.

(** X24.  When the first fetch of [smart_fetch] is answered 402 and one
    of the two patterns of [_negotiate_paywall] matches nowhere in the
    [WWW-Authenticate] header (an absent header reads as the empty
    string), [smart_fetch] returns that 402 response itself, and the first
    fetch is the only request of the call: nothing is submitted to the
    payment service. *)
Theorem malformed_challenge env fuel self target prms hdrs w took r :
  network env w (first_get self target prms hdrs) = (took, Answered r) ->
  status_code r = 402 ->
  PyStr.search_attr "amount" (challenge_of r) = None
  \/ PyStr.search_attr "destination" (challenge_of r) = None ->
  exists w_end,
    smart_fetch env fuel self target prms hdrs w = (Return r, w_end)
    /\ history w_end
       = (history w ++ [{| sent := first_get self target prms hdrs;
                           sent_at := clock w; reply := Answered r |}])%list.
Proof.
  intros Hnet H402 Hmiss.
  rewrite (smart_fetch_answered env fuel self target prms hdrs w took r Hnet).
  rewrite H402. cbn [Z.eqb Pos.eqb].
  unfold _negotiate_paywall. fold (challenge_of r).
  assert (Hneg : forall w1,
             match PyStr.search_attr "amount" (challenge_of r),
                   PyStr.search_attr "destination" (challenge_of r) with
             | Some a, Some d =>
                 match PyFloat.of_string a with
                 | Some x => transfer env fuel self d (PFloat x) None true
                 | None => raise ValueError
                 end
             | _, _ => ret PNone
             end w1 = (Return PNone, w1)).
  { intros w1. destruct Hmiss as [Ha | Hd].
    - rewrite Ha. reflexivity.
    - rewrite Hd. destruct (PyStr.search_attr "amount" _); reflexivity. }
  rewrite Hneg. cbn [Py.truthy].
  eexists. split; reflexivity.
Qed.

(** The theorem on a challenge without a destination. *)
Lemma malformed_challenge_witness :
  PyStr.search_attr "destination" (challenge_of Scenario.half_challenge_402) = None
  /\ exists w_end,
       smart_fetch (Scenario.always (Answered Scenario.half_challenge_402)) 16
         Scenario.client Scenario.premium None None Scenario.fresh
       = (Return Scenario.half_challenge_402, w_end)
       /\ length (history w_end) = 1%nat.
Proof.
  destruct (malformed_challenge (Scenario.always (Answered Scenario.half_challenge_402))
              16 Scenario.client Scenario.premium None None Scenario.fresh
              (1 # 10)%Q Scenario.half_challenge_402 eq_refl eq_refl
              (or_intror eq_refl))
    as [w_end [Hrun Hh]].
  split; [reflexivity |].
  exists w_end. split; [exact Hrun |].
  rewrite Hh. reflexivity.
Defined.

(** C8.  The code at the failing inputs.  The patterns are searched for
    anywhere in the header, so the tail of a longer attribute name is
    taken for the attribute.  A challenge with [max_amount] and
    [destination] has no [amount] attribute, yet 99 is read as the amount:
    99.0 is submitted to the payment service for [0xCreator], the resource
    is fetched again with the proof of payment, and the response returned
    is that of the second fetch, not the 402.  Likewise a challenge with
    [amount] and [final_destination] has no [destination] attribute, yet
    1.5 is paid to [0xEvil]. *)
Theorem mislabelled_challenge_is_paid :
  let run header := smart_fetch (Scenario.paywalled_with header) 16 Scenario.client
                      Scenario.premium None None Scenario.fresh in
  let submitted header :=
    option_map (fun e => (method (sent e), url (sent e), json_body (sent e)))
      (nth_error (history (snd (run header))) 1) in
  let paid recipient amount :=
    Some ("POST", "https://sandbox.modexia.software/api/v1/agent/pay",
          Some (PDict [("providerAddress", PStr recipient);
                       ("amount", PStr amount);
                       ("idempotencyKey", PStr (Scenario.uuids 0))])) in
  (PyStr.search_attr "amount" Scenario.ceiling_challenge = Some "99"
   /\ fst (run Scenario.ceiling_challenge) = Return Scenario.secret_200
   /\ fst (run Scenario.ceiling_challenge)
      <> Return (Scenario.challenge_402 Scenario.ceiling_challenge)
   /\ submitted Scenario.ceiling_challenge = paid "0xCreator" "99.0"
   /\ length (history (snd (run Scenario.ceiling_challenge))) = 4%nat)
  /\ (PyStr.search_attr "destination" Scenario.onward_challenge = Some "0xEvil"
      /\ fst (run Scenario.onward_challenge) = Return Scenario.secret_200
      /\ submitted Scenario.onward_challenge = paid "0xEvil" "1.5"
      /\ length (history (snd (run Scenario.onward_challenge))) = 4%nat).
Proof.
  vm_compute. repeat split. discriminate.
Qed.

Section Negotiated.
Variable env : Env.
Variable fuel : nat.
Variable self : ModexiaClient.
Variable target : string.
Variable prms : option pydict.
Variable hdrs : option pydict.

(** [smart_fetch] once the first fetch is answered 402 with a challenge
    that has both attributes and a readable amount. *)
Lemma smart_fetch_negotiated w took r a d x :
  network env w (first_get self target prms hdrs) = (took, Answered r) ->
  status_code r = 402 ->
  PyStr.search_attr "amount" (challenge_of r) = Some a ->
  PyStr.search_attr "destination" (challenge_of r) = Some d ->
  PyFloat.of_string a = Some x ->
  smart_fetch env fuel self target prms hdrs w
  = match transfer env fuel self d (PFloat x) None true
            (record w (first_get self target prms hdrs) took (Answered r)) with
    | (Return (PDict rd), w2) =>
        if Py.truthy (PDict rd)
        then http env (paid_get self target prms hdrs (Py.dict_get rd "txId" PNone)) w2
        else (Return r, w2)
    | (Return receipt, w2) =>
        if Py.truthy receipt then (Raise AttributeError, w2) else (Return r, w2)
    | (Raise e, w2) => (Raise e, w2)
    | (OutOfFuel, w2) => (OutOfFuel, w2)
    end.
Proof.
  intros Hnet H402 Ha Hd Hx.
  rewrite (smart_fetch_answered env fuel self target prms hdrs w took r Hnet).
  rewrite H402. cbn [Z.eqb Pos.eqb].
  unfold _negotiate_paywall. fold (challenge_of r). rewrite Ha, Hd, Hx.
  reflexivity.
Qed.

End Negotiated.

(** C7 (amended).  For a 402 challenge whose [amount] attribute holds a
    numeral that [float] reads, the submission POSTed to the payment
    endpoint right after the first fetch carries as [amount] the string
    Python prints for the float read from the challenge text (for the
    challenge amount 1.50 the wire carries 1.5), together with the
    challenge destination as [providerAddress] and a fresh UUID as
    [idempotencyKey]. *)
Theorem paywall_amount_on_the_wire env fuel self target prms hdrs w took r a d x :
  network env w (first_get self target prms hdrs) = (took, Answered r) ->
  status_code r = 402 ->
  PyStr.search_attr "amount" (challenge_of r) = Some a ->
  PyStr.search_attr "destination" (challenge_of r) = Some d ->
  PyFloat.of_string a = Some x ->
  exists out w_end rep rest submission,
    smart_fetch env fuel self target prms hdrs w = (out, w_end)
    /\ history w_end
       = (history w
          ++ {| sent := first_get self target prms hdrs; sent_at := clock w;
                reply := Answered r |}
          :: {| sent := submission; sent_at := clock w + took; reply := rep |}
          :: rest)%list
    /\ via submission = Session
    /\ method submission = "POST"
    /\ url submission = base_url self ++ "/api/v1/agent/pay"
    /\ json_body submission
       = Some (PDict [("providerAddress", PStr d);
                      ("amount", PStr (PyFloat.to_string x));
                      ("idempotencyKey", PStr (uuid4 env (drawn w)))]).
Proof.
  intros Hnet H402 Ha Hd Hx.
  destruct (smart_fetch env fuel self target prms hdrs w) as [out w_end] eqn:Hrun.
  rewrite (smart_fetch_negotiated env fuel self target prms hdrs w took r a d x
             Hnet H402 Ha Hd Hx) in Hrun.
  set (w1 := record w (first_get self target prms hdrs) took (Answered r)) in *.
  destruct (transfer env fuel self d (PFloat x) None true w1) as [o w2] eqn:Ht.
  apply transfer_history in Ht.
  destruct Ht as (ikey & rep & rest & Hkey & Hh & Hall).
  cbn in Hkey. inversion Hkey. subst ikey. clear Hkey.
  assert (Hstay : forall o', (o', w2) = (out, w_end) ->
            history w_end
            = (history w
               ++ {| sent := first_get self target prms hdrs; sent_at := clock w;
                     reply := Answered r |}
               :: {| sent := pay_call self d (PFloat x) (uuid4 env (drawn w));
                     sent_at := clock w + took; reply := rep |}
               :: rest)%list).
  { intros o' Heq. inversion Heq. subst. rewrite Hh. subst w1.
    cbn [record history clock drawn]. rewrite <- app_assoc. reflexivity. }
  assert (Hfields :
            via (pay_call self d (PFloat x) (uuid4 env (drawn w))) = Session
            /\ method (pay_call self d (PFloat x) (uuid4 env (drawn w))) = "POST"
            /\ url (pay_call self d (PFloat x) (uuid4 env (drawn w)))
               = base_url self ++ "/api/v1/agent/pay"
            /\ json_body (pay_call self d (PFloat x) (uuid4 env (drawn w)))
               = Some (PDict [("providerAddress", PStr d);
                              ("amount", PStr (PyFloat.to_string x));
                              ("idempotencyKey", PStr (uuid4 env (drawn w)))])).
  { repeat split. }
  assert (Hquiet : forall (b : bool) o1 o2,
            (if b then (o1, w2) else (o2, w2)) = (out, w_end) ->
            exists out0 w_end0 rep0 rest0 submission,
              (out, w_end) = (out0, w_end0)
              /\ history w_end0
                 = (history w
                    ++ {| sent := first_get self target prms hdrs; sent_at := clock w;
                          reply := Answered r |}
                    :: {| sent := submission; sent_at := clock w + took; reply := rep0 |}
                    :: rest0)%list
              /\ via submission = Session
              /\ method submission = "POST"
              /\ url submission = base_url self ++ "/api/v1/agent/pay"
              /\ json_body submission
                 = Some (PDict [("providerAddress", PStr d);
                                ("amount", PStr (PyFloat.to_string x));
                                ("idempotencyKey", PStr (uuid4 env (drawn w)))])).
  { intros b o1 o2 Heq.
    exists out, w_end, rep, rest, (pay_call self d (PFloat x) (uuid4 env (drawn w))).
    split; [reflexivity |]. split; [| exact Hfields].
    destruct b; apply (Hstay _ Heq). }
  destruct o as [receipt | e |];
    [| apply (Hquiet true _ (Raise e) Hrun) | apply (Hquiet true _ OutOfFuel Hrun)].
  destruct receipt as [| b | n | f | s | l | entries];
    try (apply (Hquiet _ _ _ Hrun)).
  { apply (Hquiet false (Raise AttributeError) (Return r) Hrun). }
  destruct (Py.truthy (PDict entries)); [| apply (Hquiet false (Return r) _ Hrun)].
  unfold http in Hrun.
  destruct (network env w2 (paid_get self target prms hdrs
                              (Py.dict_get entries "txId" PNone))) as [took2 rep2].
  exists out, w_end, rep,
    (rest ++ [{| sent := paid_get self target prms hdrs (Py.dict_get entries "txId" PNone);
                 sent_at := clock w2; reply := rep2 |}])%list,
    (pay_call self d (PFloat x) (uuid4 env (drawn w))).
  split; [reflexivity |]. split; [| exact Hfields].
  destruct rep2; inversion Hrun; cbn [record history]; rewrite Hh; subst w1;
    cbn [record history clock drawn]; rewrite <- !app_assoc; reflexivity.
Qed.

(** The theorem on the paywall of the test suite, whose challenge asks
    for 1.50. *)
Lemma paywall_amount_on_the_wire_witness :
  PyFloat.of_string "1.50" = Some (S754_finite false 6755399441055744 (-52))
  /\ exists out w_end rep rest submission,
       smart_fetch Scenario.paywalled 16 Scenario.client Scenario.premium None None
         Scenario.fresh = (out, w_end)
       /\ history w_end
          = ({| sent := first_get Scenario.client Scenario.premium None None;
                sent_at := 0; reply := Answered Scenario.paywall_402 |}
             :: {| sent := submission; sent_at := 0 + (1 # 10); reply := rep |}
             :: rest)%list
       /\ json_body submission
          = Some (PDict [("providerAddress", PStr "0xCreator");
                         ("amount", PStr "1.5");
                         ("idempotencyKey", PStr (Scenario.uuids 0))]).
Proof.
  assert (Hread : PyFloat.of_string "1.50"
                  = Some (S754_finite false 6755399441055744 (-52)))
    by (vm_compute; reflexivity).
  split; [exact Hread |].
  destruct (paywall_amount_on_the_wire Scenario.paywalled 16 Scenario.client
              Scenario.premium None None Scenario.fresh (1 # 10)%Q
              Scenario.paywall_402 "1.50" "0xCreator"
              (S754_finite false 6755399441055744 (-52))
              eq_refl eq_refl eq_refl eq_refl Hread)
    as (out & w_end & rep & rest & submission & Hrun & Hh & _ & _ & _ & Hbody).
  exists out, w_end, rep, rest, submission.
  split; [exact Hrun |]. split; [exact Hh |].
  rewrite Hbody. vm_compute. reflexivity.
Defined.

(** C7 as stated fails on the challenge of the test suite: the challenge
    amount is the text 1.50 and the amount submitted is the text 1.5. *)
Lemma paywall_amount_reformatted :
  let run := smart_fetch Scenario.paywalled 16 Scenario.client Scenario.premium
               None None Scenario.fresh in
  PyStr.search_attr "amount" (challenge_of Scenario.paywall_402) = Some "1.50"
  /\ option_map (fun e => (reply e, url (sent e)))
       (nth_error (history (snd run)) 0)
     = Some (Answered Scenario.paywall_402, Scenario.premium)
  /\ option_map (fun e => (url (sent e), json_body (sent e)))
       (nth_error (history (snd run)) 1)
     = Some ("https://sandbox.modexia.software/api/v1/agent/pay",
             Some (PDict [("providerAddress", PStr "0xCreator");
                          ("amount", PStr "1.5");
                          ("idempotencyKey", PStr (Scenario.uuids 0))])).
Proof.
  vm_compute. repeat split.
Qed.

Lemma truthy_with_key d k v : Py.lookup d k = Some v -> Py.truthy (PDict d) = true.
Proof.
  destruct d; [discriminate | reflexivity].
Qed.

(** C2.  When the first fetch of [smart_fetch] is answered 402 with a
    challenge that has both quoted attributes, and the payment made for it
    returns a receipt whose [txId] is the string [t], then the fetch is
    repeated once, with the caller's headers plus [Authorization] set to
    [L402 t] (the scheme is the fixed token L402) and [X-Payment-Proof]
    set to [t]; whatever ends that second fetch ends the call, so a second
    response is returned as it is whatever its status; between the two
    fetches only the payment service is contacted.  And no call of
    [smart_fetch] whatever fetches the resource more than twice. *)
Theorem paywall_round_trip
        env fuel self target prms hdrs w took r a d x receipt w2 t :
  network env w (first_get self target prms hdrs) = (took, Answered r) ->
  status_code r = 402 ->
  PyStr.search_attr "amount" (challenge_of r) = Some a ->
  PyStr.search_attr "destination" (challenge_of r) = Some d ->
  PyFloat.of_string a = Some x ->
  transfer env fuel self d (PFloat x) None true
    (record w (first_get self target prms hdrs) took (Answered r))
  = (Return (PDict receipt), w2) ->
  Py.lookup receipt "txId" = Some (PStr t) ->
  let retry := paid_get self target prms hdrs (PStr t) in
  Py.lookup (req_headers retry) "Authorization" = Some (PStr ("L402 " ++ t))
  /\ Py.lookup (req_headers retry) "X-Payment-Proof" = Some (PStr t)
  /\ (exists took2 rep2 payment,
        network env w2 retry = (took2, rep2)
        /\ smart_fetch env fuel self target prms hdrs w
           = (match rep2 with
              | Answered r2 => Return r2
              | Fault msg => Raise (RequestException msg)
              end, record w2 retry took2 rep2)
        /\ history (record w2 retry took2 rep2)
           = (history w
              ++ {| sent := first_get self target prms hdrs; sent_at := clock w;
                    reply := Answered r |}
              :: payment
              ++ [{| sent := retry; sent_at := clock w2; reply := rep2 |}])%list
        /\ Forall (fun e => is_plain e = false) payment)
  /\ (forall fuel' prms' hdrs' w' out w_end,
        smart_fetch env fuel' self target prms' hdrs' w' = (out, w_end) ->
        exists exchanges,
          history w_end = (history w' ++ exchanges)%list
          /\ (length (filter is_plain exchanges) <= 2)%nat).
Proof.
  intros Hnet H402 Ha Hd Hx Hpay Htx retry.
  destruct (paid_headers_carry (given_headers hdrs) (PStr t)) as [Hauth Hproof].
  split; [exact Hauth |]. split; [exact Hproof |]. split.
  - destruct (network env w2 retry) as [took2 rep2] eqn:Hnet2.
    pose proof (transfer_history _ _ _ _ _ _ _ _ _ _ Hpay)
      as (ikey & rep & rest & _ & Hh & Hall).
    exists took2, rep2, ({| sent := pay_call self d (PFloat x) ikey;
                            sent_at := clock (record w (first_get self target prms hdrs)
                                                took (Answered r));
                            reply := rep |} :: rest).
    split; [reflexivity |]. split; [| split].
    + rewrite (smart_fetch_negotiated env fuel self target prms hdrs w took r a d x
                 Hnet H402 Ha Hd Hx).
      rewrite Hpay. rewrite (truthy_with_key _ _ _ Htx).
      rewrite (lookup_dict_get _ _ _ PNone Htx).
      unfold http. fold retry. rewrite Hnet2. destruct rep2; reflexivity.
    + cbn [record history]. rewrite Hh. cbn [record history].
      rewrite <- !app_assoc. reflexivity.
    + constructor; [reflexivity | exact Hall].
  - intros fuel' prms' hdrs' w' out w_end Hrun.
    apply (smart_fetch_fetches env fuel' self target prms' hdrs' w' out w_end Hrun).
Qed.

(** The theorem on the paywall of the test suite: the secret comes back,
    fetched with the proof of payment [txn_402]. *)
Lemma paywall_round_trip_witness :
  let run := smart_fetch Scenario.paywalled 16 Scenario.client Scenario.premium
               None None Scenario.fresh in
  fst run = Return Scenario.secret_200
  /\ option_map (fun e => req_headers (sent e)) (nth_error (history (snd run)) 3)
     = Some [("Authorization", PStr "L402 txn_402");
             ("X-Payment-Proof", PStr "txn_402")]
  /\ length (history (snd run)) = 4%nat.
Proof.
  intros run.
  assert (Hread : PyFloat.of_string "1.50"
                  = Some (S754_finite false 6755399441055744 (-52)))
    by (vm_compute; reflexivity).
  set (w1 := record Scenario.fresh
               (first_get Scenario.client Scenario.premium None None)
               (1 # 10)%Q (Answered Scenario.paywall_402)).
  set (paid := transfer Scenario.paywalled 16 Scenario.client "0xCreator"
                 (PFloat (S754_finite false 6755399441055744 (-52))) None true w1).
  assert (Hpaid : paid = (Return (PDict [("success", PBool true);
                                         ("txId", PStr "txn_402");
                                         ("status", PStr "COMPLETE");
                                         ("txHash", PStr "0xhash")]), snd paid))
    by (vm_compute; reflexivity).
  destruct (paywall_round_trip Scenario.paywalled 16 Scenario.client
              Scenario.premium None None Scenario.fresh (1 # 10)%Q
              Scenario.paywall_402 "1.50" "0xCreator"
              (S754_finite false 6755399441055744 (-52))
              _ (snd paid) "txn_402"
              eq_refl eq_refl eq_refl eq_refl Hread Hpaid eq_refl)
    as (_ & _ & (took2 & rep2 & payment & Hnet2 & Hrun & _) & _).
  fold run in Hrun. rewrite Hrun.
  vm_compute in Hnet2. inversion Hnet2. subst took2 rep2.
  cbn [fst snd]. split; [reflexivity |]. split; vm_compute; reflexivity.
Defined.

(* ===================================================================== *)
(** * More on the transport *)
(* ===================================================================== *)

Lemma _request_run env self meth endpoint kw w :
  snd (_request env self meth endpoint kw w)
  = record w (session_call self meth (base_url self ++ endpoint) kw)
      (fst (network env w (session_call self meth (base_url self ++ endpoint) kw)))
      (snd (network env w (session_call self meth (base_url self ++ endpoint) kw))).
Proof.
  destruct (network env w _) as [took rep] eqn:Hnet.
  apply (_request_world env self meth endpoint kw w took rep Hnet).
Qed.

Lemma in_forcelist (s : Z) :
  in_ints s status_forcelist = true <-> In s [500; 502; 503; 504].
Proof.
  unfold in_ints, status_forcelist. cbn [existsb In].
  rewrite !orb_true_iff, !Z.eqb_eq.
  intuition (try discriminate; auto).
Qed.

Lemma in_allowed_methods (m : string) :
  in_strs m allowed_methods = true
  <-> In m ["HEAD"; "GET"; "PUT"; "DELETE"; "OPTIONS"; "TRACE"].
Proof.
  unfold in_strs, allowed_methods. cbn [existsb In].
  rewrite !orb_true_iff, !String.eqb_eq.
  intuition (try discriminate; auto).
Qed.

(** X1.  The retry policy of the session decides what a 500, 502, 503 or
    504 ends in.  Answered to a method the policy sends again (GET, HEAD,
    PUT, DELETE, OPTIONS, TRACE in any letter case; the identity query and
    the status polls are GETs) such a response is not handed back: the
    session raises once its retries are used up, and [_request] raises
    [ModexiaNetworkError] with the text of that error after [Connection
    failed: ], not [ModexiaPaymentError].  Answered to a POST (the
    submission of a payment) the same status raises [ModexiaPaymentError].
    And whatever ends the call, no [RequestException] of the transport
    comes out of [_request]. *)
Theorem retried_status_is_network_error env self meth endpoint kw w :
  let rq := session_call self meth (base_url self ++ endpoint) kw in
  let out := fst (_request env self meth endpoint kw w) in
  (forall msg, out <> Raise (RequestException msg))
  /\ (forall r,
        snd (network env w rq) = Answered r ->
        In (status_code r) [500; 502; 503; 504] ->
        (In (PyStr.upper meth) ["HEAD"; "GET"; "PUT"; "DELETE"; "OPTIONS"; "TRACE"] ->
         out = Raise (ModexiaNetworkError
                        (PStr ("Connection failed: " ++ retry_error env rq r))))
        /\ (PyStr.upper meth = "POST" ->
            out = Raise (ModexiaPaymentError
                           (payment_error_arg (base_url self ++ endpoint) r)))).
Proof.
  intros rq out. subst out.
  destruct (network env w rq) as [took rep] eqn:Hnet. subst rq. cbn [snd].
  split.
  - intros msg0. destruct rep as [r | msg].
    + destruct (is_retry meth (status_code r)) eqn:Hr.
      * rewrite (_request_retried _ _ _ _ _ _ _ _ Hnet Hr). discriminate.
      * rewrite (_request_answered _ _ _ _ _ _ _ _ Hnet Hr). cbn [fst].
        destruct (fst (classify (base_url self ++ endpoint) r w)) as [v | e |];
          try discriminate.
        destruct e; discriminate.
    + rewrite (_request_fault _ _ _ _ _ _ _ _ Hnet). discriminate.
  - intros r Hrep Hs. subst rep. split.
    + intros Hm.
      rewrite (_request_retried _ _ _ _ _ _ _ _ Hnet); [reflexivity |].
      unfold is_retry. apply andb_true_iff. split.
      * apply in_allowed_methods. exact Hm.
      * apply in_forcelist. exact Hs.
    + intros Hm.
      assert (Hr : is_retry meth (status_code r) = false).
      { unfold is_retry. rewrite Hm. reflexivity. }
      rewrite (_request_answered _ _ _ _ _ _ _ _ Hnet Hr). cbn [fst].
      rewrite classify_payment; [reflexivity | |];
        cbn [In] in Hs; destruct Hs as [<- | [<- | [<- | [<- | []]]]]; reflexivity.
Qed.

(** The theorem on the 502 page of the test suite, answered to the
    identity query and to the submission of a payment. *)
Lemma retried_status_is_network_error_witness :
  let r := Scenario.html_response 502 "<html><body>502 Bad Gateway</body></html>"
             (InvalidJSON_RequestException Scenario.decode_message) in
  let env := Scenario.always (Answered r) in
  fst (_request env Scenario.client "GET" "/api/v1/user/me" None Scenario.fresh)
  = Raise (ModexiaNetworkError
             (PStr ("Connection failed: "
                    ++ retry_error env (me_call Scenario.client) r)))
  /\ fst (_request env Scenario.client "POST" "/api/v1/agent/pay" None Scenario.fresh)
     = Raise (ModexiaPaymentError
                (PStr ("HTTP 502 at https://sandbox.modexia.software/api/v1/agent/pay: "
                       ++ "<html><body>502 Bad Gateway</body></html>"))).
Proof.
  intros r env. split.
  - refine (proj1 (proj2 (retried_status_is_network_error env Scenario.client "GET"
                            "/api/v1/user/me" None Scenario.fresh) r eq_refl _) _);
      cbn; tauto.
  - refine (proj2 (proj2 (retried_status_is_network_error env Scenario.client "POST"
                            "/api/v1/agent/pay" None Scenario.fresh) r eq_refl _) eq_refl);
      cbn; tauto.
Defined.

(** X2.  For a response whose status [_request] accepts (below 400 or 402,
    and neither 401 nor 403): an empty body gives the empty dict without
    any decoding; a body that decodes gives the decoded value; and a
    non-empty body that does not decode makes [_request] raise, as a
    [ModexiaNetworkError] with the text [Connection failed: ] when the
    decoding error is a [RequestException], as the bare [ValueError]
    otherwise. *)
Theorem accepted_body env self meth endpoint kw w took r :
  network env w (session_call self meth (base_url self ++ endpoint) kw)
  = (took, Answered r) ->
  error_status (status_code r) = false ->
  let out := fst (_request env self meth endpoint kw w) in
  (text r = "" -> out = Return (PDict []))
  /\ (text r <> "" -> forall v, json r = inr v -> out = Return v)
  /\ (text r <> "" -> forall msg,
      json r = inl (InvalidJSON_RequestException msg) ->
      out = Raise (ModexiaNetworkError (PStr ("Connection failed: " ++ msg))))
  /\ (text r <> "" -> json r = inl InvalidJSON_ValueError -> out = Raise ValueError).
Proof.
  intros Hnet Hs out. subst out.
  rewrite (_request_answered _ _ _ _ _ _ _ _ Hnet (accepted_not_retried _ _ Hs)).
  cbn [fst].
  unfold error_status in Hs. apply orb_false_iff in Hs. destruct Hs as [Ha Hp].
  unfold classify. rewrite Ha, Hp.
  split; [| split; [| split]].
  - intros Ht. rewrite Ht. reflexivity.
  - intros Ht v Hj. apply String.eqb_neq in Ht. rewrite Ht.
    unfold response_json. rewrite Hj. reflexivity.
  - intros Ht msg Hj. apply String.eqb_neq in Ht. rewrite Ht.
    unfold response_json. rewrite Hj. reflexivity.
  - intros Ht Hj. apply String.eqb_neq in Ht. rewrite Ht.
    unfold response_json. rewrite Hj. reflexivity.
Qed.

(** The theorem on a 200 response that carries an HTML page. *)
Lemma accepted_body_witness :
  let r := Scenario.html_response 200 "<html>maintenance</html>"
             (InvalidJSON_RequestException Scenario.decode_message) in
  error_status (status_code r) = false
  /\ fst (_request (Scenario.always (Answered r)) Scenario.client "GET"
            "/api/v1/user/me" None Scenario.fresh)
     = Raise (ModexiaNetworkError
                (PStr "Connection failed: Expecting value: line 1 column 1 (char 0)")).
Proof.
  intros r. split; [reflexivity |].
  refine (proj1 (proj2 (proj2 (accepted_body (Scenario.always (Answered r))
            Scenario.client "GET" "/api/v1/user/me" None Scenario.fresh (1 # 10)%Q r
            eq_refl eq_refl))) _ Scenario.decode_message eq_refl).
  discriminate.
Defined.

(* ===================================================================== *)
(** * The constructor *)
(* ===================================================================== *)

(** X3.  The base URL of a client: a non-empty [base_url] argument wins;
    failing that (argument absent or empty), a non-empty
    [MODEXIA_BASE_URL]; failing both, the key prefix decides between the
    live URL ([mx_live_]), the sandbox URL ([mx_test_]) and the local URL
    for any other key. *)
Theorem base_url_precedence key override environ :
  let chosen := resolve_base_url key override environ in
  let absent o := o = None \/ o = Some "" in
  (forall u, override = Some u -> u <> "" -> chosen = u)
  /\ (absent override -> forall u, environ = Some u -> u <> "" -> chosen = u)
  /\ (absent override -> absent environ ->
      (PyStr.startswith "mx_live_" key = true ->
       chosen = "https://api.modexia.software")
      /\ (PyStr.startswith "mx_live_" key = false ->
          PyStr.startswith "mx_test_" key = true ->
          chosen = "https://sandbox.modexia.software")
      /\ (PyStr.startswith "mx_live_" key = false ->
          PyStr.startswith "mx_test_" key = false ->
          chosen = "http://localhost:3000")).
Proof.
  intros chosen absent. subst chosen. unfold resolve_base_url.
  split; [| split].
  - intros u -> Hu. apply String.eqb_neq in Hu. rewrite Hu. reflexivity.
  - intros [-> | ->] u -> Hu; apply String.eqb_neq in Hu; cbn; rewrite Hu; reflexivity.
  - intros [-> | ->] [-> | ->]; cbn;
      (split; [intros -> | split; intros -> ]; try intros ->; reflexivity).
Qed.

Lemma _validate_session_world env self w took rep :
  network env w (me_call self) = (took, rep) ->
  snd (_validate_session env self w) = record w (me_call self) took rep.
Proof.
  intros Hnet. unfold _validate_session, bind.
  pose proof (_request_world env self "GET" "/api/v1/user/me" None w took rep Hnet) as Hw.
  destruct (_request env self "GET" "/api/v1/user/me" None w) as [o w1].
  cbn [snd] in Hw. subst w1.
  destruct o as [v | e |]; try reflexivity.
  destruct v; try reflexivity.
  cbn [py_get ret].
  destruct (Py.dict_get entries "data" (PDict entries)); reflexivity.
Qed.

Lemma _validate_session_raises env self w e :
  fst (_request env self "GET" "/api/v1/user/me" None w) = Raise e ->
  fst (_validate_session env self w) = Raise e.
Proof.
  intros H. unfold _validate_session, bind.
  destruct (_request env self "GET" "/api/v1/user/me" None w) as [o w1].
  cbn [fst] in H. subst o. reflexivity.
Qed.

(** X4.  The constructor touches the network only when [validate] is
    true.  Without validation it returns the client with an empty
    identity and leaves the world as it was.  With validation it performs
    exactly one exchange, the GET of [/api/v1/user/me] at the resolved
    base URL: a connection fault makes construction fail with
    [ModexiaNetworkError], a 401 or 403 with [ModexiaAuthError], and an
    accepted JSON object becomes the identity, taken from under [data]
    when the object has that key. *)
Theorem constructor_handshake env environ key tmo override w :
  let self := {| api_key := key; timeout := tmo;
                 base_url := resolve_base_url key override environ |} in
  let checked := __init__ env environ key tmo override true w in
  __init__ env environ key tmo override false w = (Return (self, PDict []), w)
  /\ history (snd checked)
     = (history w ++ [{| sent := me_call self; sent_at := clock w;
                         reply := snd (network env w (me_call self)) |}])%list
  /\ match snd (network env w (me_call self)) with
     | Fault msg =>
         fst checked
         = Raise (ModexiaNetworkError (PStr ("Connection failed: " ++ msg)))
     | Answered r =>
         (status_code r = 401 \/ status_code r = 403 ->
          fst checked = Raise (ModexiaAuthError (PStr ("Unauthorized: " ++ text r))))
         /\ (forall payload identity,
               error_status (status_code r) = false ->
               body_of r = Some (PDict payload) ->
               Py.dict_get payload "data" (PDict payload) = PDict identity ->
               fst checked = Return (self, PDict identity))
     end.
Proof.
  intros self checked. split; [reflexivity |].
  subst checked. unfold __init__. fold self. unfold bind.
  destruct (network env w (me_call self)) as [took rep] eqn:Hnet. cbn [snd].
  pose proof (_validate_session_world env self w took rep Hnet) as Hw.
  split.
  - destruct (_validate_session env self w) as [o w1]. cbn [snd] in Hw. subst w1.
    destruct o; reflexivity.
  - destruct rep as [r | msg].
    + split.
      * intros Hs. apply in_auth_codes in Hs.
        assert (Hr : fst (_validate_session env self w)
                     = Raise (ModexiaAuthError (PStr ("Unauthorized: " ++ text r)))).
        { apply _validate_session_raises.
          rewrite (_request_answered env self "GET" "/api/v1/user/me" None w took r Hnet
                     (auth_not_retried _ _ Hs)).
          rewrite (classify_auth _ _ _ Hs). reflexivity. }
        destruct (_validate_session env self w) as [o w1]. cbn [fst] in Hr.
        subst o. reflexivity.
      * intros payload identity Hs Hb Hid.
        rewrite (_validate_session_unwraps env self w took r payload identity
                   Hnet Hs Hb Hid).
        reflexivity.
    + assert (Hr : fst (_validate_session env self w)
                   = Raise (ModexiaNetworkError (PStr ("Connection failed: " ++ msg)))).
      { apply _validate_session_raises.
        rewrite (_request_fault env self "GET" "/api/v1/user/me" None w took msg Hnet).
        reflexivity. }
      destruct (_validate_session env self w) as [o w1]. cbn [fst] in Hr.
      subst o. reflexivity.
Qed.

(* ===================================================================== *)
(** * More on the balance query *)
(* ===================================================================== *)

Lemma retrieve_balance_world env self w :
  snd (retrieve_balance env self w) = snd (_validate_session env self w).
Proof.
  unfold retrieve_balance, bind.
  destruct (_validate_session env self w) as [[data | e |] w1]; try reflexivity.
  destruct data; reflexivity.
Qed.

(** X5.  [retrieve_balance] keeps no cache: every call, whatever its
    outcome, performs exactly one exchange, the GET of [/api/v1/user/me],
    so two calls in a row perform two.  An exception raised by that
    request is raised by [retrieve_balance] unchanged, and [get_balance]
    behaves the same. *)
Theorem balance_query_is_fresh env self w :
  let run := retrieve_balance env self w in
  history (snd run)
  = (history w ++ [{| sent := me_call self; sent_at := clock w;
                      reply := snd (network env w (me_call self)) |}])%list
  /\ length (history (snd (retrieve_balance env self (snd run))))
     = (length (history w) + 2)%nat
  /\ (forall e, fst (_request env self "GET" "/api/v1/user/me" None w) = Raise e ->
                fst run = Raise e)
  /\ get_balance env self w = run.
Proof.
  intros run. subst run.
  assert (Hone : forall w0,
             history (snd (retrieve_balance env self w0))
             = (history w0 ++ [{| sent := me_call self; sent_at := clock w0;
                                  reply := snd (network env w0 (me_call self)) |}])%list).
  { intros w0. rewrite retrieve_balance_world.
    destruct (network env w0 (me_call self)) as [took rep] eqn:Hnet.
    rewrite (_validate_session_world env self w0 took rep Hnet). reflexivity. }
  split; [apply Hone |]. split; [| split].
  - rewrite Hone, Hone. rewrite !length_app. cbn [length]. lia.
  - intros e He. unfold retrieve_balance, bind.
    pose proof (_validate_session_raises env self w e He) as Hv.
    destruct (_validate_session env self w) as [o w1]. cbn [fst] in Hv.
    subst o. reflexivity.
  - reflexivity.
Qed.

(** X6.  [retrieve_balance] does not answer with a default for a payload
    that is not shaped like an identity: an accepted body that is not a
    JSON object, or an object whose [data] entry is present but is not an
    object (a null, a string, a list), makes it raise [AttributeError]. *)
Theorem balance_query_misshapen env self w took r v :
  network env w (me_call self) = (took, Answered r) ->
  error_status (status_code r) = false ->
  body_of r = Some v ->
  let out := fst (retrieve_balance env self w) in
  (is_dict v = false -> out = Raise AttributeError)
  /\ (forall payload inner,
        v = PDict payload ->
        Py.lookup payload "data" = Some inner ->
        is_dict inner = false ->
        out = Raise AttributeError).
Proof.
  intros Hnet Hs Hb out. subst out.
  unfold retrieve_balance, _validate_session, bind.
  rewrite (_request_answered env self "GET" "/api/v1/user/me" None w took r Hnet
             (accepted_not_retried _ _ Hs)).
  rewrite (classify_accepts _ _ _ _ Hs Hb). cbn [fst as_network_error].
  split.
  - intros Hv. destruct v; try reflexivity. discriminate.
  - intros payload inner -> Hl Hi. cbn [py_get ret].
    unfold Py.dict_get. rewrite Hl.
    destruct inner; try reflexivity. discriminate.
Qed.

(** The theorem on an identity endpoint that answers with a null [data]. *)
Lemma balance_query_misshapen_witness :
  let r := {| status_code := 200;
              headers := [("Content-Type", "application/json")];
              text := "{" ++ Scenario.quoted "data" ++ ": null}";
              json := inr (PDict [("data", PNone)]) |} in
  fst (retrieve_balance (Scenario.always (Answered r)) Scenario.client Scenario.fresh)
  = Raise AttributeError.
Proof.
  intros r.
  refine (proj2 (balance_query_misshapen (Scenario.always (Answered r))
            Scenario.client Scenario.fresh (1 # 10)%Q r _ eq_refl eq_refl eq_refl)
            [("data", PNone)] PNone eq_refl eq_refl eq_refl).
Defined.

(* ===================================================================== *)
(** * More on payments *)
(* ===================================================================== *)

Lemma choose_key_spec env key w :
  exists w0,
    choose_key env key w = (Return (key_sent env key w), w0)
    /\ clock w0 = clock w
    /\ history w0 = history w
    /\ drawn w0 = if key_generated key then S (drawn w) else drawn w.
Proof.
  unfold choose_key, key_sent, key_generated, uuid4_str, ret.
  destruct key as [k |]; [destruct (String.eqb k "") |];
    eexists; repeat split.
Qed.

Lemma poll_loop_drawn env self tx_id start : forall fuel w out w_end,
  poll_loop env fuel self tx_id start w = (out, w_end) ->
  drawn w_end = drawn w.
Proof.
  induction fuel as [| fuel IH]; intros w out w_end Hrun.
  - inversion Hrun. reflexivity.
  - rewrite poll_loop_step in Hrun.
    destruct (Qltb _ _); [| inversion Hrun; reflexivity].
    destruct (network env w (status_call self tx_id)) as [took rep] eqn:Hnet.
    pose proof (poll_once_world env self tx_id w took rep Hnet) as Hw.
    destruct (poll_once env self tx_id w) as [o w1]. cbn [snd] in Hw. subst w1.
    destruct o as [[v |] | e |]; try (inversion Hrun; reflexivity).
    apply IH in Hrun. exact Hrun.
Qed.

(** X7.  With [wait=False], [transfer] returns the decoded body of the
    accepted submission response as it is, whatever it is (its [success]
    field is not even looked at), and the POST of the submission is the
    only request of the call. *)
Theorem transfer_without_wait
        env fuel self recipient amount key w ikey w0 took r v :
  choose_key env key w = (Return ikey, w0) ->
  network env w0 (pay_call self recipient amount ikey) = (took, Answered r) ->
  error_status (status_code r) = false ->
  body_of r = Some v ->
  exists w_end,
    transfer env fuel self recipient amount key false w = (Return v, w_end)
    /\ history w_end
       = (history w ++ [{| sent := pay_call self recipient amount ikey;
                           sent_at := clock w;
                           reply := Answered r |}])%list.
Proof.
  intros Hkey Hnet Hs Hb.
  unfold transfer. unfold bind at 1. rewrite Hkey. unfold bind at 1.
  rewrite (_request_answered env self "POST" "/api/v1/agent/pay" _ w0 took r Hnet
               (post_not_retried _)).
  rewrite (classify_accepts _ _ _ _ Hs Hb). cbn [fst as_network_error].
  eexists. split; [reflexivity |].
  destruct (choose_key_history env key w ikey w0 Hkey) as [Hh Hc].
  cbn [record history]. rewrite Hh, Hc. reflexivity.
Qed.

(** The theorem on a submission that the service accepts. *)
Lemma transfer_without_wait_witness :
  exists w_end,
    transfer Scenario.settles_on_second_poll 16 Scenario.client "0xRecipient"
      (Scenario.float_of "10.0") None false Scenario.fresh
    = (Return (PDict [("success", PBool true); ("txId", PStr "txn_123")]), w_end)
    /\ length (history w_end) = 1%nat.
Proof.
  destruct (transfer_without_wait Scenario.settles_on_second_poll 16 Scenario.client
              "0xRecipient" (Scenario.float_of "10.0") None Scenario.fresh
              (Scenario.uuids 0) {| clock := 0; history := []; drawn := 1 |}
              (1 # 10)%Q Scenario.submission_accepted
              (PDict [("success", PBool true); ("txId", PStr "txn_123")])
              eq_refl eq_refl eq_refl eq_refl)
    as [w_end [Hrun Hh]].
  exists w_end. split; [exact Hrun |]. rewrite Hh. reflexivity.
Defined.

(** X8.  The idempotency key of a payment: a non-empty key given by the
    caller is sent as it is and no UUID is drawn; without a key, or with
    the empty string, the key sent is the next UUID of the generator,
    which is thereby used up, so that a later call draws another one.  In
    every run the first request is the POST whose body carries that key
    under [idempotencyKey]. *)
Theorem transfer_idempotency_key
        env fuel self recipient amount key wait w out w_end :
  transfer env fuel self recipient amount key wait w = (out, w_end) ->
  let sent_key :=
    match key with
    | Some k => if String.eqb k "" then uuid4 env (drawn w) else k
    | None => uuid4 env (drawn w)
    end in
  let generated :=
    match key with
    | Some k => String.eqb k ""
    | None => true
    end in
  (exists rep rest,
     history w_end
     = (history w ++ {| sent := pay_call self recipient amount sent_key;
                        sent_at := clock w; reply := rep |} :: rest)%list)
  /\ json_body (pay_call self recipient amount sent_key)
     = Some (PDict [("providerAddress", PStr recipient);
                    ("amount", PStr (Py.str amount));
                    ("idempotencyKey", PStr sent_key)])
  /\ drawn w_end = if generated then S (drawn w) else drawn w.
Proof.
  intros Hrun sent_key generated.
  fold (key_sent env key w) in sent_key. fold (key_generated key) in generated.
  subst sent_key generated.
  split; [| split; [reflexivity |]].
  - destruct (transfer_history _ _ _ _ _ _ _ _ _ _ Hrun)
      as (ikey & rep & rest & Hkey & Hh & _).
    destruct (choose_key_spec env key w) as (w0 & Hk & _).
    rewrite Hk in Hkey. cbn [fst] in Hkey. inversion Hkey. subst ikey.
    exists rep, rest. exact Hh.
  - destruct (choose_key_spec env key w) as (w0 & Hk & _ & _ & Hd).
    unfold transfer in Hrun. unfold bind at 1 in Hrun. rewrite Hk in Hrun.
    unfold bind at 1 in Hrun.
    pose proof (_request_run env self "POST" "/api/v1/agent/pay"
                  (Some (pay_body recipient amount (key_sent env key w))) w0) as Hw.
    destruct (_request env self "POST" "/api/v1/agent/pay" _ w0) as [o w1].
    cbn [snd] in Hw.
    assert (Hd1 : drawn w1 = if key_generated key then S (drawn w) else drawn w).
    { rewrite Hw. cbn [record drawn]. exact Hd. }
    clear Hw.
    destruct o as [data | e |]; try (inversion Hrun; subst; exact Hd1).
    destruct wait; [| inversion Hrun; subst; exact Hd1].
    destruct data; try (inversion Hrun; subst; exact Hd1).
    cbn [py_get] in Hrun. unfold bind at 1, ret at 1 in Hrun.
    destruct (Py.truthy _); [| inversion Hrun; subst; exact Hd1].
    unfold bind at 1, ret at 1 in Hrun.
    unfold _poll_status, bind, time_time in Hrun.
    apply poll_loop_drawn in Hrun. rewrite Hrun. exact Hd1.
Qed.

(** The theorem on a payment made under the caller's own key. *)
Lemma transfer_idempotency_key_witness :
  let run := transfer Scenario.settles_on_second_poll 16 Scenario.client
               "0xRecipient" (Scenario.float_of "10.0") (Some "order-42") true
               Scenario.fresh in
  (exists rep rest,
     history (snd run)
     = ({| sent := pay_call Scenario.client "0xRecipient"
                     (Scenario.float_of "10.0") "order-42";
           sent_at := 0; reply := rep |} :: rest)%list)
  /\ drawn (snd run) = 0%nat.
Proof.
  intros run.
  destruct (transfer_idempotency_key Scenario.settles_on_second_poll 16
              Scenario.client "0xRecipient" (Scenario.float_of "10.0")
              (Some "order-42") true Scenario.fresh (fst run) (snd run)
              (surjective_pairing run)) as [Hfirst [_ Hdrawn]].
  split; [exact Hfirst | exact Hdrawn].
Defined.

(** X9.  A submission that fails ends the payment there: when the POST
    ends in a connection fault, a 401 or 403, or another status from 400
    up other than 402, [transfer] raises the error of the transport
    ([ModexiaNetworkError], [ModexiaAuthError], [ModexiaPaymentError]) and
    sends nothing more, with or without [wait]. *)
Theorem transfer_submission_fails
        env fuel self recipient amount key wait w ikey w0 took rep :
  choose_key env key w = (Return ikey, w0) ->
  network env w0 (pay_call self recipient amount ikey) = (took, rep) ->
  let run := transfer env fuel self recipient amount key wait w in
  let only_post :=
    history (snd run)
    = (history w ++ [{| sent := pay_call self recipient amount ikey;
                        sent_at := clock w; reply := rep |}])%list in
  match rep with
  | Fault msg =>
      fst run = Raise (ModexiaNetworkError (PStr ("Connection failed: " ++ msg)))
      /\ only_post
  | Answered r =>
      (status_code r = 401 \/ status_code r = 403 ->
       fst run = Raise (ModexiaAuthError (PStr ("Unauthorized: " ++ text r)))
       /\ only_post)
      /\ (400 <= status_code r ->
          status_code r <> 401 -> status_code r <> 403 -> status_code r <> 402 ->
          fst run
          = Raise (ModexiaPaymentError
                     (payment_error_arg (base_url self ++ "/api/v1/agent/pay") r))
          /\ only_post)
  end.
Proof.
  intros Hkey Hnet run only_post. subst run only_post.
  destruct (choose_key_history env key w ikey w0 Hkey) as [Hh Hc].
  assert (Hraise : forall e,
             _request env self "POST" "/api/v1/agent/pay"
               (Some (pay_body recipient amount ikey)) w0
             = (Raise e, record w0 (pay_call self recipient amount ikey) took rep) ->
             fst (transfer env fuel self recipient amount key wait w) = Raise e
             /\ history (snd (transfer env fuel self recipient amount key wait w))
                = (history w ++ [{| sent := pay_call self recipient amount ikey;
                                    sent_at := clock w; reply := rep |}])%list).
  { intros e He.
    assert (Hrun : transfer env fuel self recipient amount key wait w
                   = (Raise e, record w0 (pay_call self recipient amount ikey) took rep)).
    { unfold transfer. unfold bind at 1. rewrite Hkey.
      unfold bind at 1. rewrite He. reflexivity. }
    rewrite Hrun. cbn [fst snd record history].
    rewrite Hh, Hc. split; reflexivity. }
  destruct rep as [r | msg].
  - split.
    + intros Hs. apply in_auth_codes in Hs. apply Hraise.
      rewrite (_request_answered env self "POST" "/api/v1/agent/pay" _ w0 took r Hnet
               (post_not_retried _)).
      rewrite (classify_auth _ _ _ Hs). reflexivity.
    + intros H4 H1 H3 H2. apply Hraise.
      rewrite (_request_answered env self "POST" "/api/v1/agent/pay" _ w0 took r Hnet
               (post_not_retried _)).
      rewrite classify_payment.
      * reflexivity.
      * apply not_in_auth_codes. split; assumption.
      * apply failing_code; assumption.
  - apply Hraise.
    apply (_request_fault env self "POST" "/api/v1/agent/pay" _ w0 took msg Hnet).
Qed.

(** The theorem on a service that answers the submission with a 400 and
    a structured error. *)
Lemma transfer_submission_fails_witness :
  let r := Scenario.json_response 400 [("error", "amount must be positive")] in
  let run := transfer (Scenario.always (Answered r)) 16 Scenario.client
               "0xRecipient" (Scenario.float_of "-1") None true Scenario.fresh in
  fst run = Raise (ModexiaPaymentError (PStr "amount must be positive"))
  /\ length (history (snd run)) = 1%nat.
Proof.
  intros r run.
  destruct (proj2 (transfer_submission_fails (Scenario.always (Answered r)) 16
              Scenario.client "0xRecipient" (Scenario.float_of "-1") None true
              Scenario.fresh (Scenario.uuids 0)
              {| clock := 0; history := []; drawn := 1 |} (1 # 10)%Q (Answered r)
              eq_refl eq_refl))
    as [Hout Hh]; try (vm_compute; congruence).
  fold run in Hout, Hh. split; [exact Hout |]. rewrite Hh. reflexivity.
Defined.

(** X10.  With [wait=True] and an accepted submission whose [success] is
    truthy, [transfer] is the poller run on the [txId] of the submission
    response: its result is the poller's, and every request after the
    POST is a GET of [/api/v1/agent/transaction/] followed by that id.
    When the response has no [txId] the id is [None], and the URL polled
    ends in [/transaction/None]. *)
Theorem transfer_polls_submitted_id
        env fuel self recipient amount key w ikey w0 took r data :
  choose_key env key w = (Return ikey, w0) ->
  network env w0 (pay_call self recipient amount ikey) = (took, Answered r) ->
  error_status (status_code r) = false ->
  body_of r = Some (PDict data) ->
  Py.truthy (Py.dict_get data "success" PNone) = true ->
  let tx_id := Py.dict_get data "txId" PNone in
  let w1 := record w0 (pay_call self recipient amount ikey) took (Answered r) in
  transfer env fuel self recipient amount key true w
  = _poll_status env fuel self tx_id w1
  /\ (exists polls,
        history (snd (transfer env fuel self recipient amount key true w))
        = (history w ++ {| sent := pay_call self recipient amount ikey;
                           sent_at := clock w; reply := Answered r |} :: polls)%list
        /\ Forall (fun x => via (sent x) = Session
                            /\ method (sent x) = "GET"
                            /\ url (sent x)
                               = base_url self ++ "/api/v1/agent/transaction/"
                                  ++ Py.str tx_id) polls)
  /\ (Py.lookup data "txId" = None ->
      status_endpoint tx_id = "/api/v1/agent/transaction/None").
Proof.
  intros Hkey Hnet Hs Hb Hok tx_id w1.
  assert (Hrun : transfer env fuel self recipient amount key true w
                 = _poll_status env fuel self tx_id w1).
  { rewrite (transfer_submits env fuel self recipient amount key true w ikey w0
               took r data Hkey Hnet Hs Hb).
    rewrite Hok. reflexivity. }
  split; [exact Hrun |]. split.
  - rewrite Hrun.
    destruct (_poll_status env fuel self tx_id w1) as [out w_end] eqn:Hp.
    unfold _poll_status, bind, time_time in Hp.
    apply poll_loop_history in Hp. destruct Hp as [polls [Hh Hall]].
    exists polls. split.
    + cbn [snd]. rewrite Hh. subst w1. cbn [record history].
      destruct (choose_key_history env key w ikey w0 Hkey) as [Hh0 Hc0].
      rewrite Hh0, Hc0, <- app_assoc. reflexivity.
    + apply Forall_impl with (2 := Hall). intros x Hx. rewrite Hx.
      repeat split.
  - intros Hl. subst tx_id. unfold Py.dict_get. rewrite Hl. reflexivity.
Qed.

(** The theorem on the payment of the transfer test. *)
Lemma transfer_polls_submitted_id_witness :
  let run := transfer Scenario.settles_on_second_poll 16 Scenario.client
               "0xRecipient" (Scenario.float_of "10.0") None true Scenario.fresh in
  map (fun x => url (sent x)) (history (snd run))
  = [ "https://sandbox.modexia.software/api/v1/agent/pay";
      "https://sandbox.modexia.software/api/v1/agent/transaction/txn_123";
      "https://sandbox.modexia.software/api/v1/agent/transaction/txn_123" ]
  /\ fst run = Return (completed (PStr "txn_123") (PStr "0xabc123")).
Proof.
  intros run.
  destruct (transfer_polls_submitted_id Scenario.settles_on_second_poll 16
              Scenario.client "0xRecipient" (Scenario.float_of "10.0") None
              Scenario.fresh (Scenario.uuids 0)
              {| clock := 0; history := []; drawn := 1 |} (1 # 10)%Q
              Scenario.submission_accepted
              [("success", PBool true); ("txId", PStr "txn_123")]
              eq_refl eq_refl eq_refl eq_refl eq_refl) as [Hrun _].
  fold run in Hrun. rewrite Hrun. vm_compute. split; reflexivity.
Defined.

(* ===================================================================== *)
(** * More on the poller *)
(* ===================================================================== *)

Lemma error_status_rejects target r w :
  error_status (status_code r) = true ->
  exists e, classify target r w = (Raise e, w).
Proof.
  unfold error_status. intros H.
  destruct (in_ints (status_code r) [401; 403]) eqn:Ha.
  - eexists. apply (classify_auth _ _ _ Ha).
  - cbn [orb] in H. eexists. apply (classify_payment _ _ _ Ha H).
Qed.

Section PollerPasses.
Variable env : Env.
Variable self : ModexiaClient.
Variable tx_id : pyval.

(** The three ways a pass of the loop body can end: it raises; it returns
    the success result, on an accepted object whose state reads COMPLETE
    or COMPLETED; or it reaches the sleep, on an accepted object whose
    state is a string that reads neither of these nor FAILED. *)
Lemma poll_once_cases w took rep :
  network env w (status_call self tx_id) = (took, rep) ->
  let o := fst (poll_once env self tx_id w) in
  (exists e, o = Raise e)
  \/ (exists r d raw,
        rep = Answered r
        /\ error_status (status_code r) = false
        /\ body_of r = Some (PDict d)
        /\ Py.dict_get d "state" (PStr "") = PStr raw
        /\ ((in_strs (PyStr.upper raw) ["COMPLETE"; "COMPLETED"] = true
             /\ o = Return (Some (completed tx_id (Py.dict_get d "txHash" PNone))))
            \/ (in_strs (PyStr.upper raw) ["COMPLETE"; "COMPLETED"] = false
                /\ String.eqb (PyStr.upper raw) "FAILED" = false
                /\ o = Return None))).
Proof.
  intros Hnet o. subst o.
  destruct rep as [r | msg].
  - destruct (error_status (status_code r)) eqn:Hs.
    + left. destruct (error_status_rejects (base_url self ++ status_endpoint tx_id) r w Hs)
        as [e He].
      unfold poll_once, bind.
      destruct (is_retry "GET" (status_code r)) eqn:Hr.
      * rewrite (_request_retried env self "GET" (status_endpoint tx_id) None w took r
                   Hnet Hr).
        eexists. reflexivity.
      * rewrite (_request_answered env self "GET" (status_endpoint tx_id) None w took r
                   Hnet Hr).
        rewrite He. cbn [fst as_network_error].
        destruct e; eexists; reflexivity.
    + destruct (body_of r) as [v |] eqn:Hb.
      * destruct v as [| b | n | x | s | l | d];
          try (left; unfold poll_once, bind;
               rewrite (_request_answered env self "GET" (status_endpoint tx_id) None
                          w took r Hnet (accepted_not_retried _ _ Hs));
               rewrite (classify_accepts _ _ _ _ Hs Hb);
               eexists; reflexivity).
        destruct (Py.dict_get d "state" (PStr "")) as [| b | n | x | raw | l | d'] eqn:Hst;
          try (left; unfold poll_once, bind;
               rewrite (_request_answered env self "GET" (status_endpoint tx_id) None
                          w took r Hnet (accepted_not_retried _ _ Hs));
               rewrite (classify_accepts _ _ _ _ Hs Hb);
               cbn [fst as_network_error py_get ret]; rewrite Hst;
               eexists; reflexivity).
        rewrite (poll_once_delivered env self tx_id w took r d raw Hnet Hs Hb Hst).
        cbn [fst].
        destruct (in_strs (PyStr.upper raw) ["COMPLETE"; "COMPLETED"]) eqn:Hc.
        -- right. exists r, d, raw.
           split; [reflexivity |]. split; [exact Hs |]. split; [exact Hb |].
           split; [exact Hst |]. left. split; [exact Hc | reflexivity].
        -- destruct (String.eqb (PyStr.upper raw) "FAILED") eqn:Hf.
           ++ left. eexists. reflexivity.
           ++ right. exists r, d, raw.
              split; [reflexivity |]. split; [exact Hs |]. split; [exact Hb |].
              split; [exact Hst |]. right.
              split; [exact Hc |]. split; [exact Hf | reflexivity].
      * left. unfold poll_once, bind.
        rewrite (_request_answered env self "GET" (status_endpoint tx_id) None w took r Hnet
                   (accepted_not_retried _ _ Hs)).
        unfold body_of in Hb. unfold error_status in Hs.
        apply orb_false_iff in Hs. destruct Hs as [Ha Hp].
        unfold classify. rewrite Ha, Hp.
        destruct (String.eqb (text r) ""); [discriminate |].
        cbn [negb]. unfold response_json.
        destruct (json r) as [[msg |] | v]; [| | discriminate];
          eexists; reflexivity.
  - left. unfold poll_once, bind.
    rewrite (_request_fault env self "GET" (status_endpoint tx_id) None w took msg Hnet).
    eexists. reflexivity.
Qed.

Lemma spaced_from_earlier t t' l : (t' <= t)%Q -> spaced t l -> spaced t' l.
Proof.
  destruct l as [| x l]; [trivial |].
  cbn. intros Ht [Hx Hl]. split; [lra | exact Hl].
Qed.

Hypothesis prompt : forall w rq, (0 <= fst (network env w rq))%Q.

Lemma poll_loop_budget start : forall fuel w out w_end (k : nat),
  poll_loop env fuel self tx_id start w = (out, w_end) ->
  (30 <= (clock w - start) + 2 * inject_Z (Z.of_nat k))%Q ->
  exists polls,
    history w_end = (history w ++ polls)%list
    /\ (length polls <= k)%nat
    /\ Forall (fun x => (sent_at x - start < 30)%Q) polls
    /\ spaced (clock w) polls
    /\ ((k < fuel)%nat -> out <> OutOfFuel).
Proof.
  induction fuel as [| fuel IH]; intros w out w_end k Hrun Hk.
  - inversion Hrun. exists []. rewrite app_nil_r.
    repeat split; try constructor. cbn. lia. intros H. lia.
  - rewrite poll_loop_step in Hrun.
    destruct (Qltb (clock w - start) 30) eqn:Hin.
    + apply Qltb_true in Hin.
      destruct k as [| k].
      { exfalso. change (inject_Z (Z.of_nat 0)) with 0%Q in Hk. lra. }
      assert (E : (inject_Z (Z.of_nat (S k)) == inject_Z (Z.of_nat k) + 1)%Q).
      { rewrite Nat2Z.inj_succ. unfold Z.succ. rewrite inject_Z_plus. reflexivity. }
      rewrite E in Hk.
      destruct (network env w (status_call self tx_id)) as [took rep] eqn:Hnet.
      pose proof (prompt w (status_call self tx_id)) as Htook.
      rewrite Hnet in Htook. cbn [fst] in Htook.
      pose proof (poll_once_world env self tx_id w took rep Hnet) as Hw.
      pose proof (poll_once_cases w took rep Hnet) as Hcases. cbv zeta in Hcases.
      destruct (poll_once env self tx_id w) as [o w1].
      cbn [snd] in Hw. cbn [fst] in Hcases. subst w1.
      set (x0 := {| sent := status_call self tx_id; sent_at := clock w; reply := rep |}).
      assert (Hone : forall out',
                 out' <> OutOfFuel ->
                 (out', record w (status_call self tx_id) took rep) = (out, w_end) ->
                 exists polls,
                   history w_end = (history w ++ polls)%list
                   /\ (length polls <= S k)%nat
                   /\ Forall (fun x => (sent_at x - start < 30)%Q) polls
                   /\ spaced (clock w) polls
                   /\ ((S k < S fuel)%nat -> out <> OutOfFuel)).
      { intros out' Hne Heq. inversion Heq. subst out' w_end.
        exists [x0]. repeat split.
        - cbn. lia.
        - constructor; [exact Hin | constructor].
        - cbn. lra.
        - intros _. exact Hne. }
      destruct o as [[v |] | e |].
      * apply (Hone (Return v)); [discriminate | exact Hrun].
      * apply (IH _ _ _ k) in Hrun.
        -- destruct Hrun as (polls & Hh & Hlen & Hall & Hsp & Hfuel).
           exists (x0 :: polls). repeat split.
           ++ rewrite Hh. cbn [later record history]. rewrite <- app_assoc. reflexivity.
           ++ cbn. lia.
           ++ constructor; [exact Hin | exact Hall].
           ++ cbn. lra.
           ++ apply spaced_from_earlier with (2 := Hsp).
              cbn [later record clock x0 sent_at]. lra.
           ++ intros Hlt. apply Hfuel. lia.
        -- cbn [later record clock]. lra.
      * apply (Hone (Raise e)); [discriminate | exact Hrun].
      * exfalso. destruct Hcases as [[e He] | (r & d & raw & _ & _ & _ & _ & [[_ Ho] | [_ [_ Ho]]])];
          discriminate.
    + inversion Hrun. exists []. rewrite app_nil_r.
      repeat split; try constructor. cbn. lia. intros _. discriminate.
Qed.

End PollerPasses.

(** X11.  The time budget of the poller.  Provided no HTTP call takes
    negative time, a run of [_poll_status] always ends, within 16
    evaluations of the loop condition; it sends at most 15 polls; every
    poll is sent less than 30 seconds after the loop was entered; and two
    successive polls are at least 2 seconds apart. *)
Theorem poller_budget env self tx_id w fuel :
  (forall w' rq, (0 <= fst (network env w' rq))%Q) ->
  (16 <= fuel)%nat ->
  let run := _poll_status env fuel self tx_id w in
  fst run <> OutOfFuel
  /\ exists polls,
       history (snd run) = (history w ++ polls)%list
       /\ (length polls <= 15)%nat
       /\ Forall (fun x => (sent_at x - clock w < 30)%Q) polls
       /\ spaced (clock w) polls.
Proof.
  intros Hprompt Hfuel run. subst run.
  unfold _poll_status, bind, time_time.
  destruct (poll_loop env fuel self tx_id (clock w) w) as [out w_end] eqn:Hrun.
  destruct (poll_loop_budget env self tx_id Hprompt (clock w) fuel w out w_end 15 Hrun)
    as (polls & Hh & Hlen & Hall & Hsp & Hout).
  - change (inject_Z (Z.of_nat 15)) with 15%Q. lra.
  - split; [apply Hout; lia |].
    exists polls. repeat split; assumption.
Qed.

(** The theorem on a service that never settles: exactly 15 polls. *)
Lemma poller_budget_witness :
  let run := _poll_status Scenario.never_settles 16 Scenario.client
               (PStr "txn_123") Scenario.fresh in
  fst run <> OutOfFuel
  /\ length (history (snd run)) = 15%nat.
Proof.
  intros run.
  destruct (poller_budget Scenario.never_settles Scenario.client (PStr "txn_123")
              Scenario.fresh 16) as [Hout _].
  - intros w' rq. cbn. discriminate.
  - lia.
  - split; [exact Hout | vm_compute; reflexivity].
Defined.

Lemma app_self_nil (A : Type) (l p : list A) : l = (l ++ p)%list -> p = [].
Proof.
  intros H. rewrite <- (app_nil_r l) in H at 1.
  apply app_inv_head in H. symmetry. exact H.
Qed.

Section PollerEnds.
Variable env : Env.
Variable self : ModexiaClient.
Variable tx_id : pyval.

(** [ends rep fin]: a pass that receives [rep] ends the whole run with
    [fin]. *)
Variable ends : Reply -> outcome pyval -> Prop.

Hypothesis ends_pass : forall fuel start w took rep fin,
  network env w (status_call self tx_id) = (took, rep) ->
  ends rep fin ->
  Qltb (clock w - start) 30 = true ->
  poll_loop env (S fuel) self tx_id start w
  = (fin, record w (status_call self tx_id) took rep).

(** A poll that ends the run is the last exchange of the run. *)
Lemma poll_loop_ends_at start : forall fuel w out w_end,
  poll_loop env fuel self tx_id start w = (out, w_end) ->
  exists polls,
    history w_end = (history w ++ polls)%list
    /\ forall before x after fin,
        polls = (before ++ x :: after)%list ->
        ends (reply x) fin ->
        after = [] /\ out = fin.
Proof.
  induction fuel as [| fuel IH]; intros w out w_end Hrun.
  - inversion Hrun. exists []. rewrite app_nil_r. split; [reflexivity |].
    intros before x after fin Hsplit. destruct before; discriminate.
  - pose proof Hrun as Hrun0. rewrite poll_loop_step in Hrun.
    destruct (Qltb (clock w - start) 30) eqn:Hin.
    + destruct (network env w (status_call self tx_id)) as [took rep] eqn:Hnet.
      pose proof (poll_once_world env self tx_id w took rep Hnet) as Hw.
      destruct (poll_once env self tx_id w) as [o w1]. cbn [snd] in Hw. subst w1.
      set (x0 := {| sent := status_call self tx_id; sent_at := clock w; reply := rep |}).
      assert (K : forall fin, ends rep fin ->
                  out = fin /\ w_end = record w (status_call self tx_id) took rep).
      { intros fin He.
        rewrite (ends_pass fuel start w took rep fin Hnet He Hin) in Hrun0.
        inversion Hrun0. split; reflexivity. }
      assert (Hone : forall out',
                 (out', record w (status_call self tx_id) took rep) = (out, w_end) ->
                 exists polls,
                   history w_end = (history w ++ polls)%list
                   /\ forall before x after fin,
                       polls = (before ++ x :: after)%list ->
                       ends (reply x) fin ->
                       after = [] /\ out = fin).
      { intros out' Heq. inversion Heq. subst out' w_end.
        exists [x0]. split; [reflexivity |].
        intros before x after fin Hsplit He.
        destruct before as [| b before].
        - inversion Hsplit. subst x after. split; [reflexivity |].
          apply (K fin He).
        - inversion Hsplit. destruct before; discriminate. }
      destruct o as [[v |] | e |]; try (apply (Hone _ Hrun)).
      apply IH in Hrun. destruct Hrun as [polls [Hh Hstop]].
      exists (x0 :: polls). split.
      * rewrite Hh. cbn [later record history]. rewrite <- app_assoc. reflexivity.
      * intros before x after fin Hsplit He.
        destruct before as [| b before].
        -- inversion Hsplit. subst x after.
           destruct (K fin He) as [Hout Hend]. split; [| exact Hout].
           rewrite Hend in Hh. cbn [later record history] in Hh.
           apply (app_self_nil _ _ _ Hh).
        -- inversion Hsplit. subst b polls.
           apply (Hstop before x after fin eq_refl He).
    + inversion Hrun. exists []. rewrite app_nil_r. split; [reflexivity |].
      intros before x after fin Hsplit. destruct before; discriminate.
Qed.

End PollerEnds.

(** X12.  In every run of [_poll_status], an accepted poll response whose
    state reads COMPLETE or COMPLETED in some letter case is the last
    exchange of the run, and the run returns the success result with the
    polled id and the [txHash] of that response, [None] when the response
    has none. *)
Theorem poller_complete_stops env self tx_id fuel w out w_end :
  _poll_status env fuel self tx_id w = (out, w_end) ->
  exists polls,
    history w_end = (history w ++ polls)%list
    /\ forall before x after r d raw,
        polls = (before ++ x :: after)%list ->
        reply x = Answered r ->
        error_status (status_code r) = false ->
        body_of r = Some (PDict d) ->
        Py.dict_get d "state" (PStr "") = PStr raw ->
        PyStr.upper raw = "COMPLETE" \/ PyStr.upper raw = "COMPLETED" ->
        after = []
        /\ out = Return (PDict [("success", PBool true); ("txId", tx_id);
                                ("status", PStr "COMPLETE");
                                ("txHash", Py.dict_get d "txHash" PNone)])
        /\ (Py.lookup d "txHash" = None -> Py.dict_get d "txHash" PNone = PNone).
Proof.
  intros Hrun. unfold _poll_status, bind, time_time in Hrun.
  set (ends := fun (rep : Reply) (fin : outcome pyval) =>
         exists r d raw,
           rep = Answered r
           /\ error_status (status_code r) = false
           /\ body_of r = Some (PDict d)
           /\ Py.dict_get d "state" (PStr "") = PStr raw
           /\ in_strs (PyStr.upper raw) ["COMPLETE"; "COMPLETED"] = true
           /\ fin = Return (completed tx_id (Py.dict_get d "txHash" PNone))).
  assert (Hpass : forall fuel0 start w0 took rep fin,
             network env w0 (status_call self tx_id) = (took, rep) ->
             ends rep fin ->
             Qltb (clock w0 - start) 30 = true ->
             poll_loop env (S fuel0) self tx_id start w0
             = (fin, record w0 (status_call self tx_id) took rep)).
  { intros fuel0 start w0 took rep fin Hnet (r & d & raw & -> & Hs & Hb & Hst & Hc & ->) Hin.
    rewrite poll_loop_step, Hin.
    rewrite (poll_once_delivered env self tx_id w0 took r d raw Hnet Hs Hb Hst).
    rewrite Hc. reflexivity. }
  destruct (poll_loop_ends_at env self tx_id ends Hpass (clock w) fuel w out w_end Hrun)
    as [polls [Hh Hstop]].
  exists polls. split; [exact Hh |].
  intros before x after r d raw Hsplit Hr Hs Hb Hst Hdone.
  destruct (Hstop before x after
              (Return (completed tx_id (Py.dict_get d "txHash" PNone))) Hsplit)
    as [Hafter Hout].
  { exists r, d, raw. repeat split; try assumption.
    apply in_terminal_success. exact Hdone. }
  split; [exact Hafter |]. split; [exact Hout |].
  intros Hl. unfold Py.dict_get. rewrite Hl. reflexivity.
Qed.

(** The theorem on the polls of the transfer test: PENDING, then
    COMPLETE. *)
Lemma poller_complete_stops_witness :
  let w1 := {| clock := 0;
               history := [{| sent := pay_call Scenario.client "0xRecipient"
                                        (Scenario.float_of "10.0") (Scenario.uuids 0);
                              sent_at := 0;
                              reply := Answered Scenario.submission_accepted |}];
               drawn := 1 |} in
  let run := _poll_status Scenario.settles_on_second_poll 16 Scenario.client
               (PStr "txn_123") w1 in
  fst run = Return (completed (PStr "txn_123") (PStr "0xabc123"))
  /\ length (history (snd run)) = 3%nat.
Proof.
  intros w1 run.
  destruct (poller_complete_stops Scenario.settles_on_second_poll Scenario.client
              (PStr "txn_123") 16 w1 (fst run) (snd run) (surjective_pairing run))
    as [polls [Hh Hstop]].
  pose proof Hh as Hpolls. vm_compute in Hpolls.
  apply (app_inv_head [_]) in Hpolls.
  destruct (Hstop [_] _ []
              (Scenario.json_response 200 [("state", "COMPLETE"); ("txHash", "0xabc123")])
              [("state", PStr "COMPLETE"); ("txHash", PStr "0xabc123")]
              "COMPLETE" (eq_sym Hpolls) eq_refl eq_refl eq_refl eq_refl
              (or_introl eq_refl))
    as [_ [Hout _]].
  split; [exact Hout |].
  rewrite Hh, <- Hpolls. reflexivity.
Defined.

(** X13.  A poll that fails ends the run with its failure and is the last
    exchange: a connection fault raises [ModexiaNetworkError]; so does a
    500, 502, 503 or 504, which the retry policy of the session never
    hands back for a GET, with the text of the retry error; a 401 or 403
    raises [ModexiaAuthError]; any other status from 400 up (402 excepted)
    raises [ModexiaPaymentError]; and an accepted body that is not a JSON
    object, or whose [state] is present but is not a string (a null, a
    number), raises [AttributeError]. *)
Theorem poller_failure_stops env self tx_id fuel w out w_end :
  _poll_status env fuel self tx_id w = (out, w_end) ->
  exists polls,
    history w_end = (history w ++ polls)%list
    /\ forall before x after,
        polls = (before ++ x :: after)%list ->
        (forall msg,
           reply x = Fault msg ->
           after = []
           /\ out = Raise (ModexiaNetworkError (PStr ("Connection failed: " ++ msg))))
        /\ (forall r,
              reply x = Answered r ->
              In (status_code r) [500; 502; 503; 504] ->
              after = []
              /\ out = Raise (ModexiaNetworkError
                                (PStr ("Connection failed: "
                                       ++ retry_error env (status_call self tx_id) r))))
        /\ (forall r,
              reply x = Answered r ->
              status_code r = 401 \/ status_code r = 403 ->
              after = []
              /\ out = Raise (ModexiaAuthError (PStr ("Unauthorized: " ++ text r))))
        /\ (forall r,
              reply x = Answered r ->
              400 <= status_code r ->
              status_code r <> 401 -> status_code r <> 403 -> status_code r <> 402 ->
              ~ In (status_code r) [500; 502; 503; 504] ->
              after = []
              /\ out = Raise (ModexiaPaymentError
                                (payment_error_arg
                                   (base_url self ++ status_endpoint tx_id) r)))
        /\ (forall r v,
              reply x = Answered r ->
              error_status (status_code r) = false ->
              body_of r = Some v ->
              is_dict v = false ->
              after = [] /\ out = Raise AttributeError)
        /\ (forall r d s,
              reply x = Answered r ->
              error_status (status_code r) = false ->
              body_of r = Some (PDict d) ->
              Py.lookup d "state" = Some s ->
              (forall raw, s <> PStr raw) ->
              after = [] /\ out = Raise AttributeError).
Proof.
  intros Hrun. unfold _poll_status, bind, time_time in Hrun.
  set (target := base_url self ++ status_endpoint tx_id).
  set (ends := fun (rep : Reply) (fin : outcome pyval) =>
         (exists msg, rep = Fault msg
            /\ fin = Raise (ModexiaNetworkError (PStr ("Connection failed: " ++ msg))))
         \/ (exists r, rep = Answered r
               /\ is_retry "GET" (status_code r) = true
               /\ fin = Raise (ModexiaNetworkError
                                 (PStr ("Connection failed: "
                                        ++ retry_error env (status_call self tx_id) r))))
         \/ (exists r e, rep = Answered r
               /\ is_retry "GET" (status_code r) = false
               /\ classify target r w = (Raise e, w)
               /\ (forall msg, e <> RequestException msg)
               /\ fin = Raise e)
         \/ (exists r v, rep = Answered r
               /\ error_status (status_code r) = false
               /\ body_of r = Some v
               /\ is_dict v = false
               /\ fin = Raise AttributeError)
         \/ (exists r d s, rep = Answered r
               /\ error_status (status_code r) = false
               /\ body_of r = Some (PDict d)
               /\ Py.lookup d "state" = Some s
               /\ (forall raw, s <> PStr raw)
               /\ fin = Raise AttributeError)).
  assert (Hworld : forall r e w0, classify target r w = (Raise e, w) ->
                                 fst (classify target r w0) = Raise e).
  { intros r e w0 Hc.
    assert (Hi : fst (classify target r w0) = fst (classify target r w)).
    { unfold classify.
      destruct (in_ints _ _); [reflexivity |].
      destruct (_ && _).
      - unfold bind, try_except, response_json, py_get, ret, raise.
        destruct (json r) as [[msg |] | v]; try reflexivity.
        destruct v; reflexivity.
      - destruct (negb _); [| reflexivity].
        unfold response_json. destruct (json r) as [[msg |] | v]; reflexivity. }
    rewrite Hi, Hc. reflexivity. }
  assert (Hpass : forall fuel0 start w0 took rep fin,
             network env w0 (status_call self tx_id) = (took, rep) ->
             ends rep fin ->
             Qltb (clock w0 - start) 30 = true ->
             poll_loop env (S fuel0) self tx_id start w0
             = (fin, record w0 (status_call self tx_id) took rep)).
  { intros fuel0 start w0 took rep fin Hnet He Hin.
    rewrite poll_loop_step, Hin. unfold poll_once, bind.
    destruct He as [(msg & -> & ->) | [(r & -> & Hr & ->)
                   | [(r & e & -> & Hr & Hc & Hne & ->)
                   | [(r & v & -> & Hs & Hb & Hv & ->)
                   | (r & d & s & -> & Hs & Hb & Hl & Hns & ->)]]]].
    - rewrite (_request_fault env self "GET" (status_endpoint tx_id) None w0 took msg Hnet).
      reflexivity.
    - rewrite (_request_retried env self "GET" (status_endpoint tx_id) None w0 took r
                 Hnet Hr).
      reflexivity.
    - rewrite (_request_answered env self "GET" (status_endpoint tx_id) None w0 took r
                 Hnet Hr).
      fold target. rewrite (Hworld r e w0 Hc).
      destruct e; try reflexivity. exfalso. apply (Hne msg). reflexivity.
    - rewrite (_request_answered env self "GET" (status_endpoint tx_id) None w0 took r
                 Hnet (accepted_not_retried _ _ Hs)).
      rewrite (classify_accepts _ _ _ _ Hs Hb). cbn [fst as_network_error].
      destruct v; try reflexivity. discriminate.
    - rewrite (_request_answered env self "GET" (status_endpoint tx_id) None w0 took r
                 Hnet (accepted_not_retried _ _ Hs)).
      rewrite (classify_accepts _ _ _ _ Hs Hb). cbn [fst as_network_error py_get ret].
      unfold Py.dict_get. rewrite Hl.
      destruct s; try reflexivity. exfalso. apply (Hns s). reflexivity. }
  destruct (poll_loop_ends_at env self tx_id ends Hpass (clock w) fuel w out w_end Hrun)
    as [polls [Hh Hstop]].
  exists polls. split; [exact Hh |].
  intros before x after Hsplit.
  split; [| split; [| split; [| split; [| split]]]].
  - intros msg Hr. apply (Hstop before x after _ Hsplit).
    left. exists msg. split; [exact Hr | reflexivity].
  - intros r Hr Hs. apply (Hstop before x after _ Hsplit).
    right. left. exists r. split; [exact Hr |]. split; [| reflexivity].
    rewrite get_retried. apply in_forcelist. exact Hs.
  - intros r Hr Hs. apply (Hstop before x after _ Hsplit).
    apply in_auth_codes in Hs.
    right. right. left.
    exists r, (ModexiaAuthError (PStr ("Unauthorized: " ++ text r))).
    split; [exact Hr |]. split; [apply (auth_not_retried _ _ Hs) |].
    split; [| split; [intros msg; discriminate | reflexivity]].
    apply classify_auth. exact Hs.
  - intros r Hr H4 H1 H3 H2 Hf. apply (Hstop before x after _ Hsplit).
    right. right. left. exists r, (ModexiaPaymentError (payment_error_arg target r)).
    split; [exact Hr |]. split.
    { rewrite get_retried. destruct (in_ints (status_code r) status_forcelist) eqn:E;
        [| reflexivity].
      apply in_forcelist in E. contradiction. }
    split; [| split; [intros msg; discriminate | reflexivity]].
    apply classify_payment.
    + apply not_in_auth_codes. split; assumption.
    + apply failing_code; assumption.
  - intros r v Hr Hs Hb Hv. apply (Hstop before x after _ Hsplit).
    right. right. right. left. exists r, v. repeat split; assumption.
  - intros r d s Hr Hs Hb Hl Hns. apply (Hstop before x after _ Hsplit).
    right. right. right. right. exists r, d, s. repeat split; assumption.
Qed.

(** The theorem on a status endpoint that answers with a null state, and
    on one that answers 503. *)
Lemma poller_failure_stops_witness :
  let r := {| status_code := 200;
              headers := [("Content-Type", "application/json")];
              text := "{" ++ Scenario.quoted "state" ++ ": null}";
              json := inr (PDict [("state", PNone)]) |} in
  let down := Scenario.html_response 503 "<html>Service Unavailable</html>"
                (InvalidJSON_RequestException Scenario.decode_message) in
  let run r := _poll_status (Scenario.always (Answered r)) 16 Scenario.client
                 (PStr "txn_123") Scenario.fresh in
  (fst (run r) = Raise AttributeError
   /\ length (history (snd (run r))) = 1%nat)
  /\ (fst (run down)
      = Raise (ModexiaNetworkError
                 (PStr ("Connection failed: "
                        ++ Scenario.too_many
                             (status_call Scenario.client (PStr "txn_123")) down)))
      /\ length (history (snd (run down))) = 1%nat).
Proof.
  intros r down run. split.
  - destruct (poller_failure_stops (Scenario.always (Answered r)) Scenario.client
                (PStr "txn_123") 16 Scenario.fresh (fst (run r)) (snd (run r))
                (surjective_pairing (run r))) as [polls [Hh Hstop]].
    pose proof Hh as Hpolls. vm_compute in Hpolls.
    destruct (Hstop [] _ [] (eq_sym Hpolls)) as (_ & _ & _ & _ & _ & Hstate).
    destruct (Hstate r [("state", PNone)] PNone eq_refl eq_refl eq_refl eq_refl)
      as [_ Hout].
    + intros raw. discriminate.
    + split; [exact Hout |]. rewrite Hh, <- Hpolls. reflexivity.
  - destruct (poller_failure_stops (Scenario.always (Answered down)) Scenario.client
                (PStr "txn_123") 16 Scenario.fresh (fst (run down)) (snd (run down))
                (surjective_pairing (run down))) as [polls [Hh Hstop]].
    pose proof Hh as Hpolls. vm_compute in Hpolls.
    destruct (Hstop [] _ [] (eq_sym Hpolls)) as (_ & Hdown & _).
    destruct (Hdown down eq_refl) as [_ Hout].
    + cbn. tauto.
    + split; [exact Hout |]. rewrite Hh, <- Hpolls. reflexivity.
Defined.

Section PollerGoesOn.
Variable env : Env.
Variable self : ModexiaClient.
Variable tx_id : pyval.

Lemma poll_loop_goes_on start : forall fuel w out w_end,
  poll_loop env fuel self tx_id start w = (out, w_end) ->
  exists polls,
    history w_end = (history w ++ polls)%list
    /\ (forall before x after,
          polls = (before ++ x :: after)%list ->
          after <> [] ->
          exists r d raw,
            reply x = Answered r
            /\ error_status (status_code r) = false
            /\ body_of r = Some (PDict d)
            /\ Py.dict_get d "state" (PStr "") = PStr raw
            /\ PyStr.upper raw <> "COMPLETE"
            /\ PyStr.upper raw <> "COMPLETED"
            /\ PyStr.upper raw <> "FAILED")
    /\ (forall v, out = Return v ->
          v = still_pending tx_id \/ exists tx_hash, v = completed tx_id tx_hash).
Proof.
  induction fuel as [| fuel IH]; intros w out w_end Hrun.
  - inversion Hrun. exists []. rewrite app_nil_r. split; [reflexivity |]. split.
    + intros before x after Hsplit. destruct before; discriminate.
    + intros v Hv. discriminate.
  - rewrite poll_loop_step in Hrun.
    destruct (Qltb (clock w - start) 30).
    + destruct (network env w (status_call self tx_id)) as [took rep] eqn:Hnet.
      pose proof (poll_once_world env self tx_id w took rep Hnet) as Hw.
      pose proof (poll_once_cases env self tx_id w took rep Hnet) as Hcases.
      cbv zeta in Hcases.
      destruct (poll_once env self tx_id w) as [o w1].
      cbn [snd] in Hw. cbn [fst] in Hcases. subst w1.
      set (x0 := {| sent := status_call self tx_id; sent_at := clock w; reply := rep |}).
      assert (Hone : forall out',
                 (forall v, out' = Return v ->
                            v = still_pending tx_id
                            \/ exists tx_hash, v = completed tx_id tx_hash) ->
                 (out', record w (status_call self tx_id) took rep) = (out, w_end) ->
                 exists polls,
                   history w_end = (history w ++ polls)%list
                   /\ (forall before x after,
                         polls = (before ++ x :: after)%list ->
                         after <> [] ->
                         exists r d raw,
                           reply x = Answered r
                           /\ error_status (status_code r) = false
                           /\ body_of r = Some (PDict d)
                           /\ Py.dict_get d "state" (PStr "") = PStr raw
                           /\ PyStr.upper raw <> "COMPLETE"
                           /\ PyStr.upper raw <> "COMPLETED"
                           /\ PyStr.upper raw <> "FAILED")
                   /\ (forall v, out = Return v ->
                         v = still_pending tx_id
                         \/ exists tx_hash, v = completed tx_id tx_hash)).
      { intros out' Hshape Heq. inversion Heq. subst out' w_end.
        exists [x0]. split; [reflexivity |]. split; [| exact Hshape].
        intros before x after Hsplit Hne.
        destruct before as [| b before].
        - inversion Hsplit. subst after. contradiction.
        - inversion Hsplit. destruct before; discriminate. }
      destruct o as [[v |] | e |].
      * apply (Hone (Return v)); [| exact Hrun].
        intros v' Hv'. inversion Hv'. subst v'. right.
        destruct Hcases as [[e He] | (r & d & raw & _ & _ & _ & _ & [[_ Ho] | [_ [_ Ho]]])];
          try discriminate.
        inversion Ho. eexists. reflexivity.
      * apply IH in Hrun. destruct Hrun as (polls & Hh & Hon & Hshape).
        exists (x0 :: polls). split; [| split; [| exact Hshape]].
        -- rewrite Hh. cbn [later record history]. rewrite <- app_assoc. reflexivity.
        -- intros before x after Hsplit Hne.
           destruct before as [| b before].
           ++ inversion Hsplit. subst x after.
              destruct Hcases as [[e He] | (r & d & raw & Hr & Hs & Hb & Hst
                                            & [[_ Ho] | [Hc [Hf _]]])];
                try discriminate.
              exists r, d, raw. cbn [reply x0].
              split; [exact Hr |]. split; [exact Hs |]. split; [exact Hb |].
              split; [exact Hst |].
              assert (Hnot : ~ (PyStr.upper raw = "COMPLETE"
                                \/ PyStr.upper raw = "COMPLETED")).
              { intros Hd. apply in_terminal_success in Hd. congruence. }
              apply String.eqb_neq in Hf. tauto.
           ++ inversion Hsplit. subst b polls.
              apply (Hon before x after eq_refl Hne).
      * apply (Hone (Raise e)); [intros v Hv; discriminate | exact Hrun].
      * apply (Hone OutOfFuel); [intros v Hv; discriminate | exact Hrun].
    + inversion Hrun. exists []. rewrite app_nil_r. split; [reflexivity |]. split.
      * intros before x after Hsplit. destruct before; discriminate.
      * intros v Hv. inversion Hv. left. reflexivity.
Qed.

End PollerGoesOn.

(** X14.  The poller goes round its loop again only after a poll that was
    accepted, decoded to a JSON object, and whose state (the empty string
    when the object has none) is a string that reads neither COMPLETE nor
    COMPLETED nor FAILED: every poll of a run but the last is such a poll.
    And whenever [_poll_status] returns, the value is one of its two
    results for the polled id: the success result with status COMPLETE, or
    the result with status PENDING. *)
Theorem poller_goes_on_only_when_pending env self tx_id fuel w out w_end :
  _poll_status env fuel self tx_id w = (out, w_end) ->
  exists polls,
    history w_end = (history w ++ polls)%list
    /\ (forall before x after,
          polls = (before ++ x :: after)%list ->
          after <> [] ->
          exists r d raw,
            reply x = Answered r
            /\ error_status (status_code r) = false
            /\ body_of r = Some (PDict d)
            /\ Py.dict_get d "state" (PStr "") = PStr raw
            /\ PyStr.upper raw <> "COMPLETE"
            /\ PyStr.upper raw <> "COMPLETED"
            /\ PyStr.upper raw <> "FAILED")
    /\ (forall v, out = Return v ->
          v = PDict [("success", PBool true); ("status", PStr "PENDING");
                     ("txId", tx_id)]
          \/ exists tx_hash,
               v = PDict [("success", PBool true); ("txId", tx_id);
                          ("status", PStr "COMPLETE"); ("txHash", tx_hash)]).
Proof.
  intros Hrun. unfold _poll_status, bind, time_time in Hrun.
  apply (poll_loop_goes_on env self tx_id (clock w) fuel w out w_end Hrun).
Qed.

(** The theorem on the polls of the transfer test: the first of the two
    polls read PENDING. *)
Lemma poller_goes_on_only_when_pending_witness :
  let w1 := {| clock := 0;
               history := [{| sent := pay_call Scenario.client "0xRecipient"
                                        (Scenario.float_of "10.0") (Scenario.uuids 0);
                              sent_at := 0;
                              reply := Answered Scenario.submission_accepted |}];
               drawn := 1 |} in
  let run := _poll_status Scenario.settles_on_second_poll 16 Scenario.client
               (PStr "txn_123") w1 in
  exists x r d raw,
    nth_error (history (snd run)) 1 = Some x
    /\ reply x = Answered r
    /\ body_of r = Some (PDict d)
    /\ Py.dict_get d "state" (PStr "") = PStr raw
    /\ PyStr.upper raw <> "COMPLETE".
Proof.
  intros w1 run.
  destruct (poller_goes_on_only_when_pending Scenario.settles_on_second_poll
              Scenario.client (PStr "txn_123") 16 w1 (fst run) (snd run)
              (surjective_pairing run)) as (polls & Hh & Hon & _).
  pose proof Hh as Hpolls. vm_compute in Hpolls.
  apply (app_inv_head [_]) in Hpolls.
  destruct (Hon [] _ [_] (eq_sym Hpolls)) as (r & d & raw & Hr & _ & Hb & Hst & Hc & _).
  { discriminate. }
  eexists. exists r, d, raw.
  split; [rewrite Hh, <- Hpolls; reflexivity |].
  repeat split; assumption.
Defined.

(* ===================================================================== *)
(** * More on smart_fetch *)
(* ===================================================================== *)

(** X15.  The fetches of [smart_fetch] are plain: a first response whose
    status is not 402 is returned as it is, whatever the status (a 401 or
    a 500 of the origin raises no Modexia error), and a connection fault
    of the first fetch escapes as the [RequestException] of the transport,
    not as [ModexiaNetworkError].  Either way the first fetch is the only
    request of the call. *)
Theorem smart_fetch_without_paywall env fuel self target prms hdrs w took rep :
  network env w (first_get self target prms hdrs) = (took, rep) ->
  let run := smart_fetch env fuel self target prms hdrs w in
  match rep with
  | Answered r =>
      status_code r <> 402 ->
      run = (Return r, record w (first_get self target prms hdrs) took rep)
  | Fault msg =>
      run = (Raise (RequestException msg),
             record w (first_get self target prms hdrs) took rep)
  end.
Proof.
  intros Hnet run. subst run. destruct rep as [r | msg].
  - intros Hs. rewrite (smart_fetch_answered env fuel self target prms hdrs w took r Hnet).
    apply Z.eqb_neq in Hs. rewrite Hs. reflexivity.
  - unfold smart_fetch, requests_get. unfold bind at 1. unfold http at 1.
    fold (given_headers hdrs). fold (first_get self target prms hdrs).
    rewrite Hnet. reflexivity.
Qed.

(** The theorem on an origin that answers 401. *)
Lemma smart_fetch_without_paywall_witness :
  let r := Scenario.html_response 401 "login required"
             (InvalidJSON_RequestException Scenario.decode_message) in
  fst (smart_fetch (Scenario.always (Answered r)) 16 Scenario.client
         Scenario.premium None None Scenario.fresh)
  = Return r.
Proof.
  intros r.
  rewrite (smart_fetch_without_paywall (Scenario.always (Answered r)) 16
             Scenario.client Scenario.premium None None Scenario.fresh
             (1 # 10)%Q (Answered r) eq_refl).
  - reflexivity.
  - discriminate.
Defined.

(** X16.  A 402 challenge with both attributes whose amount is not a
    numeral [float] can read makes [smart_fetch] raise [ValueError]: no
    payment is submitted, the resource is not fetched again, and the 402
    response is not returned. *)
Theorem unreadable_amount env fuel self target prms hdrs w took r a d :
  network env w (first_get self target prms hdrs) = (took, Answered r) ->
  status_code r = 402 ->
  PyStr.search_attr "amount" (challenge_of r) = Some a ->
  PyStr.search_attr "destination" (challenge_of r) = Some d ->
  PyFloat.of_string a = None ->
  smart_fetch env fuel self target prms hdrs w
  = (Raise ValueError,
     record w (first_get self target prms hdrs) took (Answered r)).
Proof.
  intros Hnet H402 Ha Hd Hx.
  rewrite (smart_fetch_answered env fuel self target prms hdrs w took r Hnet).
  rewrite H402. cbn [Z.eqb Pos.eqb].
  unfold _negotiate_paywall. fold (challenge_of r). rewrite Ha, Hd, Hx.
  reflexivity.
Qed.

(** The theorem on a challenge that states its amount with a currency. *)
Lemma unreadable_amount_witness :
  let r := {| status_code := 402;
              headers := [("WWW-Authenticate",
                           "L402 " ++ attribute "amount" "1.50 USD" ++ " "
                                   ++ attribute "destination" "0xCreator")];
              text := "";
              json := inl (InvalidJSON_RequestException Scenario.decode_message) |} in
  let run := smart_fetch (Scenario.always (Answered r)) 16 Scenario.client
               Scenario.premium None None Scenario.fresh in
  fst run = Raise ValueError /\ length (history (snd run)) = 1%nat.
Proof.
  intros r run. subst run.
  rewrite (unreadable_amount (Scenario.always (Answered r)) 16 Scenario.client
             Scenario.premium None None Scenario.fresh (1 # 10)%Q r
             "1.50 USD" "0xCreator" eq_refl eq_refl eq_refl eq_refl eq_refl).
  split; reflexivity.
Defined.

(** X17.  When the payment made for a challenge raises, [smart_fetch]
    raises the same exception and does not fetch the resource again: the
    first fetch is the only request of the call that does not go through
    the session. *)
Theorem payment_failure_propagates
        env fuel self target prms hdrs w took r a d x e w2 :
  network env w (first_get self target prms hdrs) = (took, Answered r) ->
  status_code r = 402 ->
  PyStr.search_attr "amount" (challenge_of r) = Some a ->
  PyStr.search_attr "destination" (challenge_of r) = Some d ->
  PyFloat.of_string a = Some x ->
  transfer env fuel self d (PFloat x) None true
    (record w (first_get self target prms hdrs) took (Answered r))
  = (Raise e, w2) ->
  smart_fetch env fuel self target prms hdrs w = (Raise e, w2)
  /\ exists payment,
       history w2
       = (history w ++ {| sent := first_get self target prms hdrs;
                          sent_at := clock w; reply := Answered r |} :: payment)%list
       /\ Forall (fun x => is_plain x = false) payment.
Proof.
  intros Hnet H402 Ha Hd Hx Hpay.
  split.
  - rewrite (smart_fetch_negotiated env fuel self target prms hdrs w took r a d x
               Hnet H402 Ha Hd Hx).
    rewrite Hpay. reflexivity.
  - apply transfer_history in Hpay.
    destruct Hpay as (ikey & rep & rest & _ & Hh & Hall).
    eexists. split.
    + rewrite Hh. cbn [record history]. rewrite <- app_assoc. reflexivity.
    + constructor; [reflexivity | exact Hall].
Qed.

(** The theorem on a paywall whose payment the service reports FAILED. *)
Lemma payment_failure_propagates_witness :
  let run := smart_fetch Scenario.payment_fails 16 Scenario.client
               Scenario.premium None None Scenario.fresh in
  fst run = Raise (ModexiaPaymentError (PStr "Transfer Failed: insufficient funds"))
  /\ length (filter is_plain (history (snd run))) = 1%nat.
Proof.
  intros run.
  assert (Hread : PyFloat.of_string "1.50"
                  = Some (S754_finite false 6755399441055744 (-52)))
    by (vm_compute; reflexivity).
  set (paid := transfer Scenario.payment_fails 16 Scenario.client "0xCreator"
                 (PFloat (S754_finite false 6755399441055744 (-52))) None true
                 (record Scenario.fresh
                    (first_get Scenario.client Scenario.premium None None)
                    (1 # 10)%Q (Answered Scenario.paywall_402))).
  assert (Hpaid : paid = (Raise (ModexiaPaymentError
                                   (PStr "Transfer Failed: insufficient funds")),
                          snd paid))
    by (vm_compute; reflexivity).
  destruct (payment_failure_propagates Scenario.payment_fails 16 Scenario.client
              Scenario.premium None None Scenario.fresh (1 # 10)%Q
              Scenario.paywall_402 "1.50" "0xCreator"
              (S754_finite false 6755399441055744 (-52)) _ (snd paid)
              eq_refl eq_refl eq_refl eq_refl Hread Hpaid) as [Hrun _].
  fold run in Hrun. rewrite Hrun. cbn [fst snd].
  split; [reflexivity | vm_compute; reflexivity].
Defined.

(** X18.  [smart_fetch] decides on the retry by the receipt being a
    non-empty dict, not by its [success] field.  When the payment service
    accepts the HTTP submission but its response does not report success,
    that response is the receipt: if it is a non-empty object the
    resource is fetched again all the same, with [Authorization] set to
    [L402 ] followed by the text of its [txId] (the text [None] when it
    has none) and [X-Payment-Proof] set to that [txId] value; if it is the
    empty object the original 402 response is returned. *)
Theorem declined_payment_still_retries
        env fuel self target prms hdrs w took r a d x ikey w0 took1 r1 data :
  network env w (first_get self target prms hdrs) = (took, Answered r) ->
  status_code r = 402 ->
  PyStr.search_attr "amount" (challenge_of r) = Some a ->
  PyStr.search_attr "destination" (challenge_of r) = Some d ->
  PyFloat.of_string a = Some x ->
  choose_key env None (record w (first_get self target prms hdrs) took (Answered r))
  = (Return ikey, w0) ->
  network env w0 (pay_call self d (PFloat x) ikey) = (took1, Answered r1) ->
  error_status (status_code r1) = false ->
  body_of r1 = Some (PDict data) ->
  Py.truthy (Py.dict_get data "success" PNone) = false ->
  let w2 := record w0 (pay_call self d (PFloat x) ikey) took1 (Answered r1) in
  let tx := Py.dict_get data "txId" PNone in
  let retry := paid_get self target prms hdrs tx in
  (data <> [] ->
   smart_fetch env fuel self target prms hdrs w = http env retry w2
   /\ Py.lookup (req_headers retry) "Authorization"
      = Some (PStr ("L402 " ++ Py.str tx))
   /\ Py.lookup (req_headers retry) "X-Payment-Proof" = Some tx
   /\ (Py.lookup data "txId" = None ->
       Py.lookup (req_headers retry) "Authorization" = Some (PStr "L402 None")))
  /\ (data = [] ->
      smart_fetch env fuel self target prms hdrs w = (Return r, w2)).
Proof.
  intros Hnet H402 Ha Hd Hx Hkey Hnet1 Hs1 Hb1 Hno w2 tx retry.
  assert (Hpay : transfer env fuel self d (PFloat x) None true
                   (record w (first_get self target prms hdrs) took (Answered r))
                 = (Return (PDict data), w2)).
  { rewrite (transfer_submits env fuel self d (PFloat x) None true _ ikey w0 took1 r1
               data Hkey Hnet1 Hs1 Hb1).
    rewrite Hno. reflexivity. }
  pose proof (smart_fetch_negotiated env fuel self target prms hdrs w took r a d x
                Hnet H402 Ha Hd Hx) as Hrun.
  rewrite Hpay in Hrun.
  split.
  - intros Hne. destruct data as [| kv data']; [contradiction |].
    split; [exact Hrun |].
    destruct (paid_headers_carry (given_headers hdrs) tx) as [Hauth Hproof].
    split; [exact Hauth |]. split; [exact Hproof |].
    intros Hl. subst retry. cbn [paid_get plain_get req_headers].
    rewrite Hauth. subst tx. unfold Py.dict_get. rewrite Hl. reflexivity.
  - intros ->. exact Hrun.
Qed.

(** The theorem on a payment service that declines in a 200 response. *)
Lemma declined_payment_still_retries_witness :
  let run := smart_fetch Scenario.payment_declined 16 Scenario.client
               Scenario.premium None None Scenario.fresh in
  fst run = Return Scenario.secret_200
  /\ option_map (fun e => req_headers (sent e)) (nth_error (history (snd run)) 2)
     = Some [("Authorization", PStr "L402 None"); ("X-Payment-Proof", PNone)].
Proof.
  intros run.
  assert (Hread : PyFloat.of_string "1.50"
                  = Some (S754_finite false 6755399441055744 (-52)))
    by (vm_compute; reflexivity).
  destruct (declined_payment_still_retries Scenario.payment_declined 16
              Scenario.client Scenario.premium None None Scenario.fresh (1 # 10)%Q
              Scenario.paywall_402 "1.50" "0xCreator"
              (S754_finite false 6755399441055744 (-52))
              (Scenario.uuids 0)
              {| clock := 0 + (1 # 10);
                 history := [{| sent := first_get Scenario.client Scenario.premium
                                          None None;
                                sent_at := 0;
                                reply := Answered Scenario.paywall_402 |}];
                 drawn := 1 |}
              (1 # 10)%Q
              (Scenario.json_response 200 [("error", "insufficient funds")])
              [("error", PStr "insufficient funds")]
              eq_refl eq_refl eq_refl eq_refl Hread eq_refl eq_refl eq_refl eq_refl
              eq_refl) as [Hretry _].
  destruct Hretry as [Hrun _]; [discriminate |].
  fold run in Hrun. rewrite Hrun. vm_compute. split; reflexivity.
Defined.

Section FetchShape.
Variable env : Env.
Variable fuel : nat.
Variable self : ModexiaClient.
Variable target : string.
Variable prms : option pydict.
Variable hdrs : option pydict.

(** The exchanges of a call: the first fetch, then the payment service,
    then at most one paid fetch. *)
Lemma smart_fetch_shape w out w_end :
  smart_fetch env fuel self target prms hdrs w = (out, w_end) ->
  exists rep1 pay tail,
    history w_end
    = (history w ++ {| sent := first_get self target prms hdrs;
                       sent_at := clock w; reply := rep1 |} :: pay ++ tail)%list
    /\ Forall (fun e => is_plain e = false) pay
    /\ (tail = []
        \/ exists tx at2 rep2,
             tail = [{| sent := paid_get self target prms hdrs tx;
                        sent_at := at2; reply := rep2 |}]).
Proof.
  intros Hrun.
  destruct (network env w (first_get self target prms hdrs)) as [took rep] eqn:Hnet.
  assert (Hone : forall o,
             (o, record w (first_get self target prms hdrs) took rep) = (out, w_end) ->
             exists rep1 pay tail,
               history w_end
               = (history w ++ {| sent := first_get self target prms hdrs;
                                  sent_at := clock w; reply := rep1 |} :: pay ++ tail)%list
               /\ Forall (fun e => is_plain e = false) pay
               /\ (tail = []
                   \/ exists tx at2 rep2,
                        tail = [{| sent := paid_get self target prms hdrs tx;
                                   sent_at := at2; reply := rep2 |}])).
  { intros o Heq. inversion Heq. exists rep, [], [].
    split; [reflexivity |]. split; [constructor | left; reflexivity]. }
  destruct rep as [r | msg].
  - rewrite (smart_fetch_answered env fuel self target prms hdrs w took r Hnet) in Hrun.
    destruct (status_code r =? 402); [| apply (Hone _ Hrun)].
    destruct (_negotiate_paywall env fuel self r _) as [o w2] eqn:Hneg.
    apply negotiate_history in Hneg. destruct Hneg as [pay [Hh Hall]].
    assert (Hstay : forall (b : bool) o1 o2,
               (if b then (o1, w2) else (o2, w2)) = (out, w_end) ->
               exists rep1 pay tail,
                 history w_end
                 = (history w ++ {| sent := first_get self target prms hdrs;
                                    sent_at := clock w; reply := rep1 |}
                              :: pay ++ tail)%list
                 /\ Forall (fun e => is_plain e = false) pay
                 /\ (tail = []
                     \/ exists tx at2 rep2,
                          tail = [{| sent := paid_get self target prms hdrs tx;
                                     sent_at := at2; reply := rep2 |}])).
    { intros b o1 o2 Heq.
      assert (Hw : w_end = w2) by (destruct b; inversion Heq; reflexivity).
      subst w_end. exists (Answered r), pay, [].
      split; [| split; [exact Hall | left; reflexivity]].
      rewrite Hh. cbn [record history]. rewrite app_nil_r, <- app_assoc. reflexivity. }
    destruct o as [receipt | e |];
      [| apply (Hstay true _ (Raise e) Hrun) | apply (Hstay true _ OutOfFuel Hrun)].
    destruct receipt as [| b | n | f | s | l | entries];
      try (apply (Hstay _ _ _ Hrun)).
    { apply (Hstay false (Raise AttributeError) (Return r) Hrun). }
    destruct (Py.truthy (PDict entries)); [| apply (Hstay false (Return r) _ Hrun)].
    unfold http in Hrun.
    destruct (network env w2 (paid_get self target prms hdrs
                                (Py.dict_get entries "txId" PNone))) as [took2 rep2].
    exists (Answered r), pay,
      [{| sent := paid_get self target prms hdrs (Py.dict_get entries "txId" PNone);
          sent_at := clock w2; reply := rep2 |}].
    split; [| split; [exact Hall | right; do 3 eexists; reflexivity]].
    destruct rep2; inversion Hrun; cbn [record history]; rewrite Hh;
      cbn [record history]; rewrite <- !app_assoc; reflexivity.
  - unfold smart_fetch, requests_get in Hrun. unfold bind at 1 in Hrun.
    unfold http at 1 in Hrun. fold (given_headers hdrs) in Hrun.
    fold (first_get self target prms hdrs) in Hrun. rewrite Hnet in Hrun.
    apply (Hone _ Hrun).
Qed.

End FetchShape.

(** X19.  Whatever happens in a call of [smart_fetch], every request it
    sends outside the session is a GET of the URL it was given, with the
    caller's query parameters and the client's timeout, and with the
    caller's headers unchanged but for [Authorization] and
    [X-Payment-Proof]: in particular the API key of the session is never
    added to a request to the origin. *)
Theorem smart_fetch_requests env fuel self target prms hdrs w out w_end :
  smart_fetch env fuel self target prms hdrs w = (out, w_end) ->
  exists exchanges,
    history w_end = (history w ++ exchanges)%list
    /\ forall e,
        In e exchanges ->
        via (sent e) = Plain ->
        method (sent e) = "GET"
        /\ url (sent e) = target
        /\ params (sent e) = prms
        /\ req_timeout (sent e) = timeout self
        /\ (forall k, k <> "Authorization" -> k <> "X-Payment-Proof" ->
                      Py.lookup (req_headers (sent e)) k
                      = Py.lookup (given_headers hdrs) k)
        /\ Py.lookup (req_headers (sent e)) "x-modexia-key"
           = Py.lookup (given_headers hdrs) "x-modexia-key".
Proof.
  intros Hrun.
  destruct (smart_fetch_shape env fuel self target prms hdrs w out w_end Hrun)
    as (rep1 & pay & tail & Hh & Hall & Htail).
  eexists. split; [exact Hh |].
  assert (Hpaid : forall tx k, k <> "Authorization" -> k <> "X-Payment-Proof" ->
                    Py.lookup (paid_headers (given_headers hdrs) tx) k
                    = Py.lookup (given_headers hdrs) k).
  { intros tx k H1 H2. unfold paid_headers.
    rewrite lookup_dict_set_other by congruence.
    apply lookup_dict_set_other. congruence. }
  intros e Hin Hplain.
  destruct Hin as [<- | Hin].
  - cbn. repeat split.
  - apply in_app_or in Hin. destruct Hin as [Hin | Hin].
    + exfalso. rewrite Forall_forall in Hall. specialize (Hall e Hin).
      unfold is_plain in Hall. rewrite Hplain in Hall. discriminate.
    + destruct Htail as [-> | (tx & at2 & rep2 & ->)]; [destruct Hin |].
      destruct Hin as [<- | []]. cbn [sent paid_get plain_get method url params
                                     req_timeout req_headers].
      repeat split.
      * intros k H1 H2. apply Hpaid; assumption.
      * apply Hpaid; discriminate.
Qed.

(** The theorem on the paywall of the test suite, fetched with a caller's
    own header. *)
Lemma smart_fetch_requests_witness :
  let run := smart_fetch Scenario.paywalled 16 Scenario.client Scenario.premium
               None (Some [("Accept", PStr "application/json")]) Scenario.fresh in
  exists e,
    nth_error (history (snd run)) 3 = Some e
    /\ via (sent e) = Plain
    /\ url (sent e) = Scenario.premium
    /\ Py.lookup (req_headers (sent e)) "Accept" = Some (PStr "application/json")
    /\ Py.lookup (req_headers (sent e)) "x-modexia-key" = None.
Proof.
  intros run.
  destruct (smart_fetch_requests Scenario.paywalled 16 Scenario.client
              Scenario.premium None (Some [("Accept", PStr "application/json")])
              Scenario.fresh (fst run) (snd run) (surjective_pairing run))
    as [exchanges [Hh Hall]].
  pose proof Hh as Hx. vm_compute in Hx. rewrite <- Hx in Hall.
  eexists. split; [rewrite Hh, <- Hx; reflexivity |].
  split; [reflexivity |].
  match goal with
  | |- url (sent ?e) = _ /\ _ =>
      destruct (Hall e (or_intror (or_intror (or_intror (or_introl eq_refl)))) eq_refl)
        as (_ & Hurl & _ & _ & Hkeep & Hkey)
  end.
  split; [exact Hurl |]. split.
  - rewrite Hkeep by discriminate. reflexivity.
  - rewrite Hkey. reflexivity.
Defined.

(* ===================================================================== *)
(** * Reading the challenge header *)
(* ===================================================================== *)

Lemma str_app_assoc (a b c : string) : (a ++ b) ++ c = a ++ (b ++ c).
Proof.
  induction a as [| x a IH]; [reflexivity |]. cbn. rewrite IH. reflexivity.
Qed.

Lemma str_app_nil_r (a : string) : a ++ "" = a.
Proof.
  induction a as [| x a IH]; [reflexivity |]. cbn. rewrite IH. reflexivity.
Qed.

Lemma str_app_length (a b : string) :
  String.length (a ++ b) = (String.length a + String.length b)%nat.
Proof.
  induction a as [| x a IH]; [reflexivity |]. cbn. rewrite IH. reflexivity.
Qed.

Lemma contains_app c (a b : string) :
  Py.contains c (a ++ b) = Py.contains c a || Py.contains c b.
Proof.
  induction a as [| x a IH]; [reflexivity |].
  cbn. rewrite IH. apply orb_assoc.
Qed.

Lemma quote_free_app (a b : string) :
  quote_free (a ++ b) = quote_free a && quote_free b.
Proof.
  unfold quote_free. rewrite contains_app. apply negb_orb.
Qed.

Lemma startswith_split (p s : string) :
  PyStr.startswith p s = true -> s = p ++ PyStr.drop (String.length p) s.
Proof.
  revert s. induction p as [| a p IH]; intros s H; [reflexivity |].
  destruct s as [| b s]; [discriminate |].
  cbn in H. apply andb_true_iff in H. destruct H as [Hab Hp].
  apply Ascii.eqb_eq in Hab. subst b. cbn. rewrite <- (IH s Hp). reflexivity.
Qed.

Lemma startswith_app (p s : string) : PyStr.startswith p (p ++ s) = true.
Proof.
  induction p as [| a p IH]; [reflexivity |].
  cbn. rewrite Ascii.eqb_refl. exact IH.
Qed.

Lemma drop_app (p s : string) : PyStr.drop (String.length p) (p ++ s) = s.
Proof.
  induction p as [| a p IH]; [reflexivity | exact IH].
Qed.

Lemma span_unquoted_spec (s run rest : string) :
  PyStr.span_unquoted s = (run, rest) ->
  s = run ++ rest
  /\ quote_free run = true
  /\ (rest = "" \/ exists rest', rest = String PyStr.dquote rest').
Proof.
  revert run rest. induction s as [| c s IH]; intros run rest H.
  - inversion H. repeat split. left. reflexivity.
  - cbn in H. destruct (Ascii.eqb c PyStr.dquote) eqn:Ec.
    + inversion H. apply Ascii.eqb_eq in Ec. subst c.
      repeat split. right. eexists. reflexivity.
    + destruct (PyStr.span_unquoted s) as [run' rest'].
      inversion H. subst run rest.
      destruct (IH run' rest' eq_refl) as (Hs & Hq & Hr).
      split; [cbn; rewrite <- Hs; reflexivity |]. split; [| exact Hr].
      unfold quote_free in *. cbn. rewrite Ec. exact Hq.
Qed.

Lemma span_unquoted_value (g rest : string) :
  quote_free g = true ->
  PyStr.span_unquoted (g ++ String PyStr.dquote rest) = (g, String PyStr.dquote rest).
Proof.
  induction g as [| c g IH]; intros Hq.
  - reflexivity.
  - unfold quote_free in Hq. cbn in Hq. apply negb_true_iff in Hq.
    apply orb_false_iff in Hq. destruct Hq as [Hc Hg].
    cbn. rewrite Hc. rewrite IH; [reflexivity |].
    unfold quote_free. rewrite Hg. reflexivity.
Qed.

Lemma attribute_app (key value post : string) :
  attribute key value ++ post
  = (key ++ String "=" (String PyStr.dquote EmptyString))
      ++ value ++ String PyStr.dquote post.
Proof.
  unfold attribute. rewrite !str_app_assoc. cbn. rewrite str_app_assoc. reflexivity.
Qed.

Lemma match_attr_here_sound (key s g : string) :
  PyStr.match_attr_here key s = Some g ->
  g <> "" /\ quote_free g = true /\ exists post, s = attribute key g ++ post.
Proof.
  unfold PyStr.match_attr_here.
  set (opener := key ++ String "=" (String PyStr.dquote EmptyString)).
  destruct (PyStr.startswith opener s) eqn:Hp; [| discriminate].
  apply startswith_split in Hp.
  destruct (PyStr.span_unquoted (PyStr.drop (String.length opener) s))
    as [run rest] eqn:Hspan.
  destruct (span_unquoted_spec _ _ _ Hspan) as (Hs & Hq & Hr).
  destruct run as [| c run]; [discriminate |].
  destruct rest as [| q rest]; [discriminate |].
  intros H. inversion H. subst g.
  split; [discriminate |]. split; [exact Hq |].
  destruct Hr as [Hr | [rest' Hr]]; [discriminate |].
  inversion Hr. subst q rest'.
  exists rest. rewrite attribute_app. fold opener.
  rewrite Hp at 1. rewrite Hs. reflexivity.
Qed.

Lemma match_attr_here_value (key g post : string) :
  g <> "" -> quote_free g = true ->
  PyStr.match_attr_here key (attribute key g ++ post) = Some g.
Proof.
  intros Hne Hq. rewrite attribute_app. unfold PyStr.match_attr_here.
  rewrite startswith_app, drop_app, (span_unquoted_value g post Hq).
  destruct g; [contradiction | reflexivity].
Qed.

(** X20.  What [_negotiate_paywall] reads for an attribute is always a
    non-empty value without a double quote that stands in the header
    between double quotes, right after the attribute name and an equals
    sign; an attribute whose quoted value is empty is never read. *)
Theorem search_attr_sound (key s g : string) :
  PyStr.search_attr key s = Some g ->
  g <> ""
  /\ quote_free g = true
  /\ exists pre post, s = pre ++ attribute key g ++ post.
Proof.
  induction s as [| c s IH]; intros H.
  - cbn in H. destruct (PyStr.match_attr_here key "") eqn:Hm; [| discriminate].
    inversion H. subst s.
    destruct (match_attr_here_sound _ _ _ Hm) as (Hne & Hq & post & Hs).
    split; [exact Hne |]. split; [exact Hq |]. exists "", post. exact Hs.
  - cbn [PyStr.search_attr] in H.
    destruct (PyStr.match_attr_here key (String c s)) eqn:Hm.
    + inversion H. subst s0.
      destruct (match_attr_here_sound _ _ _ Hm) as (Hne & Hq & post & Hs).
      split; [exact Hne |]. split; [exact Hq |]. exists "", post. exact Hs.
    + destruct (IH H) as (Hne & Hq & pre & post & Hs).
      split; [exact Hne |]. split; [exact Hq |].
      exists (String c pre), post. cbn. rewrite <- Hs. reflexivity.
Qed.

(** The theorem on the challenge of the test suite. *)
Lemma search_attr_sound_witness :
  "1.50" <> ""
  /\ quote_free "1.50" = true
  /\ exists pre post,
       Scenario.challenge = pre ++ attribute "amount" "1.50" ++ post.
Proof.
  apply (search_attr_sound "amount" Scenario.challenge "1.50"). reflexivity.
Defined.

Lemma first_quote_unique (u u' v v' : string) :
  quote_free u = true -> quote_free u' = true ->
  u ++ String PyStr.dquote v = u' ++ String PyStr.dquote v' ->
  u = u' /\ v = v'.
Proof.
  revert u'. induction u as [| c u IH]; intros u' Hu Hu' H.
  - destruct u' as [| c' u'].
    + inversion H. split; reflexivity.
    + cbn in H. inversion H. subst c'.
      unfold quote_free in Hu'. cbn in Hu'. discriminate.
  - destruct u' as [| c' u'].
    + cbn in H. inversion H. subst c.
      unfold quote_free in Hu. cbn in Hu. discriminate.
    + cbn in H. inversion H. subst c'.
      unfold quote_free in Hu, Hu'. cbn in Hu, Hu'.
      apply negb_true_iff in Hu. apply negb_true_iff in Hu'.
      apply orb_false_iff in Hu. apply orb_false_iff in Hu'.
      destruct (IH u') as [E1 E2].
      * unfold quote_free. rewrite (proj2 Hu). reflexivity.
      * unfold quote_free. rewrite (proj2 Hu'). reflexivity.
      * assumption.
      * subst. split; reflexivity.
Qed.

Lemma match_attr_here_opener (key t : string) :
  PyStr.match_attr_here key t <> None ->
  exists v, t = (key ++ "=") ++ String PyStr.dquote v.
Proof.
  unfold PyStr.match_attr_here. intros H.
  destruct (PyStr.startswith _ t) eqn:Hp; [| contradiction].
  apply startswith_split in Hp. eexists. rewrite Hp at 1.
  rewrite str_app_assoc. cbn. rewrite str_app_assoc. reflexivity.
Qed.

Lemma search_attr_here (key s g : string) :
  PyStr.match_attr_here key s = Some g -> PyStr.search_attr key s = Some g.
Proof.
  intros H. destruct s; cbn [PyStr.search_attr]; rewrite H; reflexivity.
Qed.

(** Positions where the pattern does not match are passed over. *)
Lemma search_attr_skip (key u rest : string) :
  (forall u1 u2, u = u1 ++ u2 -> u2 <> "" ->
                 PyStr.match_attr_here key (u2 ++ rest) = None) ->
  PyStr.search_attr key (u ++ rest) = PyStr.search_attr key rest.
Proof.
  induction u as [| c u IH]; intros H; [reflexivity |].
  cbn [append PyStr.search_attr].
  assert (H0 : PyStr.match_attr_here key (String c (u ++ rest)) = None).
  { apply (H "" (String c u) eq_refl). discriminate. }
  rewrite H0.
  apply IH. intros u1 u2 Hu Hne.
  apply (H (String c u1) u2); [cbn; rewrite Hu; reflexivity | exact Hne].
Qed.

Lemma search_attr_mismatch (k c : ascii) (key s : string) :
  Ascii.eqb k c = false ->
  PyStr.search_attr (String k key) (String c s) = PyStr.search_attr (String k key) s.
Proof.
  intros H. cbn [PyStr.search_attr]. unfold PyStr.match_attr_here.
  cbn [append PyStr.startswith]. rewrite H. reflexivity.
Qed.

Lemma suffix_quote_free (u u1 u2 : string) :
  u = u1 ++ u2 -> quote_free u = true -> quote_free u2 = true.
Proof.
  intros -> H. rewrite quote_free_app in H. apply andb_true_iff in H. tauto.
Qed.

(** X21.  A challenge written as a scheme, the attribute [amount] and the
    attribute [destination], separated by spaces, is read back exactly:
    provided scheme and values hold no double quote, the values are not
    empty and the amount holds no equals sign, [_negotiate_paywall]'s two
    searches return the amount and the destination that were written. *)
Theorem challenge_round_trip (scheme a d : string) :
  quote_free scheme = true ->
  a <> "" -> quote_free a = true -> Py.contains "=" a = false ->
  d <> "" -> quote_free d = true ->
  let header := scheme ++ " " ++ attribute "amount" a ++ " "
                       ++ attribute "destination" d in
  PyStr.search_attr "amount" header = Some a
  /\ PyStr.search_attr "destination" header = Some d.
Proof.
  intros Hscheme Ha Hqa Hea Hd Hqd header.
  set (Y := attribute "destination" d).
  set (R := a ++ String PyStr.dquote (String " " Y)).
  assert (Hh : header = scheme ++ String " " ("amount=" ++ String PyStr.dquote R)).
  { subst header R. fold Y. unfold attribute at 1. cbn.
    rewrite str_app_assoc. reflexivity. }
  rewrite Hh. clear Hh header.
  assert (Hpast : forall key u1 u2 g,
             scheme = u1 ++ u2 ->
             PyStr.match_attr_here key
               (u2 ++ String " " ("amount=" ++ String PyStr.dquote R)) = Some g ->
             quote_free (key ++ "=") = true ->
             u2 ++ " amount=" = key ++ "=").
  { intros key u1 u2 g Hu Hm Hkey.
    assert (Hsome : PyStr.match_attr_here key
                      (u2 ++ String " " ("amount=" ++ String PyStr.dquote R)) <> None)
      by (rewrite Hm; discriminate).
    destruct (match_attr_here_opener key _ Hsome) as [v Hv].
    assert (Hv' : (u2 ++ " amount=") ++ String PyStr.dquote R
                  = (key ++ "=") ++ String PyStr.dquote v)
      by (rewrite str_app_assoc; exact Hv).
    apply first_quote_unique in Hv'.
    - apply Hv'.
    - rewrite quote_free_app, (suffix_quote_free _ _ _ Hu Hscheme). reflexivity.
    - exact Hkey. }
  split.
  - rewrite search_attr_skip.
    + rewrite search_attr_mismatch by reflexivity.
      apply search_attr_here.
      assert (E : "amount=" ++ String PyStr.dquote R
                  = attribute "amount" a ++ String " " Y)
        by (rewrite attribute_app; reflexivity).
      rewrite E. apply match_attr_here_value; assumption.
    + intros u1 u2 Hu Hne.
      destruct (PyStr.match_attr_here "amount" _) as [g |] eqn:Hm; [| reflexivity].
      exfalso.
      pose proof (Hpast "amount" u1 u2 g Hu Hm eq_refl) as Hv.
      apply (f_equal String.length) in Hv.
      rewrite str_app_length in Hv. cbn in Hv. lia.
  - rewrite search_attr_skip.
    + cbn [append].
      do 9 (rewrite search_attr_mismatch by reflexivity).
      subst R. rewrite search_attr_skip.
      * do 2 (rewrite search_attr_mismatch by reflexivity).
        apply search_attr_here. subst Y.
        rewrite <- (str_app_nil_r (attribute "destination" d)).
        apply match_attr_here_value; assumption.
      * intros u1 u2 Hu Hne.
        destruct (PyStr.match_attr_here "destination" _) as [g |] eqn:Hm;
          [| reflexivity].
        exfalso.
        assert (Hsome : PyStr.match_attr_here "destination"
                          (u2 ++ String PyStr.dquote (String " " Y)) <> None)
          by (rewrite Hm; discriminate).
        destruct (match_attr_here_opener "destination" _ Hsome) as [v Hv].
        apply first_quote_unique in Hv.
        -- destruct Hv as [Hv _]. subst u2. subst a.
           rewrite contains_app in Hea. apply orb_false_iff in Hea.
           destruct Hea as [_ Hea]. discriminate Hea.
        -- apply (suffix_quote_free _ _ _ Hu Hqa).
        -- reflexivity.
    + intros u1 u2 Hu Hne.
      destruct (PyStr.match_attr_here "destination" _) as [g |] eqn:Hm; [| reflexivity].
      exfalso.
      pose proof (Hpast "destination" u1 u2 g Hu Hm eq_refl) as Hv.
      assert (Hlen : String.length u2 = 4%nat).
      { apply (f_equal String.length) in Hv.
        rewrite str_app_length in Hv. cbn in Hv. lia. }
      destruct u2 as [| c1 [| c2 [| c3 [| c4 [| c5 u2]]]]]; cbn in Hlen; try lia.
      cbn in Hv. discriminate Hv.
Qed.

(** The theorem on the challenge of the test suite. *)
Lemma challenge_round_trip_witness :
  PyStr.search_attr "amount" Scenario.challenge = Some "1.50"
  /\ PyStr.search_attr "destination" Scenario.challenge = Some "0xCreator".
Proof.
  apply (challenge_round_trip "L402" "1.50" "0xCreator");
    try reflexivity; discriminate.
Defined.

(* ===================================================================== *)
(** * The soft timeout is never early *)
(* ===================================================================== *)

Lemma poll_loop_pending_is_late env self tx_id start : forall fuel w w_end,
  poll_loop env fuel self tx_id start w = (Return (still_pending tx_id), w_end) ->
  (30 <= clock w_end - start)%Q.
Proof.
  induction fuel as [| fuel IH]; intros w w_end Hrun.
  - discriminate Hrun.
  - rewrite poll_loop_step in Hrun.
    destruct (Qltb (clock w - start) 30) eqn:Hin.
    + destruct (network env w (status_call self tx_id)) as [took rep] eqn:Hnet.
      pose proof (poll_once_cases env self tx_id w took rep Hnet) as Hcases.
      cbv zeta in Hcases.
      destruct (poll_once env self tx_id w) as [o w1]. cbn [fst] in Hcases.
      destruct o as [[v |] | e |]; try discriminate Hrun.
      * exfalso.
        destruct Hcases as [[e He] | (r & d & raw & _ & _ & _ & _ & [[_ Ho] | [_ [_ Ho]]])];
          try discriminate.
        inversion Ho. subst v. inversion Hrun.
      * apply (IH _ _ Hrun).
    + apply Qltb_false in Hin. inversion Hrun. subst w_end. exact Hin.
Qed.

(** X22.  The poller reports PENDING only when its budget is spent: in a
    run of [_poll_status] that returns the result with status PENDING, at
    least 30 seconds have passed between the entry of the loop and the
    return. *)
Theorem pending_only_after_budget env self tx_id fuel w w_end :
  _poll_status env fuel self tx_id w
  = (Return (PDict [("success", PBool true); ("status", PStr "PENDING");
                    ("txId", tx_id)]), w_end) ->
  (30 <= clock w_end - clock w)%Q.
Proof.
  intros Hrun. unfold _poll_status, bind, time_time in Hrun.
  apply (poll_loop_pending_is_late env self tx_id (clock w) fuel w w_end Hrun).
Qed.

(** The theorem on a service that never settles: the run ends 31.5 s
    after it began. *)
Lemma pending_only_after_budget_witness :
  let run := _poll_status Scenario.never_settles 16 Scenario.client
               (PStr "txn_123") Scenario.fresh in
  (30 <= clock (snd run) - clock Scenario.fresh)%Q
  /\ (clock (snd run) == 63 # 2)%Q.
Proof.
  intros run. split.
  - apply (pending_only_after_budget Scenario.never_settles Scenario.client
             (PStr "txn_123") 16 Scenario.fresh (snd run)).
    vm_compute. reflexivity.
  - vm_compute. reflexivity.
Defined.
